(** * VirtualGL: faker life cycle, thread-local context and the
      display-server test harness

    A shallow embedding of [server/faker.cpp] and of the [main] function of
    [rr/rrdisplayserverut.cpp], with the properties that the design
    document states about them.

    Conventions.
    - C integers are values of [Z]; every conversion to a fixed-width type
      is written out ([to_long], [to_int]).  [long] is 64 bits wide and
      [int] is 32 bits wide (LP64).
    - C strings are values of [string] that hold no NUL character
      ([cstr]); reading past the end of a [string] reads the terminator.
    - Code that changes the process-wide state runs in the state monad
      [M]; calls to collaborators that are outside the embedded files are
      recorded in the [events] log of the state. *)

From Stdlib Require Import ZArith List Bool Ascii String Lia.
Import ListNotations.

Local Open Scope string_scope.
Local Open Scope list_scope.
Local Open Scope Z_scope.

(* ================================================================= *)
(** ** C integer types *)

Definition LONG_MIN : Z := - 2 ^ 63.
Definition LONG_MAX : Z := 2 ^ 63 - 1.
Definition INT_MIN : Z := - 2 ^ 31.
Definition INT_MAX : Z := 2 ^ 31 - 1.

(** Conversion to [long]: the value modulo 2^64, in the signed range. *)
Definition to_long (z : Z) : Z := (z + 2 ^ 63) mod 2 ^ 64 - 2 ^ 63.

(** Conversion to [int]: the value modulo 2^32, in the signed range. *)
Definition to_int (z : Z) : Z := (z + 2 ^ 31) mod 2 ^ 32 - 2 ^ 31.

Definition in_long (z : Z) : Prop := LONG_MIN <= z <= LONG_MAX.
Definition in_int (z : Z) : Prop := INT_MIN <= z <= INT_MAX.

(** Pointers are addresses; [NULL] is address zero. *)
Definition pointer := Z.
Definition NULL : pointer := 0.

(* ================================================================= *)
(** ** Thread-local context (faker.cpp, lines 43-50) *)

(** One field per [VGL_THREAD_LOCAL(name, type, defaultValue)]
    declaration.  The record is the state of ONE thread. *)
Record ThreadLocals : Type := mkThreadLocals {
  TraceLevel : Z;            (* long *)
  FakerLevel : Z;            (* long *)
  ExcludeCurrent : bool;
  AutotestColor : Z;         (* long *)
  AutotestRColor : Z;        (* long *)
  AutotestFrame : Z;         (* long *)
  AutotestDisplay : pointer; (* Display * *)
  AutotestDrawable : Z       (* long *)
}.

(** Modelled from the spec: the macro [VGL_THREAD_LOCAL] lives in
    threadlocal.h, which is not among the sources.  The spec (4.3) gives
    it as "typed get/set per field, default values defined per field";
    the defaults are the third argument of each declaration. *)
Definition thread_defaults : ThreadLocals :=
  {| TraceLevel := 0; FakerLevel := 0; ExcludeCurrent := false;
     AutotestColor := -1; AutotestRColor := -1; AutotestFrame := -1;
     AutotestDisplay := NULL; AutotestDrawable := 0 |}.

Definition getFakerLevel (t : ThreadLocals) : Z := FakerLevel t.
Definition getExcludeCurrent (t : ThreadLocals) : bool := ExcludeCurrent t.
Definition getAutotestColor (t : ThreadLocals) : Z := AutotestColor t.
Definition getAutotestRColor (t : ThreadLocals) : Z := AutotestRColor t.
Definition getAutotestFrame (t : ThreadLocals) : Z := AutotestFrame t.
Definition getAutotestDisplay (t : ThreadLocals) : pointer := AutotestDisplay t.
Definition getAutotestDrawable (t : ThreadLocals) : Z := AutotestDrawable t.

Definition setFakerLevel (v : Z) (t : ThreadLocals) : ThreadLocals :=
  {| TraceLevel := TraceLevel t; FakerLevel := v;
     ExcludeCurrent := ExcludeCurrent t;
     AutotestColor := AutotestColor t; AutotestRColor := AutotestRColor t;
     AutotestFrame := AutotestFrame t;
     AutotestDisplay := AutotestDisplay t;
     AutotestDrawable := AutotestDrawable t |}.

Definition setExcludeCurrent (v : bool) (t : ThreadLocals) : ThreadLocals :=
  {| TraceLevel := TraceLevel t; FakerLevel := FakerLevel t;
     ExcludeCurrent := v;
     AutotestColor := AutotestColor t; AutotestRColor := AutotestRColor t;
     AutotestFrame := AutotestFrame t;
     AutotestDisplay := AutotestDisplay t;
     AutotestDrawable := AutotestDrawable t |}.

(** The fields typed [long] hold [long] values. *)
Record thread_wf (t : ThreadLocals) : Prop := mkThreadWf {
  wf_TraceLevel : in_long (TraceLevel t);
  wf_FakerLevel : in_long (FakerLevel t);
  wf_AutotestColor : in_long (AutotestColor t);
  wf_AutotestRColor : in_long (AutotestRColor t);
  wf_AutotestFrame : in_long (AutotestFrame t);
  wf_AutotestDrawable : in_long (AutotestDrawable t)
}.

(** [_vgl_disableFaker], faker.cpp lines 341-345.  The sum is computed
    in [long]. *)
Definition _vgl_disableFaker (t : ThreadLocals) : ThreadLocals :=
  let t := setFakerLevel (to_long (getFakerLevel t + 1)) t in
  setExcludeCurrent true t.

(** [_vgl_enableFaker], faker.cpp lines 347-351. *)
Definition _vgl_enableFaker (t : ThreadLocals) : ThreadLocals :=
  let t := setFakerLevel (to_long (getFakerLevel t - 1)) t in
  setExcludeCurrent false t.

(** [_vgl_getAutotestColor], faker.cpp lines 319-327.  [d] is a
    [Drawable] (an unsigned long), compared after the cast [(long)d];
    [right] is an [int] used as a condition; the [long] colour is
    returned as an [int]. *)
Definition _vgl_getAutotestColor
    (t : ThreadLocals) (dpy : pointer) (d : Z) (right : Z) : Z :=
  if (getAutotestDisplay t =? dpy) && (getAutotestDrawable t =? to_long d)
  then to_int (if negb (right =? 0) then getAutotestRColor t
               else getAutotestColor t)
  else -1.

(** [_vgl_getAutotestFrame], faker.cpp lines 330-337. *)
Definition _vgl_getAutotestFrame
    (t : ThreadLocals) (dpy : pointer) (d : Z) : Z :=
  if (getAutotestDisplay t =? dpy) && (getAutotestDrawable t =? to_long d)
  then to_int (getAutotestFrame t)
  else -1.

(* ================================================================= *)
(** ** Process-wide state (faker.cpp, lines 37-39) and its collaborators *)

(** The resource registries that [cleanup] names, in the order in which
    it visits them.  The last three exist only when the faker is built
    with [EGLBACKEND]. *)
Inductive registry : Type :=
| PixmapHash | VisualHash | ContextHash | GLXDrawableHash | WindowHash
| EGLPbufferHash | EGLContextHash | EGLConfigHash.

Definition registry_eqb (a b : registry) : bool :=
  match a, b with
  | PixmapHash, PixmapHash | VisualHash, VisualHash
  | ContextHash, ContextHash | GLXDrawableHash, GLXDrawableHash
  | WindowHash, WindowHash | EGLPbufferHash, EGLPbufferHash
  | EGLContextHash, EGLContextHash | EGLConfigHash, EGLConfigHash => true
  | _, _ => false
  end.

(** Calls that leave the embedded file, in the order in which they are
    made. *)
Inductive event : Type :=
| EvLock                    (* globalMutex.lock(false) / gcs->lock(false) *)
| EvUnlock                  (* globalMutex.unlock(false) / gcs->unlock(false) *)
| EvKill (r : registry)     (* <registry>.kill() *)
| EvFree (p : pointer)      (* free(glExtensions) *)
| EvUnloadSymbols           (* unloadSymbols() *)
| EvDeleteConfig            (* fconfig_deleteinstance() *)
| EvExit (retcode : Z)      (* exit(retcode) *)
| EvPthreadExit.            (* pthread_exit(0) *)

(** A registry instance is [None] while it has not been allocated and
    [Some handles] once it has. *)
Definition table := option (list Z).

Record Faker : Type := mkFaker {
  dpy3D : pointer;
  deadYet : bool;
  glExtensions : pointer;
  hashes : registry -> table;
  globalMutex_instance : bool;
  events : list event
}.

(** The values of the initialisers, with no registry and no critical
    section allocated yet. *)
Definition Faker_init : Faker :=
  {| dpy3D := NULL; deadYet := false; glExtensions := NULL;
     hashes := fun _ => None; globalMutex_instance := false;
     events := [] |}.

(** *** The state monad of the faker's global code *)

Definition M (A : Type) : Type := Faker -> A * Faker.

Definition ret {A : Type} (a : A) : M A := fun s => (a, s).

Definition bind {A B : Type} (m : M A) (f : A -> M B) : M B :=
  fun s => let (a, s') := m s in f a s'.

Declare Scope faker_scope.
Delimit Scope faker_scope with faker.
Notation "x <- m ;; k" := (bind m (fun x => k))
  (at level 61, m at next level, right associativity) : faker_scope.
Notation "m ;; k" := (bind m (fun _ => k))
  (at level 61, right associativity) : faker_scope.
Local Open Scope faker_scope.

Definition when (b : bool) (m : M unit) : M unit :=
  if b then m else ret tt.

Definition state_of {A : Type} (r : A * Faker) : Faker := snd r.
Definition value_of {A : Type} (r : A * Faker) : A := fst r.

Definition emit (e : event) : M unit :=
  fun s => (tt, {| dpy3D := dpy3D s; deadYet := deadYet s;
                   glExtensions := glExtensions s; hashes := hashes s;
                   globalMutex_instance := globalMutex_instance s;
                   events := events s ++ [e] |}).

Definition get_deadYet : M bool := fun s => (deadYet s, s).

Definition set_deadYet (b : bool) : M unit :=
  fun s => (tt, {| dpy3D := dpy3D s; deadYet := b;
                   glExtensions := glExtensions s; hashes := hashes s;
                   globalMutex_instance := globalMutex_instance s;
                   events := events s |}).

Definition get_glExtensions : M pointer := fun s => (glExtensions s, s).

Definition set_table (r : registry) (t : table) : M unit :=
  fun s => (tt, {| dpy3D := dpy3D s; deadYet := deadYet s;
                   glExtensions := glExtensions s;
                   hashes := fun r' => if registry_eqb r r' then t
                                       else hashes s r';
                   globalMutex_instance := globalMutex_instance s;
                   events := events s |}).

(** Modelled from the spec: the registry classes (PixmapHash.h,
    VisualHash.h, ContextHash.h, GLXDrawableHash.h, WindowHash.h and the
    EGL ones) are not among the sources.  [isAlloc] is the spec's
    [isAllocated()]. *)
Definition isAlloc (r : registry) : M bool :=
  fun s => (match hashes s r with Some _ => true | None => false end, s).

(** Modelled from the spec: [kill()] "releases all entries and the table
    itself" and "leaves the registry in a state where [isAllocated()] is
    false" (4.2, 8).  The call itself is logged. *)
Definition kill (r : registry) : M unit :=
  emit (EvKill r) ;; set_table r None.

(** Modelled from the spec: GlobalCriticalSection.h is not among the
    sources.  The critical section is a lazily allocated instance (4.1):
    [getInstance(create)] reports whether an instance exists, allocating
    one first when [create] holds. *)
Definition GlobalCriticalSection_getInstance (create : bool) : M bool :=
  fun s =>
    let inst := globalMutex_instance s || create in
    (inst, {| dpy3D := dpy3D s; deadYet := deadYet s;
              glExtensions := glExtensions s; hashes := hashes s;
              globalMutex_instance := inst; events := events s |}).

(** [globalMutex] abbreviates [*GlobalCriticalSection::getInstance()]. *)
Definition globalMutex_lock : M unit :=
  _ <- GlobalCriticalSection_getInstance true ;; emit EvLock.

Definition globalMutex_unlock : M unit :=
  _ <- GlobalCriticalSection_getInstance true ;; emit EvUnlock.

(** fakerconfig.cpp is not among the sources: the call is logged. *)
Definition fconfig_deleteinstance : M unit := emit EvDeleteConfig.

(** faker-sym.cpp is not among the sources: the call is logged. *)
Definition unloadSymbols : M unit := emit EvUnloadSymbols.

Definition free (p : pointer) : M unit := emit (EvFree p).

(** How a call that does not return ends. *)
Inductive termination : Type :=
| ProcessExit (retcode : Z)
| ThreadExit.

Definition exit (retcode : Z) : M termination :=
  emit (EvExit retcode) ;; ret (ProcessExit retcode).

Definition pthread_exit : M termination :=
  emit EvPthreadExit ;; ret ThreadExit.

(* ================================================================= *)
(** ** Life cycle (faker.cpp, lines 53-102) *)

Section Lifecycle.

(** Whether the faker is compiled with [EGLBACKEND] defined. *)
Variable EGLBACKEND : bool.

(** [cleanup], faker.cpp lines 53-67. *)
Definition cleanup : M unit :=
  b <- isAlloc PixmapHash ;; when b (kill PixmapHash) ;;
  b <- isAlloc VisualHash ;; when b (kill VisualHash) ;;
  b <- isAlloc ContextHash ;; when b (kill ContextHash) ;;
  b <- isAlloc GLXDrawableHash ;; when b (kill GLXDrawableHash) ;;
  b <- isAlloc WindowHash ;; when b (kill WindowHash) ;;
  when EGLBACKEND
    (b <- isAlloc EGLPbufferHash ;; when b (kill EGLPbufferHash) ;;
     b <- isAlloc EGLContextHash ;; when b (kill EGLContextHash) ;;
     b <- isAlloc EGLConfigHash ;; when b (kill EGLConfigHash)) ;;
  p <- get_glExtensions ;; free p ;;
  unloadSymbols.

(** [safeExit], faker.cpp lines 70-85. *)
Definition safeExit (retcode : Z) : M termination :=
  globalMutex_lock ;;
  shutdown <- get_deadYet ;;
  dead <- get_deadYet ;;
  when (negb dead)
    (set_deadYet true ;;
     cleanup ;;
     fconfig_deleteinstance) ;;
  globalMutex_unlock ;;
  if negb shutdown then exit retcode else pthread_exit.

(** [GlobalCleanup::~GlobalCleanup], faker.cpp lines 92-100: the
    destructor of the static object [globalCleanup], run when the process
    exits. *)
Definition GlobalCleanup_destructor : M unit :=
  gcs <- GlobalCriticalSection_getInstance false ;;
  when gcs (emit EvLock) ;;
  fconfig_deleteinstance ;;
  set_deadYet true ;;
  when gcs (emit EvUnlock).

(** *** Executions of the process *)

(** The two operations of the file that write [deadYet]. *)
Inductive op : Type :=
| SafeExit (retcode : Z)
| StaticDestructors.

Definition exec (o : op) : M unit :=
  match o with
  | SafeExit retcode => _ <- safeExit retcode ;; ret tt
  | StaticDestructors => GlobalCleanup_destructor
  end.

Fixpoint run (ops : list op) : M unit :=
  match ops with
  | [] => ret tt
  | o :: ops' => exec o ;; run ops'
  end.

(** The threads that reach [safeExit], in the order in which the global
    mutex lets them in, each with how its call ends. *)
Fixpoint threads_race (retcodes : list Z) : M (list termination) :=
  match retcodes with
  | [] => ret []
  | rc :: rest =>
      t <- safeExit rc ;;
      ts <- threads_race rest ;;
      ret (t :: ts)
  end.

End Lifecycle.

(** *** Reading the event log *)

Definition is_kill (e : event) : bool :=
  match e with EvKill _ => true | _ => false end.

Definition is_kill_of (r : registry) (e : event) : bool :=
  match e with EvKill r' => registry_eqb r r' | _ => false end.

Definition is_delete_config (e : event) : bool :=
  match e with EvDeleteConfig => true | _ => false end.

Definition is_exit (e : event) : bool :=
  match e with EvExit _ => true | _ => false end.


(** The actions of global teardown: what [cleanup] and
    [fconfig_deleteinstance] do. *)
Definition is_teardown (e : event) : bool :=
  match e with
  | EvKill _ | EvFree _ | EvUnloadSymbols | EvDeleteConfig => true
  | _ => false
  end.

Definition count (f : event -> bool) (l : list event) : nat :=
  List.length (filter f l).

(** The registries that the build has. *)
Definition registries (EGLBACKEND : bool) : list registry :=
  [PixmapHash; VisualHash; ContextHash; GLXDrawableHash; WindowHash]
  ++ (if EGLBACKEND then [EGLPbufferHash; EGLContextHash; EGLConfigHash]
      else []).

Definition allocated (s : Faker) (r : registry) : bool :=
  match hashes s r with Some _ => true | None => false end.

Definition is_unload_symbols (e : event) : bool :=
  match e with EvUnloadSymbols => true | _ => false end.

(** A log in which global teardown ran exactly once: one run of
    [cleanup] (which ends with its one call of [unloadSymbols]) and one
    deletion of the configuration instance. *)
Definition teardown_exactly_once (l : list event) : Prop :=
  count is_unload_symbols l = 1%nat /\ count is_delete_config l = 1%nat.

(** What a thread that finds [deadYet] set logs in [safeExit]. *)
Definition late_thread : list event := [EvLock; EvUnlock; EvPthreadExit].

(** A state in which the registries of [l] are allocated, each holding
    the handles [hs], and no other is. *)
Definition with_registries (l : list registry) (hs : list Z) (s : Faker)
  : Faker :=
  {| dpy3D := dpy3D s; deadYet := deadYet s;
     glExtensions := glExtensions s;
     hashes := fun r => if existsb (registry_eqb r) l then Some hs else None;
     globalMutex_instance := globalMutex_instance s;
     events := events s |}.

Definition is_destructor (o : op) : bool :=
  match o with StaticDestructors => true | SafeExit _ => false end.

(** How often the static destructor runs in an execution. *)
Definition destructor_runs (ops : list op) : nat :=
  List.length (filter is_destructor ops).

(** The execution begins with a call of [safeExit]: [safeExit] is
    entered before any run of the static destructor. *)
Definition starts_with_safeExit (ops : list op) : bool :=
  match ops with
  | SafeExit _ :: _ => true
  | _ => false
  end.

(** The state after the guarded call [if(isAlloc(r)) r.kill()]. *)
Definition after_kill (r : registry) (s : Faker) : Faker :=
  if allocated s r then state_of (kill r s) else s.

Definition kill_all (l : list registry) (s : Faker) : Faker :=
  fold_left (fun s' r => after_kill r s') l s.

(** The state after the last two calls of [cleanup]. *)
Definition release_globals (s : Faker) : Faker :=
  state_of ((p <- get_glExtensions ;; free p ;; unloadSymbols) s).

(** What a run of [m] from [s] adds to the log. *)
Definition emitted {A : Type} (m : M A) (s : Faker) : list event :=
  skipn (List.length (events s)) (events (state_of (m s))).

(* ================================================================= *)
(** ** C strings and the libc functions that the code calls *)

(** The value of a character as an [unsigned char]. *)
Definition uchar (c : ascii) : Z := Z.of_N (N_of_ascii c).

(** The character that a [char *] points at: the terminator at the end. *)
Definition peek (s : string) : Z :=
  match s with
  | EmptyString => 0
  | String c _ => uchar c
  end.

Fixpoint cstrb (s : string) : bool :=
  match s with
  | EmptyString => true
  | String c t => negb (uchar c =? 0) && cstrb t
  end.

(** A C string holds no NUL before its terminator. *)
Definition cstr (s : string) : Prop := cstrb s = true.

(** [tolower] in the C locale. *)
Definition tolower (c : Z) : Z :=
  if (65 <=? c) && (c <=? 90) then c + 32 else c.

(** [strcasecmp]: the difference of the first two characters that differ
    after [tolower], zero when the terminator is reached first. *)
Fixpoint strcasecmp (s1 s2 : string) : Z :=
  let result := tolower (peek s1) - tolower (peek s2) in
  if result =? 0 then
    match s1, s2 with
    | String _ t1, String _ t2 => strcasecmp t1 t2
    | _, _ => 0
    end
  else result.

(** [strncasecmp]: as [strcasecmp], over at most [n] characters. *)
Fixpoint strncasecmp (s1 s2 : string) (n : nat) : Z :=
  match n with
  | O => 0
  | S n' =>
      let result := tolower (peek s1) - tolower (peek s2) in
      if result =? 0 then
        match s1, s2 with
        | String _ t1, String _ t2 => strncasecmp t1 t2 n'
        | _, _ => 0
        end
      else result
  end.

Fixpoint is_delim (delim : string) (c : ascii) : bool :=
  match delim with
  | EmptyString => false
  | String d delim' => Ascii.eqb c d || is_delim delim' c
  end.

(** [s + strspn(s, delim)]: [s] past its leading delimiters. *)
Fixpoint skip_delims (delim s : string) : string :=
  match s with
  | EmptyString => EmptyString
  | String c t => if is_delim delim c then skip_delims delim t else s
  end.

(** The characters of [s] before its first delimiter, and [s] from that
    delimiter on ([strpbrk]); the second part is empty when [s] holds no
    delimiter. *)
Fixpoint split_at_delim (delim s : string) : string * string :=
  match s with
  | EmptyString => (EmptyString, EmptyString)
  | String c t =>
      if is_delim delim c then (EmptyString, s)
      else let (tok, rest) := split_at_delim delim t in (String c tok, rest)
  end.

(** [strtok(str, delim)].  [olds] is the pointer that [strtok] saves
    between calls; [str] is [None] for a NULL argument.  The result is
    NULL ([None]) when only delimiters are left, and else the next token,
    whose delimiter is overwritten with a terminator; the second component
    is the new saved pointer. *)
Definition strtok (str : option string) (delim : string) (olds : string)
  : option string * string :=
  let s := match str with Some s => s | None => olds end in
  match skip_delims delim s with
  | EmptyString => (None, EmptyString)
  | String c t =>
      let (token, rest) := split_at_delim delim (String c t) in
      (Some token,
       match rest with
       | EmptyString => EmptyString
       | String _ rest' => rest'
       end)
  end.

Definition isspace (c : Z) : bool :=
  (c =? 32) || ((9 <=? c) && (c <=? 13)).

Definition isdigit (c : Z) : bool := (48 <=? c) && (c <=? 57).

Fixpoint skip_spaces (s : string) : string :=
  match s with
  | EmptyString => EmptyString
  | String c t => if isspace (uchar c) then skip_spaces t else s
  end.

(** The value of the decimal digits at the start of [s], after [acc]. *)
Fixpoint digits_value (acc : Z) (s : string) : Z :=
  match s with
  | EmptyString => acc
  | String c t =>
      if isdigit (uchar c) then digits_value (10 * acc + (uchar c - 48)) t
      else acc
  end.

(** [strtol(s, NULL, 10)]: white space, an optional sign, decimal digits;
    a value outside of [long] is clamped. *)
Definition strtol10 (s : string) : Z :=
  let s := skip_spaces s in
  let v :=
    match s with
    | String c t =>
        if uchar c =? 45 then - digits_value 0 t
        else if uchar c =? 43 then digits_value 0 t
        else digits_value 0 s
    | EmptyString => 0
    end in
  Z.max LONG_MIN (Z.min LONG_MAX v).

(** [atoi(s)] is [(int)strtol(s, NULL, 10)]. *)
Definition atoi (s : string) : Z := to_int (strtol10 s).

(* ================================================================= *)
(** ** Excluded displays (faker.cpp, lines 259-275) *)

(** The delimiters [", \t"]: comma, space, tab. *)
Definition display_delims : string :=
  String "," (String " " (String (ascii_of_nat 9) EmptyString)).

(** The loop of [isDisplayStringExcluded], entered with the token
    [excluded] and the saved pointer [olds] of [strtok].  One unit of
    [fuel] pays for one further turn. *)
Fixpoint excluded_loop (fuel : nat) (name : string)
    (excluded : option string) (olds : string) : option bool :=
  match excluded with
  | None => Some false
  | Some token =>
      if strcasecmp name token =? 0 then Some true
      else
        match fuel with
        | O => None
        | S fuel' =>
            let (excluded', olds') := strtok None display_delims olds in
            excluded_loop fuel' name excluded' olds'
        end
  end.

(** [isDisplayStringExcluded(name)].  [excludeddpys] is the value of
    [fconfig.excludeddpys] once [fconfig_reloadenv()] has run; [strdup]
    copies it.  [None] would mean that the fuel, the length of the list,
    did not suffice. *)
Definition isDisplayStringExcluded (excludeddpys name : string)
  : option bool :=
  let dpyList := excludeddpys in
  let (excluded, olds) := strtok (Some dpyList) display_delims EmptyString in
  excluded_loop (String.length dpyList) name excluded olds.

(** *** What the spec says of the list *)

(** The fields of [s] between delimiters, empty ones included. *)
Fixpoint fields (delim s : string) : list string :=
  match s with
  | EmptyString => [EmptyString]
  | String c t =>
      if is_delim delim c then EmptyString :: fields delim t
      else
        match fields delim t with
        | f :: fs => String c f :: fs
        | [] => [String c EmptyString]
        end
  end.

(** The tokens of a list: its fields that are not empty. *)
Definition tokens (delim s : string) : list string :=
  filter (fun f => negb (String.eqb f EmptyString)) (fields delim s).

Fixpoint lower_string (s : string) : list Z :=
  match s with
  | EmptyString => []
  | String c t => tolower (uchar c) :: lower_string t
  end.

(** Equality of two strings when case is ignored. *)
Definition eq_ignoring_case (a b : string) : Prop :=
  lower_string a = lower_string b.

(* ================================================================= *)
(** ** The display-server test harness (rrdisplayserverut.cpp) *)

(** Conversion to [unsigned short]. *)
Definition to_ushort (z : Z) : Z := z mod 2 ^ 16.

(** On this platform [stricmp] and [strnicmp] are the names that the
    utility header gives to [strcasecmp] and [strncasecmp]. *)
Definition stricmp : string -> string -> Z := strcasecmp.
Definition strnicmp : string -> string -> nat -> Z := strncasecmp.

Definition argc (argv : list string) : Z := Z.of_nat (List.length argv).

(** [argv[i]]. *)
Definition arg (argv : list string) (i : Z) : string :=
  nth (Z.to_nat i) argv EmptyString.

(** What the harness does outside of itself, in order. *)
Inductive hevent : Type :=
| HUsage (argv0 : string)
| HCreatingWindow (win : Z)
| HTesting (iter : Z)
| HConnect (clientname : string) (port : Z) (usessl : bool)
| HGetBitmap (i f : Z)
| HSendFrame (i f : Z) (qual : Z) (winid : Z)
| HDisconnect (i : Z)
| HCaught
| HDestroyWindow (win : Z)
| HCloseDisplay (dpy : pointer).

(** The answers of X11 and of the display client to the harness. *)
Record Env : Type := mkEnv {
  XInitThreads_status : bool;
  XOpenDisplay_result : pointer;
  XCreateSimpleWindow_result : Z;
  XMapRaised_status : bool;
  DisplayString : string;
  connect_ok : Z -> bool;         (* the constructor does not throw *)
  getbitmap_ok : Z -> Z -> bool;  (* a frame is returned *)
  sendframe_ok : Z -> Z -> bool   (* the frame is sent without a throw *)
}.

(** The options that the harness has read from its arguments. *)
Record options : Type := mkOptions {
  opt_iter : Z;
  opt_frames : Z;
  opt_usessl : bool;
  opt_clientname : option string;
  opt_port : Z
}.

(** The byte that lines 72-73 store at offset [j] of the frame of
    iteration [i]. *)
Definition frame_byte (i j : Z) : Z :=
  if Z.rem j 2 =? 0 then (if Z.rem i 2 =? 0 then 255 else 0)
  else (if Z.rem i 2 =? 0 then 0 else 255).

(** [for(x = from; ...; x++)] run [count] times, stopped by a throw:
    the log, and whether the loop ended without one. *)
Fixpoint for_up (count : nat) (x : Z) (body : Z -> list hevent * bool)
  : list hevent * bool :=
  match count with
  | O => ([], true)
  | S count' =>
      let (l, ok) := body x in
      if ok then
        let (l', ok') := for_up count' (x + 1) body in (l ++ l', ok')
      else (l, false)
  end.

Section Harness.

(** The default ports are macros of rr.h, which is not among the
    sources. *)
Variables RR_DEFAULTPORT RR_DEFAULTSSLPORT : Z.

(** The condition of line 28. *)
Definition usage_error (argv : list string) : bool :=
  (argc argv <? 3) || (atoi (arg argv 1) <? 1) || (atoi (arg argv 2) <? 1).

(** The loop of lines 38-45, at index [i].  One unit of [fuel] pays for
    one turn. *)
Fixpoint scan_options (fuel : nat) (argv : list string) (i : Z)
    (usessl : bool) (clientname : option string) : bool * option string :=
  match fuel with
  | O => (usessl, clientname)
  | S fuel' =>
      if i <? argc argv then
        let usessl :=
          if stricmp (arg argv i) "-ssl" =? 0 then true else usessl in
        if (strnicmp (arg argv i) "-cl" 3 =? 0) && (i <? argc argv - 1)
        then scan_options fuel' argv (i + 1 + 1) usessl
               (Some (arg argv (i + 1)))
        else scan_options fuel' argv (i + 1) usessl clientname
      else (usessl, clientname)
  end.

(** Lines 27-48: [None] when the usage message is printed. *)
Definition parse_args (argv : list string) : option options :=
  if usage_error argv then None
  else
    let iter := atoi (arg argv 1) in
    let frames := atoi (arg argv 2) in
    let (usessl, clientname) :=
      scan_options (List.length argv) argv 0 false None in
    let port :=
      to_ushort (if usessl then RR_DEFAULTSSLPORT else RR_DEFAULTPORT) in
    Some {| opt_iter := iter; opt_frames := frames; opt_usessl := usessl;
            opt_clientname := clientname; opt_port := port |}.

(** Lines 69-78, one frame. *)
Definition send_one (env : Env) (win i f : Z) : list hevent * bool :=
  if getbitmap_ok env i f then
    if sendframe_ok env i f then
      ([HGetBitmap i f; HSendFrame i f 50 win], true)
    else ([HGetBitmap i f; HSendFrame i f 50 win], false)
  else ([HGetBitmap i f], false).

(** Lines 65-80, one cycle: connect, send the frames, disconnect. *)
Definition cycle (env : Env) (o : options) (clientname : string)
    (win i : Z) : list hevent * bool :=
  let connect := HConnect clientname (opt_port o) (opt_usessl o) in
  if connect_ok env i then
    let (l, ok) := for_up (Z.to_nat (opt_frames o)) 0 (send_one env win i) in
    if ok then (connect :: l ++ [HDisconnect i], true)
    else (connect :: l, false)
  else ([connect], false).

(** Lines 50-80, the rest of the [try] block: the display and the window
    that were obtained, the log, and whether the block ended without a
    throw. *)
Definition try_block (env : Env) (o : options)
  : pointer * Z * list hevent * bool :=
  if negb (XInitThreads_status env) then (NULL, 0, [], false)
  else
    let dpy := XOpenDisplay_result env in
    if dpy =? NULL then (dpy, 0, [], false)
    else
      let win := XCreateSimpleWindow_result env in
      if win =? 0 then (dpy, win, [], false)
      else if negb (XMapRaised_status env)
      then (dpy, win, [HCreatingWindow win], false)
      else
        let clientname :=
          match opt_clientname o with
          | Some c => c
          | None => DisplayString env
          end in
        let (l, ok) :=
          for_up (Z.to_nat (opt_iter o)) 0 (cycle env o clientname win) in
        (dpy, win, HCreatingWindow win :: HTesting (opt_iter o) :: l, ok).

(** [main]: the exit status of the process and the log. *)
Definition main (env : Env) (argv : list string) : Z * list hevent :=
  match parse_args argv with
  | None => (1, [HUsage (arg argv 0)])
  | Some o =>
      let '(dpy, win, l, ok) := try_block env o in
      (0,
       l ++ (if ok then [] else [HCaught])
         ++ (if negb (win =? 0) then [HDestroyWindow win] else [])
         ++ (if negb (dpy =? NULL) then [HCloseDisplay dpy] else []))
  end.

End Harness.

(** *** Reading the harness log *)

Definition is_usage (e : hevent) : bool :=
  match e with HUsage _ => true | _ => false end.

Definition is_connect (e : hevent) : bool :=
  match e with HConnect _ _ _ => true | _ => false end.

Definition is_sendframe (e : hevent) : bool :=
  match e with HSendFrame _ _ _ _ => true | _ => false end.

Definition is_disconnect (e : hevent) : bool :=
  match e with HDisconnect _ => true | _ => false end.

Definition hcount (f : hevent -> bool) (l : list hevent) : Z :=
  Z.of_nat (List.length (filter f l)).

(** The arguments are malformed. *)
Definition malformed (argv : list string) : Prop :=
  argc argv < 3 \/ atoi (arg argv 1) < 1 \/ atoi (arg argv 2) < 1.

(** No collaborator of the harness fails. *)
Record env_succeeds (env : Env) : Prop := mkEnvSucceeds {
  ok_XInitThreads : XInitThreads_status env = true;
  ok_XOpenDisplay : XOpenDisplay_result env <> NULL;
  ok_XCreateSimpleWindow : XCreateSimpleWindow_result env <> 0;
  ok_XMapRaised : XMapRaised_status env = true;
  ok_connect : forall i, connect_ok env i = true;
  ok_getbitmap : forall i f, getbitmap_ok env i f = true;
  ok_sendframe : forall i f, sendframe_ok env i f = true
}.

(** The arguments that the option loop looks at: the argument that
    follows one starting with [-cl] is taken as the client name and is
    passed over. *)
Fixpoint option_args (args : list string) : list string :=
  match args with
  | [] => []
  | a :: rest =>
      a :: (if strnicmp a "-cl" 3 =? 0 then
              match rest with
              | [] => []
              | _ :: rest' => option_args rest'
              end
            else option_args rest)
  end.

Definition is_ssl_flag (a : string) : bool := stricmp a "-ssl" =? 0.

(* ================================================================= *)
(** ** Sample states and inputs *)

(** A thread at depth 3 whose exclude flag is set. *)
Definition nested_thread : ThreadLocals :=
  setExcludeCurrent true (setFakerLevel 3 thread_defaults).

(** A thread that has recorded an autotest result for drawable 12 of the
    display at address 4096. *)
Definition autotest_thread : ThreadLocals :=
  {| TraceLevel := 0; FakerLevel := 0; ExcludeCurrent := false;
     AutotestColor := 255; AutotestRColor := 65280; AutotestFrame := 7;
     AutotestDisplay := 4096; AutotestDrawable := 12 |}.

(** A process that has allocated two registries. *)
Definition two_registries : Faker :=
  with_registries [PixmapHash; WindowHash] [7; 9] Faker_init.

(** A process that has allocated one GLX and one EGL registry. *)
Definition egl_registries : Faker :=
  with_registries [VisualHash; EGLContextHash] [3] Faker_init.

(** An environment in which every collaborator of the harness succeeds. *)
Definition env_all_ok : Env :=
  {| XInitThreads_status := true; XOpenDisplay_result := 4096;
     XCreateSimpleWindow_result := 77; XMapRaised_status := true;
     DisplayString := ":0.0"; connect_ok := fun _ => true;
     getbitmap_ok := fun _ _ => true; sendframe_ok := fun _ _ => true |}.



(* ================================================================= *)
(** ** Sequences of calls *)

(** The two calls by which a plugin or an application switches the
    faker off and on for its thread. *)
Inductive toggle : Type := Disable | Enable.

Definition apply_toggle (t : ThreadLocals) (c : toggle) : ThreadLocals :=
  match c with
  | Disable => _vgl_disableFaker t
  | Enable => _vgl_enableFaker t
  end.

(** The calls of [calls], made in order by one thread. *)
Definition toggles (calls : list toggle) (t : ThreadLocals) : ThreadLocals :=
  fold_left apply_toggle calls t.

Definition is_disable (c : toggle) : bool :=
  match c with Disable => true | Enable => false end.

Definition is_enable (c : toggle) : bool :=
  match c with Disable => false | Enable => true end.

Definition ncalls (f : toggle -> bool) (calls : list toggle) : Z :=
  Z.of_nat (List.length (filter f calls)).

Definition is_free (e : event) : bool :=
  match e with EvFree _ => true | _ => false end.

(** The global mutex over a log.  The mutex is recursive: [init3D] and
    [_vgl_dlopen] call [safeExit] while their scoped lock holds it.
    [base] counts the holds of the caller and [depth] the holds before
    the first event; the result is the number of holds after the last
    event, or [None] when the log releases a hold of the caller, kills a
    registry, frees the extension string or unloads the symbols without
    a hold of its own, or ends the process or the thread while it still
    has a hold of its own.  The configuration instance may be deleted at
    any depth. *)
Fixpoint lock_depth (base depth : nat) (l : list event) : option nat :=
  match l with
  | [] => Some depth
  | e :: l' =>
      match e with
      | EvLock => lock_depth base (Datatypes.S depth) l'
      | EvUnlock =>
          if Nat.ltb base depth then lock_depth base (Nat.pred depth) l'
          else None
      | EvKill _ | EvFree _ | EvUnloadSymbols =>
          if Nat.ltb base depth then lock_depth base depth l' else None
      | EvDeleteConfig => lock_depth base depth l'
      | EvExit _ | EvPthreadExit =>
          if Nat.eqb depth base then lock_depth base depth l' else None
      end
  end.

(* ================================================================= *)
(** ** One-time initialisation (faker.cpp, lines 145-167) *)

(** The fields of [fconfig] that faker.cpp reads, with the values they
    have once [fconfig_reloadenv()] has run (fakerconfig.h is not among
    the sources). *)
Record fakerconfig : Type := mkFakerconfig {
  fc_egl : bool;
  fc_localdpystring : string;
  fc_verbose : bool;
  fc_log : string;
  fc_trapx11 : bool
}.

(** Calls that [init] and [init3D] make outside of the file. *)
Inductive xevent : Type :=
| XReloadEnv                        (* fconfig_reloadenv() *)
| XLogTo (file : string)            (* vglout.logTo(fconfig.log) *)
| XBanner                           (* vglout.println("[VGL] ... v...") *)
| XDebugAttach                      (* the prompt and fgetc(stdin) *)
| XSetErrorHandler                  (* XSetErrorHandler(xhandler) *)
| XPrintOpening (what : string)
| XOpenDisplay (name : string)      (* _XOpenDisplay *)
| XPrintOpenError (name : string)
| XEglQueryString
| XEglQueryDevices (n : Z)
| XMalloc
| XFreeDevices
| XEglGetDisplay (i : Z)            (* _eglGetPlatformDisplayEXT(devices[i]) *)
| XEglInitialize (dpy : pointer)
| XEglTerminate (dpy : pointer)
| XEglQueryDeviceString (i : Z).

(** Lines 154-166: what the body of [init] does.  [debug] tells whether
    [getenv("VGL_DEBUG")] is set. *)
Definition init_body (cfg : fakerconfig) (debug : bool) : list xevent :=
  [XReloadEnv]
  ++ (if (0 <? Z.of_nat (String.length (fc_log cfg)))
      then [XLogTo (fc_log cfg)] else [])
  ++ (if fc_verbose cfg then [XBanner] else [])
  ++ (if debug then [XDebugAttach] else [])
  ++ (if fc_trapx11 cfg then [XSetErrorHandler] else []).

(** *** Calls of [init] that run at the same time *)

(** Where a call of [init] stands. *)
Inductive init_pc : Type :=
| AtEntry      (* before the first test of the flag, line 149 *)
| AtLock       (* before the mutex is taken, line 150 *)
| AtRecheck    (* holding the mutex, before the second test, line 151 *)
| AtSet        (* holding the mutex, before [init = 1], line 152 *)
| AtBody       (* holding the mutex, before lines 154-166 *)
| AtUnlock     (* before the scoped lock is released *)
| InitReturned.

(** The static flag, the owner of the global mutex, what the bodies that
    have run have done, and where each call stands. *)
Record InitSys : Type := mkInitSys {
  init_flag : bool;
  mutex_owner : option nat;
  init_effects : list xevent;
  pcs : nat -> init_pc
}.

Definition init_start : InitSys :=
  {| init_flag := false; mutex_owner := None; init_effects := [];
     pcs := fun _ => AtEntry |}.

Definition move (t : nat) (pc : init_pc) (f : nat -> init_pc)
  : nat -> init_pc :=
  fun u => if Nat.eqb u t then pc else f u.

(** One step of call [t]; a call that waits for the mutex, or has
    returned, does not move. *)
Definition init_step (cfg : fakerconfig) (debug : bool) (sys : InitSys)
    (t : nat) : InitSys :=
  match pcs sys t with
  | AtEntry =>
      {| init_flag := init_flag sys; mutex_owner := mutex_owner sys;
         init_effects := init_effects sys;
         pcs := move t (if init_flag sys then InitReturned else AtLock)
                  (pcs sys) |}
  | AtLock =>
      match mutex_owner sys with
      | None =>
          {| init_flag := init_flag sys; mutex_owner := Some t;
             init_effects := init_effects sys;
             pcs := move t AtRecheck (pcs sys) |}
      | Some _ => sys
      end
  | AtRecheck =>
      {| init_flag := init_flag sys; mutex_owner := mutex_owner sys;
         init_effects := init_effects sys;
         pcs := move t (if init_flag sys then AtUnlock else AtSet)
                  (pcs sys) |}
  | AtSet =>
      {| init_flag := true; mutex_owner := mutex_owner sys;
         init_effects := init_effects sys;
         pcs := move t AtBody (pcs sys) |}
  | AtBody =>
      {| init_flag := init_flag sys; mutex_owner := mutex_owner sys;
         init_effects := init_effects sys ++ init_body cfg debug;
         pcs := move t AtUnlock (pcs sys) |}
  | AtUnlock =>
      {| init_flag := init_flag sys; mutex_owner := None;
         init_effects := init_effects sys;
         pcs := move t InitReturned (pcs sys) |}
  | InitReturned => sys
  end.

(** The steps of a schedule: the calls in the order in which they move. *)
Definition init_run (cfg : fakerconfig) (debug : bool)
    (schedule : list nat) (sys : InitSys) : InitSys :=
  fold_left (init_step cfg debug) schedule sys.

Definition holds_mutex (pc : init_pc) : bool :=
  match pc with
  | AtRecheck | AtSet | AtBody | AtUnlock => true
  | _ => false
  end.

(** What every schedule keeps true. *)
Record init_inv (cfg : fakerconfig) (debug : bool) (sys : InitSys)
  : Prop := mkInitInv {
  inv_owner : forall t, holds_mutex (pcs sys t) = true ->
                        mutex_owner sys = Some t;
  inv_set : forall t, pcs sys t = AtSet ->
                      init_flag sys = false /\ init_effects sys = [];
  inv_body : forall t, pcs sys t = AtBody ->
                       init_flag sys = true /\ init_effects sys = [];
  inv_effects : init_effects sys = []
                \/ init_effects sys = init_body cfg debug;
  inv_unset : init_flag sys = false -> init_effects sys = [];
  inv_unlock : forall t, pcs sys t = AtUnlock -> init_flag sys = true;
  inv_returned : forall t, pcs sys t = InitReturned -> init_flag sys = true
}.

(** Call [t] stands at [pc], no other call has started, and the flag,
    the owner of the mutex and the effects are as given. *)
Definition solo (sys : InitSys) (t : nat) (flag : bool)
    (owner : option nat) (effects : list xevent) (pc : init_pc) : Prop :=
  init_flag sys = flag /\ mutex_owner sys = owner /\
  init_effects sys = effects /\ pcs sys t = pc /\
  forall v, v <> t -> pcs sys v = AtEntry.

(* ================================================================= *)
(** ** Opening the 3D display (faker.cpp, lines 170-256) *)

(** [strcmp]: the difference of the first two characters that differ,
    zero when the terminator is reached first. *)
Fixpoint strcmp (s1 s2 : string) : Z :=
  let result := peek s1 - peek s2 in
  if result =? 0 then
    match s1, s2 with
    | String _ t1, String _ t2 => strcmp t1 t2
    | _, _ => 0
    end
  else result.

Fixpoint has_prefix (p s : string) : bool :=
  match p, s with
  | EmptyString, _ => true
  | String a p', String b s' => Ascii.eqb a b && has_prefix p' s'
  | String _ _, EmptyString => false
  end.

(** [strstr(haystack, needle) != NULL]. *)
Fixpoint strstr (haystack needle : string) : bool :=
  has_prefix needle haystack
  || match haystack with
     | EmptyString => false
     | String _ t => strstr t needle
     end.

(** The process-wide state of the faker together with the static flag of
    [init] and the log of the outside calls of [init] and [init3D]. *)
Record World : Type := mkWorld {
  wfaker : Faker;
  winit : bool;
  wlog : list xevent
}.

Definition on_faker (f : Faker -> Faker) (w : World) : World :=
  {| wfaker := f (wfaker w); winit := winit w; wlog := wlog w |}.

Definition xlog (l : list xevent) (w : World) : World :=
  {| wfaker := wfaker w; winit := winit w; wlog := wlog w ++ l |}.

(** The scoped lock [GlobalCriticalSection::SafeLock l(globalMutex)]:
    taken where it is declared, released when its scope is left. *)
Definition SafeLock_enter (w : World) : World :=
  on_faker (fun s => state_of (globalMutex_lock s)) w.

Definition SafeLock_leave (w : World) : World :=
  on_faker (fun s => state_of (globalMutex_unlock s)) w.

Definition set_dpy3D (p : pointer) (s : Faker) : Faker :=
  {| dpy3D := p; deadYet := deadYet s; glExtensions := glExtensions s;
     hashes := hashes s; globalMutex_instance := globalMutex_instance s;
     events := events s |}.

(** [init], faker.cpp lines 145-167, called by one thread at a time. *)
Definition init (cfg : fakerconfig) (debug : bool) (w : World) : World :=
  if winit w then w
  else
    let w := SafeLock_enter w in
    if winit w then SafeLock_leave w
    else
      let w := {| wfaker := wfaker w; winit := true; wlog := wlog w |} in
      let w := xlog (init_body cfg debug) w in
      SafeLock_leave w.

(** What the EGL implementation answers about one device: the display
    and the result of [eglInitialize] when the device is probed (lines
    208-211), its DRM device file (line 217), and the display and the
    result of [eglInitialize] when the device is opened (lines 223-228).
    The version numbers that [eglInitialize] writes to [eglMajor] and
    [eglMinor] are not part of the state. *)
Record EGLDevice : Type := mkEGLDevice {
  probe_display : pointer;
  probe_initializes : bool;
  drm_device_file : option string;
  open_display : pointer;
  open_initializes : bool
}.

(** The answers of Xlib and of EGL to [init3D]. *)
Record DisplayEnv : Type := mkDisplayEnv {
  XOpenDisplay_3D : pointer;             (* _XOpenDisplay(localdpystring) *)
  egl_extensions : option string;        (* _eglQueryString *)
  egl_count : option Z;                  (* first _eglQueryDevicesEXT *)
  egl_malloc_ok : bool;
  egl_devices : option (list EGLDevice)  (* second _eglQueryDevicesEXT *)
}.

(** How a call of [init3D] ends. *)
Inductive outcome : Type :=
| Returns (dpy : pointer)
| Throws (message : string)
| Terminates (t : termination).

Definition device_usable (d : EGLDevice) : bool :=
  negb (probe_display d =? NULL) && probe_initializes d.

(** The loop of lines 206-220 from index [i] on, over the devices that are
    left: the index at which it stops and the calls it makes. *)
Fixpoint probe_devices (cfg : fakerconfig) (rest : list EGLDevice) (i : Z)
  : Z * list xevent :=
  match rest with
  | [] => (i, [])
  | d :: rest' =>
      let edpy := probe_display d in
      if edpy =? NULL then
        let (j, l) := probe_devices cfg rest' (i + 1) in
        (j, XEglGetDisplay i :: l)
      else if negb (probe_initializes d) then
        let (j, l) := probe_devices cfg rest' (i + 1) in
        (j, XEglGetDisplay i :: XEglInitialize edpy :: l)
      else if strcasecmp (fc_localdpystring cfg) "egl" =? 0 then
        (i, [XEglGetDisplay i; XEglInitialize edpy; XEglTerminate edpy])
      else
        let found :=
          match drm_device_file d with
          | Some devStr => strcmp devStr (fc_localdpystring cfg) =? 0
          | None => false
          end in
        if found then
          (i, [XEglGetDisplay i; XEglInitialize edpy; XEglTerminate edpy;
               XEglQueryDeviceString i])
        else
          let (j, l) := probe_devices cfg rest' (i + 1) in
          (j, XEglGetDisplay i :: XEglInitialize edpy :: XEglTerminate edpy
              :: XEglQueryDeviceString i :: l)
  end.

Definition opening_name (cfg : fakerconfig) : string :=
  if (0 <? Z.of_nat (String.length (fc_localdpystring cfg)))
  then fc_localdpystring cfg else "(default)".

(** Lines 206-229: the probe loop and the opening of the device at
    which it stops.  [None] when the display is open and initialised, and
    else the message of the exception; the device array is freed on every
    path. *)
Definition open_probed (cfg : fakerconfig) (devices : list EGLDevice)
    (w : World) : option string * World :=
  let numDevices := Z.of_nat (List.length devices) in
  let (i, l) := probe_devices cfg devices 0 in
  let w := xlog l w in
  if i =? numDevices
  then (Some "Invalid EGL device", xlog [XFreeDevices] w)
  else
    match nth_error devices (Z.to_nat i) with
    | None => (Some "Invalid EGL device", xlog [XFreeDevices] w)
    | Some d =>
        let w := xlog [XEglGetDisplay i] w in
        let w := on_faker (set_dpy3D (open_display d)) w in
        if open_display d =? NULL
        then (Some "Could not open EGL display", xlog [XFreeDevices] w)
        else
          let w := xlog [XFreeDevices] w in
          let w := xlog [XEglInitialize (open_display d)] w in
          if negb (open_initializes d)
          then (Some "Could not initialize EGL", w)
          else (None, w)
    end.

(** Lines 182-235, the EGL branch: [None] when it ends normally, and
    else the message of the exception that leaves it; the handler of
    line 231 frees the device array when there is one. *)
Definition open_egl (cfg : fakerconfig) (env : DisplayEnv) (w : World)
  : option string * World :=
  let w := if fc_verbose cfg then xlog [XPrintOpening (opening_name cfg)] w
           else w in
  let w := xlog [XEglQueryString] w in
  match egl_extensions env with
  | None => (Some "Could not query EGL extensions", w)
  | Some exts =>
      if negb (strstr exts "EGL_EXT_platform_device")
      then (Some "EGL_EXT_platform_device extension not available", w)
      else
        let w := xlog [XEglQueryDevices 0] w in
        match egl_count env with
        | None => (Some "No EGL devices found", w)
        | Some n =>
            if n <? 1 then (Some "No EGL devices found", w)
            else
              let w := xlog [XMalloc] w in
              if negb (egl_malloc_ok env)
              then (Some "Memory allocation failure", w)
              else
                let w := xlog [XEglQueryDevices n] w in
                match egl_devices env with
                | None =>
                    (Some "Could not query EGL devices",
                     xlog [XFreeDevices] w)
                | Some devices =>
                    if Z.of_nat (List.length devices) <? 1
                    then (Some "Could not query EGL devices",
                          xlog [XFreeDevices] w)
                    else open_probed cfg devices w
                end
        end
  end.

Section Init3D.

Variable EGLBACKEND : bool.

(** [init3D], faker.cpp lines 170-256. *)
Definition init3D (cfg : fakerconfig) (debug : bool) (env : DisplayEnv)
    (w : World) : outcome * World :=
  let w := init cfg debug w in
  if negb (dpy3D (wfaker w) =? NULL) then (Returns (dpy3D (wfaker w)), w)
  else
    let w := SafeLock_enter w in
    if negb (dpy3D (wfaker w) =? NULL)
    then (Returns (dpy3D (wfaker w)), SafeLock_leave w)
    else if EGLBACKEND && fc_egl cfg then
      match open_egl cfg env w with
      | (Some message, w') => (Throws message, SafeLock_leave w')
      | (None, w') => (Returns (dpy3D (wfaker w')), SafeLock_leave w')
      end
    else
      let w := if fc_verbose cfg
               then xlog [XPrintOpening (opening_name cfg)] w else w in
      let w := xlog [XOpenDisplay (fc_localdpystring cfg)] w in
      let w := on_faker (set_dpy3D (XOpenDisplay_3D env)) w in
      if dpy3D (wfaker w) =? NULL then
        let w := xlog [XPrintOpenError (fc_localdpystring cfg)] w in
        let (t, s) := safeExit EGLBACKEND 1 (wfaker w) in
        (Terminates t, {| wfaker := s; winit := winit w; wlog := wlog w |})
      else (Returns (dpy3D (wfaker w)), SafeLock_leave w).

End Init3D.

Definition is_open_display (e : xevent) : bool :=
  match e with
  | XOpenDisplay _ | XEglGetDisplay _ => true
  | _ => false
  end.

Definition xcount (f : xevent -> bool) (l : list xevent) : nat :=
  List.length (filter f l).

(** What a call adds to the log of outside calls. *)
Definition xemitted (before after : World) : list xevent :=
  skipn (List.length (wlog before)) (wlog after).

(** A device on which the probe loop stops. *)
Definition device_selected (cfg : fakerconfig) (d : EGLDevice) : bool :=
  device_usable d
  && ((strcasecmp (fc_localdpystring cfg) "egl" =? 0)
      || match drm_device_file d with
         | Some devStr => strcmp devStr (fc_localdpystring cfg) =? 0
         | None => false
         end).

Definition is_egl_initialize (e : xevent) : bool :=
  match e with XEglInitialize _ => true | _ => false end.

Definition is_egl_terminate (e : xevent) : bool :=
  match e with XEglTerminate _ => true | _ => false end.

(** Everything that [init3D] asks of EGL before it probes the devices
    succeeds, and [devices] is the array it is given. *)
Record egl_ready (env : DisplayEnv) (devices : list EGLDevice) : Prop :=
  mkEglReady {
  ready_extensions :
    exists exts, egl_extensions env = Some exts /\
                 strstr exts "EGL_EXT_platform_device" = true;
  ready_count : exists n, egl_count env = Some n /\ 1 <= n;
  ready_malloc : egl_malloc_ok env = true;
  ready_devices : egl_devices env = Some devices;
  ready_nonempty : devices <> []
}.

(** An EGL implementation with three devices: the first cannot be
    initialised, the second and third can, and the third is the DRM
    device [/dev/dri/card1]. *)
Definition three_devices : list EGLDevice :=
  [mkEGLDevice 100 false (Some "/dev/dri/card0") 100 false;
   mkEGLDevice 200 true None 200 true;
   mkEGLDevice 300 true (Some "/dev/dri/card1") 300 false].

Definition three_devices_env : DisplayEnv :=
  mkDisplayEnv NULL (Some "EGL_EXT_device_base EGL_EXT_platform_device")
    (Some 3) true (Some three_devices).

(** Whether [s] holds one of the characters of [delim]. *)
Fixpoint has_delim (delim s : string) : bool :=
  match s with
  | EmptyString => false
  | String c t => is_delim delim c || has_delim delim t
  end.

(** The values that the option loop takes as client names: each
    argument that follows one starting with [-cl], in order. *)
Fixpoint client_values (args : list string) : list string :=
  match args with
  | [] => []
  | a :: rest =>
      if strnicmp a "-cl" 3 =? 0 then
        match rest with
        | [] => []
        | v :: rest' => v :: client_values rest'
        end
      else client_values rest
  end.

Definition is_caught (e : hevent) : bool :=
  match e with HCaught => true | _ => false end.

Definition is_destroy_window (e : hevent) : bool :=
  match e with HDestroyWindow _ => true | _ => false end.

Definition is_close_display (e : hevent) : bool :=
  match e with HCloseDisplay _ => true | _ => false end.

(** What the [try] block can log. *)
Definition is_run_event (e : hevent) : bool :=
  match e with
  | HCreatingWindow _ | HTesting _ | HConnect _ _ _ | HGetBitmap _ _
  | HSendFrame _ _ _ _ | HDisconnect _ => true
  | _ => false
  end.

(** A connection, if [e] is one, is made to [clientname] on [port], with
    TLS when [usessl] holds. *)
Definition connects_to (clientname : string) (port : Z) (usessl : bool)
    (e : hevent) : Prop :=
  match e with
  | HConnect c p u => c = clientname /\ p = port /\ u = usessl
  | _ => True
  end.

(** An environment in which the second connection fails. *)
Definition env_second_connect_fails : Env :=
  {| XInitThreads_status := true; XOpenDisplay_result := 4096;
     XCreateSimpleWindow_result := 77; XMapRaised_status := true;
     DisplayString := ":0.0"; connect_ok := fun i => i =? 0;
     getbitmap_ok := fun _ _ => true; sendframe_ok := fun _ _ => true |}.

(* ================================================================= *)
(** * Properties *)

(** ** C integers *)

Lemma to_long_id (z : Z) : in_long z -> to_long z = z.
Proof.
  unfold in_long, to_long, LONG_MIN, LONG_MAX. intros H.
  rewrite Z.mod_small by lia. lia.
Qed.

Lemma to_long_range (z : Z) : in_long (to_long z).
Proof.
  unfold in_long, to_long, LONG_MIN, LONG_MAX.
  pose proof (Z.mod_pos_bound (z + 2 ^ 63) (2 ^ 64) ltac:(lia)). lia.
Qed.

Lemma to_int_id (z : Z) : in_int z -> to_int z = z.
Proof.
  unfold in_int, to_int, INT_MIN, INT_MAX. intros H.
  rewrite Z.mod_small by lia. lia.
Qed.

(** Adding one and taking one away in [long] cancel, wrap-around
    included. *)
Lemma to_long_succ_pred (z : Z) :
  in_long z -> to_long (to_long (z + 1) - 1) = z.
Proof.
  intros H. unfold to_long.
  replace ((z + 1 + 2 ^ 63) mod 2 ^ 64 - 2 ^ 63 - 1 + 2 ^ 63)
    with ((z + 1 + 2 ^ 63) mod 2 ^ 64 - 1) by lia.
  rewrite Zminus_mod_idemp_l.
  replace (z + 1 + 2 ^ 63 - 1) with (z + 2 ^ 63) by lia.
  apply (to_long_id z H).
Qed.

(* ================================================================= *)
(** ** Thread-local context *)

Lemma thread_defaults_wf : thread_wf thread_defaults.
Proof.
  split; unfold in_long, LONG_MIN, LONG_MAX; simpl; lia.
Qed.

Lemma disable_preserves_wf (t : ThreadLocals) :
  thread_wf t -> thread_wf (_vgl_disableFaker t).
Proof.
  intros [H1 H2 H3 H4 H5 H6]. split; simpl; trivial.
  apply to_long_range.
Qed.

Lemma enable_preserves_wf (t : ThreadLocals) :
  thread_wf t -> thread_wf (_vgl_enableFaker t).
Proof.
  intros [H1 H2 H3 H4 H5 H6]. split; simpl; trivial.
  apply to_long_range.
Qed.

(** C4.  For a thread whose depth is [d] (a [long]): [_vgl_disableFaker]
    yields depth [d + 1] (when [d + 1] is still a [long]) and sets the
    exclude flag; [_vgl_enableFaker] yields depth [d - 1] (when [d - 1]
    is still a [long]) and, when the resulting depth is zero or below,
    the exclude flag is clear.  Both are total: no depth, negative ones
    included, is refused. *)
Theorem disable_enable_depth (t : ThreadLocals) :
  in_long (FakerLevel t) ->
  (FakerLevel t < LONG_MAX ->
   FakerLevel (_vgl_disableFaker t) = FakerLevel t + 1) /\
  ExcludeCurrent (_vgl_disableFaker t) = true /\
  (LONG_MIN < FakerLevel t ->
   FakerLevel (_vgl_enableFaker t) = FakerLevel t - 1) /\
  (FakerLevel (_vgl_enableFaker t) <= 0 ->
   ExcludeCurrent (_vgl_enableFaker t) = false).
Proof.
  intros Hd. unfold in_long in Hd. repeat split.
  - intros Hmax. simpl. unfold getFakerLevel.
    apply to_long_id. unfold in_long. lia.
  - intros Hmin. simpl. unfold getFakerLevel.
    apply to_long_id. unfold in_long. lia.
Qed.

(** At the defaults (depth 0) the enable operation reaches depth -1. *)
Lemma disable_enable_depth_witness :
  in_long (FakerLevel thread_defaults) /\
  FakerLevel (_vgl_disableFaker thread_defaults) = 1 /\
  FakerLevel (_vgl_enableFaker thread_defaults) = -1 /\
  ExcludeCurrent (_vgl_enableFaker thread_defaults) = false.
Proof.
  assert (H : in_long (FakerLevel thread_defaults))
    by (unfold in_long, LONG_MIN, LONG_MAX; simpl; lia).
  destruct (disable_enable_depth thread_defaults H) as (H1 & _ & H3 & H4).
  split; [exact H|]. split; [|split].
  - apply H1. unfold LONG_MAX. simpl. lia.
  - apply H3. unfold LONG_MIN. simpl. lia.
  - apply H4. vm_compute. discriminate.
Defined.

(** C9.  Disable followed by enable gives back the depth, and leaves the
    exclude flag clear whatever it was before: the pair is the identity
    on the depth but not on the flag. *)
Theorem disable_then_enable (t : ThreadLocals) :
  in_long (FakerLevel t) ->
  FakerLevel (_vgl_enableFaker (_vgl_disableFaker t)) = FakerLevel t /\
  ExcludeCurrent (_vgl_enableFaker (_vgl_disableFaker t)) = false /\
  (ExcludeCurrent t = true ->
   _vgl_enableFaker (_vgl_disableFaker t) <> t).
Proof.
  intros Hd. split; [|split].
  - simpl. unfold getFakerLevel. simpl. apply to_long_succ_pred, Hd.
  - reflexivity.
  - intros He Heq.
    assert (Hf : ExcludeCurrent (_vgl_enableFaker (_vgl_disableFaker t))
                 = ExcludeCurrent t) by (rewrite Heq; reflexivity).
    simpl in Hf. congruence.
Qed.

Lemma disable_then_enable_witness :
  FakerLevel (_vgl_enableFaker (_vgl_disableFaker nested_thread)) = 3 /\
  ExcludeCurrent nested_thread = true /\
  ExcludeCurrent (_vgl_enableFaker (_vgl_disableFaker nested_thread))
  = false /\
  _vgl_enableFaker (_vgl_disableFaker nested_thread) <> nested_thread.
Proof.
  assert (H : in_long (FakerLevel nested_thread))
    by (unfold in_long, LONG_MIN, LONG_MAX; simpl; lia).
  destruct (disable_then_enable nested_thread H) as (H1 & H2 & H3).
  split; [exact H1|]. split; [reflexivity|]. split; [exact H2|].
  apply H3. reflexivity.
Defined.

(** C10.  The two autotest queries answer -1 whenever the display differs
    from the thread's [AutotestDisplay] or the drawable, cast to [long] as
    the code compares it, differs from the thread's [AutotestDrawable];
    and at the thread-local defaults both answer -1 for every display
    that is not NULL. *)
Theorem autotest_mismatch (t : ThreadLocals) (dpy : pointer) (d right : Z) :
  (dpy <> AutotestDisplay t \/ to_long d <> AutotestDrawable t ->
   _vgl_getAutotestColor t dpy d right = -1 /\
   _vgl_getAutotestFrame t dpy d = -1) /\
  (dpy <> NULL ->
   _vgl_getAutotestColor thread_defaults dpy d right = -1 /\
   _vgl_getAutotestFrame thread_defaults dpy d = -1).
Proof.
  assert (Hgen : forall t',
    dpy <> AutotestDisplay t' \/ to_long d <> AutotestDrawable t' ->
    _vgl_getAutotestColor t' dpy d right = -1 /\
    _vgl_getAutotestFrame t' dpy d = -1).
  { intros t' H.
    unfold _vgl_getAutotestColor, _vgl_getAutotestFrame,
      getAutotestDisplay, getAutotestDrawable.
    destruct (Z.eqb_spec (AutotestDisplay t') dpy) as [E1|E1];
      destruct (Z.eqb_spec (AutotestDrawable t') (to_long d)) as [E2|E2];
      simpl; try (split; reflexivity).
    destruct H as [H|H]; congruence. }
  split.
  - apply Hgen.
  - intros Hn. apply Hgen. left. exact Hn.
Qed.

Lemma autotest_mismatch_witness :
  (_vgl_getAutotestColor autotest_thread 4096 13 0 = -1 /\
   _vgl_getAutotestFrame autotest_thread 4096 13 = -1) /\
  _vgl_getAutotestColor autotest_thread 4096 12 0 = 255 /\
  (_vgl_getAutotestColor thread_defaults 4096 0 1 = -1 /\
   _vgl_getAutotestFrame thread_defaults 4096 0 = -1).
Proof.
  destruct (autotest_mismatch autotest_thread 4096 13 0) as [H1 _].
  destruct (autotest_mismatch autotest_thread 4096 0 1) as [_ H2].
  split; [|split; [reflexivity|]].
  - apply H1. right. vm_compute. discriminate.
  - apply H2. vm_compute. discriminate.
Defined.

(* ================================================================= *)
(** ** Registries and [cleanup] *)

Lemma registry_eqb_eq (a b : registry) : registry_eqb a b = true <-> a = b.
Proof. destruct a, b; simpl; split; congruence. Qed.

Lemma registry_eqb_refl (a : registry) : registry_eqb a a = true.
Proof. apply registry_eqb_eq. reflexivity. Qed.

Lemma registry_eqb_neq (a b : registry) : a <> b -> registry_eqb a b = false.
Proof.
  intros H. destruct (registry_eqb a b) eqn:E; [|reflexivity].
  apply registry_eqb_eq in E. contradiction.
Qed.

Lemma registries_NoDup (EGLBACKEND : bool) : NoDup (registries EGLBACKEND).
Proof.
  destruct EGLBACKEND; simpl;
    repeat (constructor; [simpl; intuition discriminate|]); constructor.
Qed.

Lemma emitted_app {A : Type} (m : M A) (s : Faker) (l : list event) :
  events (state_of (m s)) = events s ++ l -> emitted m s = l.
Proof.
  intros H. unfold emitted. rewrite H.
  rewrite skipn_app, skipn_all, Nat.sub_diag. reflexivity.
Qed.

Lemma guarded_kill_step {B : Type} (r : registry) (k : M B) (s : Faker) :
  (b <- isAlloc r ;; when b (kill r) ;; k) s = k (after_kill r s).
Proof.
  unfold bind, isAlloc, after_kill, allocated.
  destruct (hashes s r); reflexivity.
Qed.

Lemma guarded_kill_last (r : registry) (s : Faker) :
  (b <- isAlloc r ;; when b (kill r)) s = (tt, after_kill r s).
Proof.
  unfold bind, isAlloc, after_kill, allocated.
  destruct (hashes s r); reflexivity.
Qed.

Lemma cleanup_state (EGLBACKEND : bool) (s : Faker) :
  cleanup EGLBACKEND s
  = (tt, release_globals (kill_all (registries EGLBACKEND) s)).
Proof.
  unfold cleanup. rewrite !guarded_kill_step.
  destruct EGLBACKEND; simpl when.
  - unfold bind at 1. rewrite !guarded_kill_step, guarded_kill_last.
    reflexivity.
  - reflexivity.
Qed.

Lemma after_kill_events (r : registry) (s : Faker) :
  events (after_kill r s)
  = events s ++ (if allocated s r then [EvKill r] else []).
Proof.
  unfold after_kill. destruct (allocated s r); simpl.
  - reflexivity.
  - rewrite app_nil_r. reflexivity.
Qed.

Lemma after_kill_allocated (r r' : registry) (s : Faker) :
  allocated (after_kill r s) r'
  = allocated s r' && negb (registry_eqb r r').
Proof.
  unfold after_kill. destruct (allocated s r) eqn:E; unfold allocated; simpl.
  - destruct (registry_eqb r r'); simpl.
    + rewrite andb_false_r. reflexivity.
    + rewrite andb_true_r. reflexivity.
  - destruct (registry_eqb r r') eqn:E'.
    + apply registry_eqb_eq in E'. subst r'.
      unfold allocated in E. rewrite andb_false_r.
      destruct (hashes s r); congruence.
    + rewrite andb_true_r. reflexivity.
Qed.

Lemma after_kill_frame (r : registry) (s : Faker) :
  deadYet (after_kill r s) = deadYet s /\
  glExtensions (after_kill r s) = glExtensions s /\
  globalMutex_instance (after_kill r s) = globalMutex_instance s /\
  dpy3D (after_kill r s) = dpy3D s.
Proof.
  unfold after_kill. destruct (allocated s r); repeat split.
Qed.

Lemma kill_all_frame (l : list registry) (s : Faker) :
  deadYet (kill_all l s) = deadYet s /\
  glExtensions (kill_all l s) = glExtensions s /\
  globalMutex_instance (kill_all l s) = globalMutex_instance s /\
  dpy3D (kill_all l s) = dpy3D s.
Proof.
  revert s. induction l as [|r l IH]; intros s; simpl.
  - repeat split.
  - destruct (IH (after_kill r s)) as (H1 & H2 & H3 & H4).
    destruct (after_kill_frame r s) as (K1 & K2 & K3 & K4).
    unfold kill_all in *. simpl. repeat split; congruence.
Qed.

Lemma kill_all_allocated (l : list registry) (s : Faker) (r : registry) :
  allocated (kill_all l s) r
  = allocated s r && negb (existsb (registry_eqb r) l).
Proof.
  revert s. induction l as [|a l IH]; intros s; simpl.
  - rewrite andb_true_r. reflexivity.
  - unfold kill_all in *. simpl. rewrite IH, after_kill_allocated.
    replace (registry_eqb a r) with (registry_eqb r a)
      by (destruct a, r; reflexivity).
    destruct (allocated s r), (registry_eqb r a),
      (existsb (registry_eqb r) l); reflexivity.
Qed.

Lemma kill_all_events (l : list registry) (s : Faker) :
  NoDup l ->
  events (kill_all l s) = events s ++ map EvKill (filter (allocated s) l).
Proof.
  revert s. induction l as [|a l IH]; intros s Hnd; simpl.
  - rewrite app_nil_r. reflexivity.
  - inversion Hnd as [|a' l' Hnotin Hnd']; subst.
    unfold kill_all in *. simpl. rewrite (IH _ Hnd'), after_kill_events.
    assert (Hf : filter (allocated (after_kill a s)) l
                 = filter (allocated s) l).
    { apply filter_ext_in. intros r Hr.
      rewrite after_kill_allocated, registry_eqb_neq.
      - apply andb_true_r.
      - intros ->. contradiction. }
    rewrite Hf. destruct (allocated s a); simpl.
    + rewrite <- app_assoc. reflexivity.
    + rewrite app_nil_r. reflexivity.
Qed.

Lemma release_globals_events (s : Faker) :
  events (release_globals s)
  = events s ++ [EvFree (glExtensions s); EvUnloadSymbols].
Proof.
  unfold release_globals, state_of. simpl.
  rewrite <- app_assoc. reflexivity.
Qed.

Lemma release_globals_frame (s : Faker) :
  deadYet (release_globals s) = deadYet s /\
  glExtensions (release_globals s) = glExtensions s /\
  globalMutex_instance (release_globals s) = globalMutex_instance s /\
  dpy3D (release_globals s) = dpy3D s /\
  hashes (release_globals s) = hashes s.
Proof. repeat split. Qed.

Lemma cleanup_events (EGLBACKEND : bool) (s : Faker) :
  events (state_of (cleanup EGLBACKEND s))
  = events s
    ++ map EvKill (filter (allocated s) (registries EGLBACKEND))
    ++ [EvFree (glExtensions s); EvUnloadSymbols].
Proof.
  rewrite cleanup_state. change (state_of (tt, ?x)) with x.
  rewrite release_globals_events.
  rewrite kill_all_events by apply registries_NoDup.
  destruct (kill_all_frame (registries EGLBACKEND) s) as (_ & H & _).
  rewrite H, <- !app_assoc. reflexivity.
Qed.

Lemma cleanup_allocated (EGLBACKEND : bool) (s : Faker) (r : registry) :
  allocated (state_of (cleanup EGLBACKEND s)) r
  = allocated s r && negb (existsb (registry_eqb r) (registries EGLBACKEND)).
Proof.
  rewrite cleanup_state. change (state_of (tt, ?x)) with x.
  apply kill_all_allocated.
Qed.

Lemma cleanup_frame (EGLBACKEND : bool) (s : Faker) :
  deadYet (state_of (cleanup EGLBACKEND s)) = deadYet s /\
  glExtensions (state_of (cleanup EGLBACKEND s)) = glExtensions s /\
  globalMutex_instance (state_of (cleanup EGLBACKEND s))
  = globalMutex_instance s /\
  dpy3D (state_of (cleanup EGLBACKEND s)) = dpy3D s.
Proof.
  rewrite cleanup_state. change (state_of (tt, ?x)) with x.
  destruct (release_globals_frame (kill_all (registries EGLBACKEND) s))
    as (H1 & H2 & H3 & H4 & _).
  rewrite H1, H2, H3, H4. apply kill_all_frame.
Qed.

Lemma in_registries_existsb (EGLBACKEND : bool) (r : registry) :
  In r (registries EGLBACKEND) ->
  existsb (registry_eqb r) (registries EGLBACKEND) = true.
Proof.
  intros H. apply existsb_exists. exists r. split; [exact H|].
  apply registry_eqb_refl.
Qed.

Lemma count_app (f : event -> bool) (l1 l2 : list event) :
  count f (l1 ++ l2) = (count f l1 + count f l2)%nat.
Proof. unfold count. rewrite filter_app, length_app. reflexivity. Qed.

Lemma count_kills_none (f : event -> bool) (l : list registry) :
  (forall r, f (EvKill r) = false) -> count f (map EvKill l) = 0%nat.
Proof.
  intros H. unfold count. induction l as [|r l IH]; simpl.
  - reflexivity.
  - rewrite H. exact IH.
Qed.

(* ================================================================= *)
(** ** [safeExit] and the static destructor *)

Lemma safeExit_alive (EGLBACKEND : bool) (retcode : Z) (s : Faker) :
  deadYet s = false ->
  value_of (safeExit EGLBACKEND retcode s) = ProcessExit retcode /\
  deadYet (state_of (safeExit EGLBACKEND retcode s)) = true /\
  globalMutex_instance (state_of (safeExit EGLBACKEND retcode s)) = true /\
  (forall r, allocated (state_of (safeExit EGLBACKEND retcode s)) r
             = allocated s r
               && negb (existsb (registry_eqb r) (registries EGLBACKEND))) /\
  events (state_of (safeExit EGLBACKEND retcode s))
  = events s
    ++ [EvLock]
    ++ map EvKill (filter (allocated s) (registries EGLBACKEND))
    ++ [EvFree (glExtensions s); EvUnloadSymbols; EvDeleteConfig;
        EvUnlock; EvExit retcode].
Proof.
  intros Hdead.
  pose (s1 := state_of (globalMutex_lock s)).
  pose (s2 := state_of (set_deadYet true s1)).
  pose (s3 := release_globals (kill_all (registries EGLBACKEND) s2)).
  pose (s4 := state_of (fconfig_deleteinstance s3)).
  pose (s5 := state_of (globalMutex_unlock s4)).
  assert (Heq : safeExit EGLBACKEND retcode s = exit retcode s5).
  { unfold safeExit. unfold bind at 1.
    change (globalMutex_lock s) with (tt, s1).
    assert (Hd1 : deadYet s1 = false) by exact Hdead.
    unfold bind at 1. unfold get_deadYet at 1.
    unfold bind at 1. unfold get_deadYet at 1.
    rewrite Hd1. cbn [negb when].
    unfold bind at 1. unfold bind at 1.
    change (set_deadYet true s1) with (tt, s2).
    unfold bind at 1. rewrite cleanup_state. fold s3.
    change (fconfig_deleteinstance s3) with (tt, s4).
    unfold bind at 1.
    change (globalMutex_unlock s4) with (tt, s5).
    reflexivity. }
  rewrite Heq. clear Heq.
  destruct (kill_all_frame (registries EGLBACKEND) s2) as (F1 & F2 & _).
  split; [reflexivity|]. split; [|split; [|split]].
  - change (deadYet (kill_all (registries EGLBACKEND) s2) = true).
    rewrite F1. reflexivity.
  - change (globalMutex_instance s4 || true = true). apply orb_true_r.
  - intros r.
    change (allocated (kill_all (registries EGLBACKEND) s2) r
            = allocated s2 r
              && negb (existsb (registry_eqb r) (registries EGLBACKEND))).
    apply kill_all_allocated.
  - change (((events s3 ++ [EvDeleteConfig]) ++ [EvUnlock])
            ++ [EvExit retcode] = events s ++ [EvLock]
            ++ map EvKill (filter (allocated s2) (registries EGLBACKEND))
            ++ [EvFree (glExtensions s2); EvUnloadSymbols; EvDeleteConfig;
                EvUnlock; EvExit retcode]).
    unfold s3. rewrite release_globals_events, F2.
    rewrite kill_all_events by apply registries_NoDup.
    change (events s2) with (events s ++ [EvLock]).
    rewrite <- !app_assoc. reflexivity.
Qed.

Lemma safeExit_dead (EGLBACKEND : bool) (retcode : Z) (s : Faker) :
  deadYet s = true ->
  value_of (safeExit EGLBACKEND retcode s) = ThreadExit /\
  deadYet (state_of (safeExit EGLBACKEND retcode s)) = true /\
  globalMutex_instance (state_of (safeExit EGLBACKEND retcode s)) = true /\
  hashes (state_of (safeExit EGLBACKEND retcode s)) = hashes s /\
  glExtensions (state_of (safeExit EGLBACKEND retcode s)) = glExtensions s /\
  dpy3D (state_of (safeExit EGLBACKEND retcode s)) = dpy3D s /\
  events (state_of (safeExit EGLBACKEND retcode s))
  = events s ++ [EvLock; EvUnlock; EvPthreadExit].
Proof.
  intros Hdead.
  pose (s1 := state_of (globalMutex_lock s)).
  pose (s2 := state_of (globalMutex_unlock s1)).
  assert (Heq : safeExit EGLBACKEND retcode s = pthread_exit s2).
  { unfold safeExit. unfold bind at 1.
    change (globalMutex_lock s) with (tt, s1).
    assert (Hd1 : deadYet s1 = true) by exact Hdead.
    unfold bind at 1. unfold get_deadYet at 1.
    unfold bind at 1. unfold get_deadYet at 1.
    rewrite Hd1. cbn [negb when].
    unfold bind at 1. unfold ret at 1. unfold bind at 1.
    change (globalMutex_unlock s1) with (tt, s2).
    reflexivity. }
  rewrite Heq. clear Heq.
  unfold s2, s1, pthread_exit, globalMutex_unlock, globalMutex_lock,
    bind, value_of, state_of. simpl.
  rewrite Hdead, orb_true_r, <- !app_assoc. repeat split.
Qed.

Lemma destructor_effect (s : Faker) :
  deadYet (state_of (GlobalCleanup_destructor s)) = true /\
  hashes (state_of (GlobalCleanup_destructor s)) = hashes s /\
  events (state_of (GlobalCleanup_destructor s))
  = events s ++ (if globalMutex_instance s
                 then [EvLock; EvDeleteConfig; EvUnlock]
                 else [EvDeleteConfig]).
Proof.
  unfold GlobalCleanup_destructor, fconfig_deleteinstance, bind, state_of.
  simpl. rewrite orb_false_r.
  destruct (globalMutex_instance s); simpl;
    rewrite <- ?app_assoc; repeat split.
Qed.

Lemma bind_run {A B : Type} (m : M A) (k : A -> M B) (s : Faker) :
  bind m k s = k (value_of (m s)) (state_of (m s)).
Proof. unfold bind, value_of, state_of. destruct (m s). reflexivity. Qed.

Lemma count_kill_of (r : registry) (P : registry -> bool)
    (l : list registry) :
  NoDup l ->
  count (is_kill_of r) (map EvKill (filter P l))
  = if P r && existsb (registry_eqb r) l then 1%nat else 0%nat.
Proof.
  unfold count. induction l as [|a l IH]; intros Hnd; simpl.
  - rewrite andb_false_r. reflexivity.
  - inversion Hnd as [|a' l' Hnotin Hnd']; subst.
    specialize (IH Hnd').
    destruct (registry_eqb r a) eqn:Era.
    + apply registry_eqb_eq in Era. subst a.
      assert (Hex : existsb (registry_eqb r) l = false).
      { destruct (existsb (registry_eqb r) l) eqn:E; [|reflexivity].
        apply existsb_exists in E. destruct E as (x & Hx & Ex).
        apply registry_eqb_eq in Ex. subst x. contradiction. }
      rewrite Hex, andb_false_r in IH.
      destruct (P r); simpl.
      * rewrite registry_eqb_refl. simpl. rewrite IH. reflexivity.
      * exact IH.
    + simpl. destruct (P a); simpl; [rewrite Era|]; exact IH.
Qed.


Lemma threads_race_dead (EGLBACKEND : bool) (retcodes : list Z) (s : Faker) :
  deadYet s = true ->
  value_of (threads_race EGLBACKEND retcodes s)
  = repeat ThreadExit (List.length retcodes) /\
  deadYet (state_of (threads_race EGLBACKEND retcodes s)) = true /\
  hashes (state_of (threads_race EGLBACKEND retcodes s)) = hashes s /\
  (globalMutex_instance s = true ->
   globalMutex_instance (state_of (threads_race EGLBACKEND retcodes s))
   = true) /\
  events (state_of (threads_race EGLBACKEND retcodes s))
  = events s ++ List.concat (repeat late_thread (List.length retcodes)).
Proof.
  revert s. induction retcodes as [|rc rest IH]; intros s Hdead.
  - simpl. unfold ret, value_of, state_of. simpl.
    rewrite app_nil_r. repeat split; trivial.
  - cbn [threads_race]. rewrite bind_run, bind_run.
    destruct (safeExit_dead EGLBACKEND rc s Hdead)
      as (V & D & I & H & _ & _ & E).
    destruct (IH _ D) as (V' & D' & H' & I' & E').
    unfold ret, value_of, state_of in *. simpl.
    rewrite V, V', E', E, H', H, <- app_assoc.
    repeat split; trivial. intros _. exact (I' I).
Qed.

(** Of the threads that race into [safeExit], the first one exits the
    process and every other one ends itself. *)
Lemma threads_race_one_exit (EGLBACKEND : bool) (rc : Z) (rest : list Z)
    (s : Faker) :
  deadYet s = false ->
  value_of (threads_race EGLBACKEND (rc :: rest) s)
  = ProcessExit rc :: repeat ThreadExit (List.length rest).
Proof.
  intros Hdead. cbn [threads_race]. rewrite bind_run, bind_run.
  destruct (safeExit_alive EGLBACKEND rc s Hdead) as (V & D & _).
  destruct (threads_race_dead EGLBACKEND rest _ D) as (V' & _).
  unfold ret, value_of in *. simpl. rewrite V, V'. reflexivity.
Qed.

(** C1.  A call of [safeExit] that finds [deadYet] false under the
    global mutex sets it, runs the teardown once (one [kill] for each
    allocated registry and none for the others, one deletion of the
    configuration instance) and exits the process with [retcode]; a call
    that finds [deadYet] true only ends its own thread: it changes no
    registry and logs no teardown action and no process exit. *)
Theorem safeExit_shutdown (EGLBACKEND : bool) (retcode : Z) (s : Faker) :
  (deadYet s = false ->
   value_of (safeExit EGLBACKEND retcode s) = ProcessExit retcode /\
   deadYet (state_of (safeExit EGLBACKEND retcode s)) = true /\
   emitted (safeExit EGLBACKEND retcode) s
   = [EvLock]
     ++ map EvKill (filter (allocated s) (registries EGLBACKEND))
     ++ [EvFree (glExtensions s); EvUnloadSymbols; EvDeleteConfig;
         EvUnlock; EvExit retcode] /\
   (forall r, In r (registries EGLBACKEND) ->
      count (is_kill_of r) (emitted (safeExit EGLBACKEND retcode) s)
      = if allocated s r then 1%nat else 0%nat) /\
   count is_delete_config (emitted (safeExit EGLBACKEND retcode) s)
   = 1%nat) /\
  (deadYet s = true ->
   value_of (safeExit EGLBACKEND retcode s) = ThreadExit /\
   deadYet (state_of (safeExit EGLBACKEND retcode s)) = true /\
   hashes (state_of (safeExit EGLBACKEND retcode s)) = hashes s /\
   emitted (safeExit EGLBACKEND retcode) s = late_thread /\
   count is_teardown (emitted (safeExit EGLBACKEND retcode) s) = 0%nat /\
   count is_exit (emitted (safeExit EGLBACKEND retcode) s) = 0%nat).
Proof.
  split; intros Hdead.
  - destruct (safeExit_alive EGLBACKEND retcode s Hdead)
      as (V & D & _ & _ & E).
    apply emitted_app in E. rewrite E.
    split; [exact V|]. split; [exact D|]. split; [reflexivity|]. split.
    + intros r Hr. rewrite !count_app.
      rewrite count_kill_of by apply registries_NoDup.
      rewrite (in_registries_existsb _ _ Hr), andb_true_r.
      destruct (allocated s r); reflexivity.
    + rewrite !count_app, count_kills_none by reflexivity. reflexivity.
  - destruct (safeExit_dead EGLBACKEND retcode s Hdead)
      as (V & D & _ & H & _ & _ & E).
    apply emitted_app in E. rewrite E. repeat split; assumption.
Qed.

Lemma safeExit_shutdown_witness :
  (value_of (safeExit false 1 two_registries) = ProcessExit 1 /\
   emitted (safeExit false 1) two_registries
   = [EvLock; EvKill PixmapHash; EvKill WindowHash; EvFree NULL;
      EvUnloadSymbols; EvDeleteConfig; EvUnlock; EvExit 1]) /\
  (value_of (safeExit false 2 (state_of (safeExit false 1 two_registries)))
   = ThreadExit /\
   emitted (safeExit false 2) (state_of (safeExit false 1 two_registries))
   = [EvLock; EvUnlock; EvPthreadExit]).
Proof.
  split.
  - destruct (safeExit_shutdown false 1 two_registries) as [H _].
    destruct (H eq_refl) as (V & _ & E & _). split; [exact V|exact E].
  - destruct (safeExit_shutdown false 2
                (state_of (safeExit false 1 two_registries))) as [_ H].
    destruct (H eq_refl) as (V & _ & _ & E & _). split; [exact V|exact E].
Defined.

(* ================================================================= *)
(** ** The shutdown flag over executions *)

Lemma exec_sets_deadYet (EGLBACKEND : bool) (o : op) (s : Faker) :
  deadYet (state_of (exec EGLBACKEND o s)) = true.
Proof.
  destruct o as [rc|]; cbn [exec].
  - rewrite bind_run. unfold ret, state_of at 1. simpl snd.
    destruct (deadYet s) eqn:Hdead.
    + apply (safeExit_dead EGLBACKEND rc s Hdead).
    + apply (safeExit_alive EGLBACKEND rc s Hdead).
  - apply destructor_effect.
Qed.

Lemma run_app (EGLBACKEND : bool) (ops1 ops2 : list op) (s : Faker) :
  run EGLBACKEND (ops1 ++ ops2) s
  = run EGLBACKEND ops2 (state_of (run EGLBACKEND ops1 s)).
Proof.
  revert s. induction ops1 as [|o ops1 IH]; intros s.
  - reflexivity.
  - cbn [app run]. rewrite !bind_run. apply IH.
Qed.

Lemma run_keeps_deadYet (EGLBACKEND : bool) (ops : list op) (s : Faker) :
  deadYet s = true -> deadYet (state_of (run EGLBACKEND ops s)) = true.
Proof.
  revert s. induction ops as [|o ops IH]; intros s Hdead.
  - exact Hdead.
  - cbn [run]. rewrite bind_run. apply IH, exec_sets_deadYet.
Qed.

(** C2.  [deadYet] starts false, and once an execution has made it true
    (through [safeExit] or through the static destructor) it is true
    after every continuation of that execution. *)
Theorem deadYet_monotone (EGLBACKEND : bool) (ops1 ops2 : list op)
    (s : Faker) :
  deadYet Faker_init = false /\
  (deadYet (state_of (run EGLBACKEND ops1 s)) = true ->
   deadYet (state_of (run EGLBACKEND (ops1 ++ ops2) s)) = true).
Proof.
  split; [reflexivity|].
  intros H. rewrite run_app. apply run_keeps_deadYet, H.
Qed.

Lemma deadYet_monotone_witness :
  deadYet (state_of (run true [SafeExit 1] Faker_init)) = true /\
  deadYet (state_of (run true ([SafeExit 1]
                               ++ [SafeExit 0; StaticDestructors; SafeExit 3])
                       Faker_init)) = true.
Proof.
  split; [reflexivity|].
  apply (deadYet_monotone true [SafeExit 1]
           [SafeExit 0; StaticDestructors; SafeExit 3] Faker_init).
  reflexivity.
Defined.

(* ================================================================= *)
(** ** Teardown of the registries *)

Lemma filter_none {A : Type} (f : A -> bool) (l : list A) :
  (forall x, In x l -> f x = false) -> filter f l = [].
Proof.
  induction l as [|a l IH]; intros H; simpl.
  - reflexivity.
  - rewrite (H a) by (left; reflexivity).
    apply IH. intros x Hx. apply H. right. exact Hx.
Qed.

(** C3.  Running [cleanup] a second time issues no [kill]; a registry
    that was never allocated is not killed; no registry of the build is
    allocated after [cleanup], be it run once or twice.  [cleanup] is a
    total function: there is no failing run. *)
Theorem cleanup_idempotent (EGLBACKEND : bool) (s : Faker) :
  let s1 := state_of (cleanup EGLBACKEND s) in
  let s2 := state_of (cleanup EGLBACKEND s1) in
  (forall r, In r (registries EGLBACKEND) ->
     allocated s1 r = false /\ allocated s2 r = false) /\
  count is_kill (emitted (cleanup EGLBACKEND) s1) = 0%nat /\
  (forall r, allocated s r = false ->
     count (is_kill_of r) (emitted (cleanup EGLBACKEND) s) = 0%nat /\
     allocated s1 r = false /\ allocated s2 r = false).
Proof.
  intros s1 s2.
  assert (Hs1 : forall r, In r (registries EGLBACKEND) ->
                          allocated s1 r = false).
  { intros r Hr. unfold s1. rewrite cleanup_allocated.
    rewrite (in_registries_existsb _ _ Hr). apply andb_false_r. }
  split; [|split].
  - intros r Hr. split; [apply Hs1, Hr|].
    unfold s2. rewrite cleanup_allocated.
    rewrite (in_registries_existsb _ _ Hr). apply andb_false_r.
  - rewrite (emitted_app _ _ _ (cleanup_events EGLBACKEND s1)).
    assert (Hnone : filter (allocated s1) (registries EGLBACKEND) = []).
    { apply filter_none. exact Hs1. }
    rewrite Hnone. reflexivity.
  - intros r Hr.
    rewrite (emitted_app _ _ _ (cleanup_events EGLBACKEND s)).
    rewrite count_app, count_kill_of by apply registries_NoDup.
    rewrite Hr. split; [reflexivity|].
    unfold s2. rewrite cleanup_allocated. fold s1.
    unfold s1. rewrite cleanup_allocated, Hr. split; reflexivity.
Qed.

Lemma cleanup_idempotent_witness :
  emitted (cleanup true) egl_registries
  = [EvKill VisualHash; EvKill EGLContextHash; EvFree NULL;
     EvUnloadSymbols] /\
  allocated egl_registries VisualHash = true /\
  (allocated (state_of (cleanup true egl_registries)) VisualHash = false /\
   allocated (state_of (cleanup true
                          (state_of (cleanup true egl_registries))))
     VisualHash = false) /\
  count is_kill (emitted (cleanup true)
                   (state_of (cleanup true egl_registries))) = 0%nat /\
  allocated egl_registries PixmapHash = false /\
  count (is_kill_of PixmapHash) (emitted (cleanup true) egl_registries)
  = 0%nat.
Proof.
  destruct (cleanup_idempotent true egl_registries) as (H1 & H2 & H3).
  split; [reflexivity|]. split; [reflexivity|].
  split; [apply H1; simpl; tauto|].
  split; [exact H2|]. split; [reflexivity|].
  apply (H3 PixmapHash). reflexivity.
Defined.

(* ================================================================= *)
(** ** Teardown over a whole execution of the process *)

Lemma destructor_emitted (s : Faker) :
  emitted GlobalCleanup_destructor s
  = if globalMutex_instance s then [EvLock; EvDeleteConfig; EvUnlock]
    else [EvDeleteConfig].
Proof.
  apply emitted_app. apply (destructor_effect s).
Qed.

Lemma exec_safeExit_state (EGLBACKEND : bool) (rc : Z) (s : Faker) :
  state_of (exec EGLBACKEND (SafeExit rc) s)
  = state_of (safeExit EGLBACKEND rc s).
Proof. cbn [exec]. rewrite bind_run. reflexivity. Qed.

Lemma allocated_hashes (s s' : Faker) (r : registry) :
  hashes s' = hashes s -> allocated s' r = allocated s r.
Proof. intros H. unfold allocated. rewrite H. reflexivity. Qed.

(** An execution that starts with [deadYet] set tears nothing down: it
    only deletes the configuration instance, once for each run of the
    static destructor. *)
Lemma run_dead (EGLBACKEND : bool) (ops : list op) (s : Faker) :
  deadYet s = true ->
  deadYet (state_of (run EGLBACKEND ops s)) = true /\
  hashes (state_of (run EGLBACKEND ops s)) = hashes s /\
  exists l,
    events (state_of (run EGLBACKEND ops s)) = events s ++ l /\
    count is_delete_config l = destructor_runs ops /\
    count is_unload_symbols l = 0%nat /\
    (forall r, count (is_kill_of r) l = 0%nat) /\
    count is_exit l = 0%nat.
Proof.
  revert s. induction ops as [|o ops IH]; intros s Hdead.
  - cbn [run]. unfold ret, state_of. cbn [snd].
    split; [exact Hdead|]. split; [reflexivity|].
    exists []. rewrite app_nil_r. repeat split.
  - cbn [run]. rewrite bind_run.
    assert (Hstep : deadYet (state_of (exec EGLBACKEND o s)) = true /\
              hashes (state_of (exec EGLBACKEND o s)) = hashes s /\
              exists l1,
                events (state_of (exec EGLBACKEND o s)) = events s ++ l1 /\
                count is_delete_config l1
                = (if is_destructor o then 1%nat else 0%nat) /\
                count is_unload_symbols l1 = 0%nat /\
                (forall r, count (is_kill_of r) l1 = 0%nat) /\
                count is_exit l1 = 0%nat).
    { destruct o as [rc|].
      - rewrite exec_safeExit_state.
        destruct (safeExit_dead EGLBACKEND rc s Hdead)
          as (_ & D & _ & H & _ & _ & E).
        split; [exact D|]. split; [exact H|].
        eexists. split; [exact E|]. repeat split.
      - cbn [exec]. destruct (destructor_effect s) as (D & H & E).
        split; [exact D|]. split; [exact H|].
        eexists. split; [exact E|].
        destruct (globalMutex_instance s); repeat split. }
    destruct Hstep as (D1 & H1 & l1 & E1 & C1 & U1 & K1 & X1).
    destruct (IH _ D1) as (D2 & H2 & l2 & E2 & C2 & U2 & K2 & X2).
    split; [exact D2|]. split; [rewrite H2; exact H1|].
    exists (l1 ++ l2). split; [rewrite E2, E1, app_assoc; reflexivity|].
    rewrite !count_app, C1, C2, U1, U2, X1, X2.
    split; [|split; [reflexivity|split; [|reflexivity]]].
    + unfold destructor_runs. cbn [filter].
      destruct (is_destructor o); reflexivity.
    + intros r. rewrite count_app, K1, K2. reflexivity.
Qed.

(** C5, as stated, fails.  With no call of [safeExit] the static
    destructor kills no registry (an allocated one stays allocated:
    [cleanup] never runs); with a call of [safeExit] the configuration
    instance is deleted by [safeExit] and again by the destructor.  In
    neither execution does global teardown run exactly once. *)
Lemma teardown_not_exactly_once :
  (count is_kill (emitted (run false [StaticDestructors]) two_registries)
   = 0%nat /\
   allocated (state_of (run false [StaticDestructors] two_registries))
     PixmapHash = true /\
   ~ teardown_exactly_once
       (emitted (run false [StaticDestructors]) two_registries)) /\
  (count is_delete_config
     (emitted (run false [SafeExit 0; StaticDestructors]) two_registries)
   = 2%nat /\
   ~ teardown_exactly_once
       (emitted (run false [SafeExit 0; StaticDestructors])
          two_registries)).
Proof.
  unfold teardown_exactly_once.
  repeat split; try reflexivity;
    vm_compute; intros [H1 H2]; discriminate.
Qed.

(** C5, amended.  The static destructor does not test [deadYet]: in
    every state it deletes the configuration instance once, kills no
    registry and leaves [deadYet] true.  So, over every sequence of
    calls of [safeExit] and runs of the destructor, in whatever order,
    that starts with [deadYet] false: [cleanup] runs once when the
    sequence begins with a call of [safeExit] and not at all otherwise (a
    call of [safeExit] that follows a run of the destructor finds
    [deadYet] set); no registry is killed twice, and a registry that is
    allocated stays so unless that first call kills it; the
    configuration instance is deleted once by each run of the destructor
    and once more by a call of [safeExit] that comes first. *)
Theorem teardown_at_most_once (EGLBACKEND : bool) (ops : list op)
    (s : Faker) :
  deadYet s = false ->
  let l := emitted (run EGLBACKEND ops) s in
  let first := starts_with_safeExit ops in
  (ops <> [] -> deadYet (state_of (run EGLBACKEND ops s)) = true) /\
  count is_unload_symbols l = (if first then 1%nat else 0%nat) /\
  (forall r, In r (registries EGLBACKEND) ->
     count (is_kill_of r) l
     = if first && allocated s r then 1%nat else 0%nat) /\
  (forall r, In r (registries EGLBACKEND) ->
     allocated (state_of (run EGLBACKEND ops s)) r
     = allocated s r && negb first) /\
  count is_delete_config l
  = (destructor_runs ops + (if first then 1 else 0))%nat /\
  count is_exit l = (if first then 1%nat else 0%nat) /\
  (forall s' : Faker,
     deadYet (state_of (GlobalCleanup_destructor s')) = true /\
     count is_delete_config (emitted GlobalCleanup_destructor s') = 1%nat /\
     count is_kill (emitted GlobalCleanup_destructor s') = 0%nat).
Proof.
  intros Hdead l first.
  assert (Hdtor : forall s' : Faker,
     deadYet (state_of (GlobalCleanup_destructor s')) = true /\
     count is_delete_config (emitted GlobalCleanup_destructor s') = 1%nat /\
     count is_kill (emitted GlobalCleanup_destructor s') = 0%nat).
  { intros s'. split; [apply destructor_effect|].
    rewrite destructor_emitted.
    destruct (globalMutex_instance s'); split; reflexivity. }
  destruct ops as [|[rc|] rest].
  - (* nothing happens *)
    unfold l, first, emitted. cbn [run starts_with_safeExit].
    unfold ret, state_of. cbn [snd]. rewrite skipn_all.
    split; [intros H; contradiction|].
    split; [reflexivity|]. split; [intros r _; reflexivity|].
    split; [intros r _; rewrite andb_true_r; reflexivity|].
    split; [reflexivity|]. split; [reflexivity|exact Hdtor].
  - (* a call of safeExit comes first *)
    assert (Hs : state_of (run EGLBACKEND (SafeExit rc :: rest) s)
                 = state_of (run EGLBACKEND rest
                               (state_of (safeExit EGLBACKEND rc s)))).
    { cbn [run]. rewrite bind_run, exec_safeExit_state. reflexivity. }
    destruct (safeExit_alive EGLBACKEND rc s Hdead)
      as (_ & D1 & _ & A1 & E1).
    destruct (run_dead EGLBACKEND rest _ D1)
      as (D2 & H2 & l2 & E2 & C2 & U2 & K2 & X2).
    assert (Hev : events (state_of (run EGLBACKEND (SafeExit rc :: rest) s))
      = events s
        ++ ([EvLock]
            ++ map EvKill (filter (allocated s) (registries EGLBACKEND))
            ++ [EvFree (glExtensions s); EvUnloadSymbols; EvDeleteConfig;
                EvUnlock; EvExit rc])
        ++ l2).
    { rewrite Hs, E2, E1, <- !app_assoc. reflexivity. }
    unfold l, first. rewrite (emitted_app _ _ _ Hev), Hs.
    cbn [starts_with_safeExit negb andb].
    split; [intros _; exact D2|].
    split; [|split; [|split; [|split; [|split]]]].
    + rewrite !count_app, count_kills_none, U2 by reflexivity.
      reflexivity.
    + intros r Hr. rewrite !count_app, K2.
      rewrite count_kill_of by apply registries_NoDup.
      rewrite (in_registries_existsb _ _ Hr), andb_true_r.
      destruct (allocated s r); reflexivity.
    + intros r Hr. rewrite (allocated_hashes _ _ r H2), A1.
      rewrite (in_registries_existsb _ _ Hr).
      rewrite !andb_false_r. reflexivity.
    + rewrite !count_app, count_kills_none, C2 by reflexivity.
      unfold destructor_runs. cbn [filter is_destructor].
      change (count is_delete_config [EvLock]) with 0%nat.
      change (count is_delete_config
                [EvFree (glExtensions s); EvUnloadSymbols; EvDeleteConfig;
                 EvUnlock; EvExit rc]) with 1%nat.
      lia.
    + rewrite !count_app, count_kills_none, X2 by reflexivity.
      reflexivity.
    + exact Hdtor.
  - (* a run of the destructor comes first *)
    assert (Hs : state_of (run EGLBACKEND (StaticDestructors :: rest) s)
                 = state_of (run EGLBACKEND rest
                               (state_of (GlobalCleanup_destructor s)))).
    { cbn [run]. rewrite bind_run. reflexivity. }
    destruct (destructor_effect s) as (D1 & H1 & E1).
    destruct (run_dead EGLBACKEND rest _ D1)
      as (D2 & H2 & l2 & E2 & C2 & U2 & K2 & X2).
    assert (Hev : events (state_of (run EGLBACKEND
                                      (StaticDestructors :: rest) s))
      = events s
        ++ (if globalMutex_instance s
            then [EvLock; EvDeleteConfig; EvUnlock]
            else [EvDeleteConfig])
        ++ l2).
    { rewrite Hs, E2, E1, <- !app_assoc. reflexivity. }
    unfold l, first. rewrite (emitted_app _ _ _ Hev), Hs.
    cbn [starts_with_safeExit negb andb].
    assert (Hd : forall f : event -> bool,
              f EvLock = false -> f EvUnlock = false ->
              count f (if globalMutex_instance s
                       then [EvLock; EvDeleteConfig; EvUnlock]
                       else [EvDeleteConfig])
              = if f EvDeleteConfig then 1%nat else 0%nat).
    { intros f F1 F2. unfold count.
      destruct (globalMutex_instance s); cbn [filter];
        rewrite ?F1, ?F2; destruct (f EvDeleteConfig); reflexivity. }
    split; [intros _; exact D2|].
    split; [|split; [|split; [|split; [|split]]]].
    + rewrite count_app, U2, Hd by reflexivity. reflexivity.
    + intros r _. rewrite count_app, K2, Hd by reflexivity. reflexivity.
    + intros r _. rewrite (allocated_hashes _ _ r H2).
      rewrite (allocated_hashes _ _ r H1), andb_true_r. reflexivity.
    + rewrite count_app, C2, Hd by reflexivity.
      unfold destructor_runs. cbn [filter is_destructor List.length
                                     is_delete_config].
      lia.
    + rewrite count_app, X2, Hd by reflexivity. reflexivity.
    + exact Hdtor.
Qed.

Lemma teardown_at_most_once_witness :
  (count is_unload_symbols
     (emitted (run false [SafeExit 1; SafeExit 1; StaticDestructors])
        two_registries) = 1%nat /\
   count (is_kill_of PixmapHash)
     (emitted (run false [SafeExit 1; SafeExit 1; StaticDestructors])
        two_registries) = 1%nat /\
   count is_delete_config
     (emitted (run false [SafeExit 1; SafeExit 1; StaticDestructors])
        two_registries) = 2%nat) /\
  (count is_unload_symbols
     (emitted (run false [StaticDestructors; SafeExit 1]) two_registries)
   = 0%nat /\
   allocated (state_of (run false [StaticDestructors; SafeExit 1]
                          two_registries)) PixmapHash = true /\
   count is_delete_config
     (emitted (run false [StaticDestructors; SafeExit 1]) two_registries)
   = 1%nat).
Proof.
  split.
  - destruct (teardown_at_most_once false
                [SafeExit 1; SafeExit 1; StaticDestructors] two_registries
                eq_refl) as (_ & H1 & H2 & _ & H4 & _).
    split; [exact H1|]. split; [|exact H4].
    apply (H2 PixmapHash). simpl. tauto.
  - destruct (teardown_at_most_once false [StaticDestructors; SafeExit 1]
                two_registries eq_refl) as (_ & H1 & _ & H3 & H4 & _).
    split; [exact H1|]. split; [|exact H4].
    apply (H3 PixmapHash). simpl. tauto.
Defined.

(* ================================================================= *)
(** ** Excluded displays *)

Lemma uchar_nonneg (c : ascii) : 0 <= uchar c.
Proof. unfold uchar. apply N2Z.is_nonneg. Qed.

Lemma tolower_zero_iff (c : Z) : 0 <= c -> (tolower c = 0 <-> c = 0).
Proof.
  intros H. unfold tolower.
  destruct (Z.leb_spec 65 c); destruct (Z.leb_spec c 90); simpl; lia.
Qed.

Lemma cstr_cons (c : ascii) (t : string) :
  cstr (String c t) <-> uchar c <> 0 /\ cstr t.
Proof.
  unfold cstr. simpl. rewrite andb_true_iff, negb_true_iff, Z.eqb_neq.
  reflexivity.
Qed.

(** On C strings [strcasecmp] answers zero exactly for strings that are
    equal when case is ignored. *)
Lemma strcasecmp_zero_iff (s1 s2 : string) :
  cstr s1 -> cstr s2 ->
  (strcasecmp s1 s2 = 0 <-> eq_ignoring_case s1 s2).
Proof.
  unfold eq_ignoring_case. revert s2.
  induction s1 as [|a t1 IH]; intros [|b t2] H1 H2.
  - simpl. tauto.
  - apply cstr_cons in H2. destruct H2 as [Hb _].
    pose proof (uchar_nonneg b) as Hb0.
    pose proof (tolower_zero_iff (uchar b) Hb0) as Hl.
    cbn [strcasecmp peek lower_string].
    change (tolower 0) with 0.
    destruct (Z.eqb_spec (0 - tolower (uchar b)) 0) as [E|E].
    + exfalso. apply Hb, Hl. lia.
    + split; [intros; contradiction|discriminate].
  - apply cstr_cons in H1. destruct H1 as [Ha _].
    pose proof (uchar_nonneg a) as Ha0.
    pose proof (tolower_zero_iff (uchar a) Ha0) as Hl.
    cbn [strcasecmp peek lower_string].
    change (tolower 0) with 0.
    destruct (Z.eqb_spec (tolower (uchar a) - 0) 0) as [E|E].
    + exfalso. apply Ha, Hl. lia.
    + split; [intros; contradiction|discriminate].
  - apply cstr_cons in H1. destruct H1 as [_ H1].
    apply cstr_cons in H2. destruct H2 as [_ H2].
    cbn [strcasecmp peek lower_string].
    destruct (Z.eqb_spec (tolower (uchar a) - tolower (uchar b)) 0)
      as [E|E].
    + rewrite (IH t2 H1 H2). split.
      * intros Ht. f_equal; [lia|exact Ht].
      * intros Ht. inversion Ht. reflexivity.
    + split; [intros; contradiction|].
      intros Ht. inversion Ht. lia.
Qed.

Section Tokens.

Variable delim : string.

Lemma fields_not_nil (s : string) : fields delim s <> [].
Proof.
  destruct s as [|c t]; simpl.
  - discriminate.
  - destruct (is_delim delim c); [discriminate|].
    destruct (fields delim t); discriminate.
Qed.

Lemma tokens_delim (c : ascii) (t : string) :
  is_delim delim c = true -> tokens delim (String c t) = tokens delim t.
Proof.
  intros H. unfold tokens. simpl. rewrite H. reflexivity.
Qed.

Lemma tokens_skip_delims (s : string) :
  tokens delim (skip_delims delim s) = tokens delim s.
Proof.
  induction s as [|c t IH]; simpl.
  - reflexivity.
  - destruct (is_delim delim c) eqn:E.
    + rewrite IH, (tokens_delim c t E). reflexivity.
    + reflexivity.
Qed.

Lemma skip_delims_length (s : string) :
  (String.length (skip_delims delim s) <= String.length s)%nat.
Proof.
  induction s as [|c t IH]; simpl.
  - lia.
  - destruct (is_delim delim c); simpl; lia.
Qed.

Lemma skip_delims_head (s : string) (c : ascii) (t : string) :
  skip_delims delim s = String c t -> is_delim delim c = false.
Proof.
  induction s as [|a s IH]; simpl.
  - discriminate.
  - destruct (is_delim delim a) eqn:E.
    + exact IH.
    + intros H. inversion H. subst. exact E.
Qed.

(** The first field of [s] is what stands before its first delimiter;
    the other fields are those of what follows that delimiter. *)
Lemma fields_split (s : string) :
  fields delim s
  = fst (split_at_delim delim s)
    :: match snd (split_at_delim delim s) with
       | EmptyString => []
       | String _ r => fields delim r
       end.
Proof.
  induction s as [|c t IH]; simpl.
  - reflexivity.
  - destruct (is_delim delim c); simpl.
    + reflexivity.
    + rewrite IH. destruct (split_at_delim delim t). reflexivity.
Qed.

Lemma split_at_delim_length (s : string) :
  (String.length (fst (split_at_delim delim s))
   + String.length (snd (split_at_delim delim s)) = String.length s)%nat.
Proof.
  induction s as [|c t IH]; simpl.
  - reflexivity.
  - destruct (is_delim delim c); simpl.
    + reflexivity.
    + destruct (split_at_delim delim t). simpl in *. lia.
Qed.

(** [strtok] hands out the tokens one by one: it answers NULL when no
    token is left, and else the first token, saving a strictly shorter
    string that holds the other tokens. *)
Lemma strtok_tokens (s : string) :
  match strtok None delim s with
  | (None, _) => tokens delim s = []
  | (Some token, olds') =>
      tokens delim s = token :: tokens delim olds' /\
      (String.length olds' < String.length s)%nat
  end.
Proof.
  unfold strtok. rewrite <- (tokens_skip_delims s).
  pose proof (skip_delims_length s) as Hlen.
  destruct (skip_delims delim s) as [|c t] eqn:Hs.
  - reflexivity.
  - pose proof (skip_delims_head s c t Hs) as Hc.
    pose proof (fields_split (String c t)) as Hf.
    pose proof (split_at_delim_length (String c t)) as Hl.
    destruct (split_at_delim delim (String c t)) as [token rest] eqn:Hsp.
    simpl in Hsp. rewrite Hc in Hsp.
    destruct (split_at_delim delim t) as [tok' rest'].
    inversion Hsp. subst token rest. clear Hsp.
    cbn [fst snd] in Hf, Hl. unfold tokens at 1. rewrite Hf.
    cbn [filter String.eqb negb].
    split.
    + f_equal. destruct rest' as [|d r]; reflexivity.
    + cbn [String.length] in Hl, Hlen |- *.
      destruct rest' as [|d r]; cbn [String.length] in *; lia.
Qed.

End Tokens.

Lemma excluded_loop_tokens (name : string) (fuel : nat) (s : string) :
  (String.length s <= fuel)%nat ->
  excluded_loop fuel name (fst (strtok None display_delims s))
    (snd (strtok None display_delims s))
  = Some (existsb (fun token => strcasecmp name token =? 0)
            (tokens display_delims s)).
Proof.
  revert s. induction fuel as [|fuel IH]; intros s Hlen;
    pose proof (strtok_tokens display_delims s) as Ht;
    destruct (strtok None display_delims s) as [[token|] olds'];
    cbn [fst snd excluded_loop].
  - destruct Ht as [Ht Hl]. lia.
  - rewrite Ht. reflexivity.
  - destruct Ht as [Ht Hl]. rewrite Ht. cbn [existsb].
    destruct (strcasecmp name token =? 0); [reflexivity|].
    cbn [orb]. rewrite <- (IH olds') by lia.
    destruct (strtok None display_delims olds'). reflexivity.
  - rewrite Ht. reflexivity.
Qed.

Lemma isDisplayStringExcluded_tokens (excludeddpys name : string) :
  isDisplayStringExcluded excludeddpys name
  = Some (existsb (fun token => strcasecmp name token =? 0)
            (tokens display_delims excludeddpys)).
Proof.
  unfold isDisplayStringExcluded.
  change (strtok (Some excludeddpys) display_delims EmptyString)
    with (strtok None display_delims excludeddpys).
  rewrite <- (excluded_loop_tokens name (String.length excludeddpys))
    by lia.
  destruct (strtok None display_delims excludeddpys). reflexivity.
Qed.

Lemma fields_cstr (delim s : string) :
  cstr s -> forall f, In f (fields delim s) -> cstr f.
Proof.
  induction s as [|c t IH]; intros Hs f Hf; simpl in Hf.
  - destruct Hf as [<-|[]]. reflexivity.
  - apply cstr_cons in Hs. destruct Hs as [Hc Ht].
    destruct (is_delim delim c).
    + destruct Hf as [<-|Hf]; [reflexivity|]. apply IH; assumption.
    + destruct (fields delim t) as [|f0 fs] eqn:E.
      * destruct Hf as [<-|[]]. apply cstr_cons. split; [exact Hc|].
        reflexivity.
      * destruct Hf as [<-|Hf].
        -- apply cstr_cons. split; [exact Hc|].
           apply IH; [exact Ht|left; reflexivity].
        -- apply IH; [exact Ht|right; exact Hf].
Qed.

Lemma tokens_cstr (delim s : string) :
  cstr s -> forall token, In token (tokens delim s) -> cstr token.
Proof.
  intros Hs token Ht. unfold tokens in Ht. apply filter_In in Ht.
  apply (fields_cstr delim s Hs). apply Ht.
Qed.

(** C6.  [isDisplayStringExcluded] always answers, and it answers true
    exactly when some token of the list (split on commas, spaces and
    tabs) equals the name when case is ignored; so it does for
    [HOST1:0.0] in the list [host1:0.0, host2:1.0], and not for
    [host3:0.0]. *)
Theorem excluded_membership (excludeddpys name : string) :
  (cstr excludeddpys -> cstr name ->
   exists b : bool,
     isDisplayStringExcluded excludeddpys name = Some b /\
     (b = true <->
      exists token, In token (tokens display_delims excludeddpys) /\
                    eq_ignoring_case token name)) /\
  isDisplayStringExcluded "host1:0.0, host2:1.0" "HOST1:0.0" = Some true /\
  isDisplayStringExcluded "host1:0.0, host2:1.0" "host3:0.0" = Some false.
Proof.
  split; [|split; reflexivity].
  intros Hl Hn. eexists. split; [apply isDisplayStringExcluded_tokens|].
  rewrite existsb_exists. split.
  - intros (token & Hin & Heq). exists token. split; [exact Hin|].
    apply Z.eqb_eq in Heq.
    apply strcasecmp_zero_iff in Heq;
      [|exact Hn|apply (tokens_cstr _ _ Hl _ Hin)].
    unfold eq_ignoring_case in *. congruence.
  - intros (token & Hin & Heq). exists token. split; [exact Hin|].
    apply Z.eqb_eq.
    apply strcasecmp_zero_iff;
      [exact Hn|apply (tokens_cstr _ _ Hl _ Hin)|].
    unfold eq_ignoring_case in *. congruence.
Qed.

Lemma excluded_membership_witness :
  exists b : bool,
    isDisplayStringExcluded "host1:0.0,HOST2:1.0 host4:0" "Host2:1.0"
    = Some b /\
    (b = true <->
     exists token,
       In token (tokens display_delims "host1:0.0,HOST2:1.0 host4:0") /\
       eq_ignoring_case token "Host2:1.0").
Proof.
  apply (excluded_membership "host1:0.0,HOST2:1.0 host4:0" "Host2:1.0");
    reflexivity.
Defined.

(* ================================================================= *)
(** ** The test harness: arguments *)

Lemma usage_error_iff (argv : list string) :
  usage_error argv = true <-> malformed argv.
Proof.
  unfold usage_error, malformed.
  rewrite !orb_true_iff, !Z.ltb_lt. tauto.
Qed.

Lemma parse_args_none_iff (P S : Z) (argv : list string) :
  parse_args P S argv = None <-> malformed argv.
Proof.
  rewrite <- usage_error_iff. unfold parse_args.
  destruct (usage_error argv).
  - tauto.
  - destruct (scan_options _ _ _ _ _). split; discriminate.
Qed.

Lemma skipn_cons_nth {A : Type} (d : A) (n : nat) (l : list A) :
  (n < List.length l)%nat -> skipn n l = nth n l d :: skipn (S n) l.
Proof.
  revert l. induction n as [|n IH]; intros [|a l] H; simpl in *;
    try lia.
  - reflexivity.
  - apply IH. lia.
Qed.

Lemma ssl_flag_update (a : string) (usessl : bool) :
  (if stricmp a "-ssl" =? 0 then true else usessl)
  = is_ssl_flag a || usessl.
Proof. unfold is_ssl_flag. destruct (stricmp a "-ssl" =? 0); reflexivity. Qed.

(** The option loop sets [usessl] exactly when one of the arguments that
    it looks at is the flag. *)
Lemma scan_options_usessl (fuel : nat) (argv : list string) (i : Z)
    (usessl : bool) (clientname : option string) :
  0 <= i ->
  (List.length argv - Z.to_nat i <= fuel)%nat ->
  fst (scan_options fuel argv i usessl clientname)
  = usessl
    || existsb is_ssl_flag (option_args (skipn (Z.to_nat i) argv)).
Proof.
  revert i usessl clientname.
  induction fuel as [|fuel IH]; intros i usessl clientname Hi Hfuel.
  - cbn [scan_options fst]. rewrite skipn_all2 by lia.
    simpl. rewrite orb_false_r. reflexivity.
  - cbn [scan_options]. unfold argc.
    destruct (Z.ltb_spec i (Z.of_nat (List.length argv))) as [Hlt|Hge].
    + assert (Hn : (Z.to_nat i < List.length argv)%nat) by lia.
      rewrite (skipn_cons_nth EmptyString _ _ Hn).
      fold (arg argv i). cbn [option_args existsb].
      rewrite ssl_flag_update.
      assert (Hs1 : Z.to_nat (i + 1) = Datatypes.S (Z.to_nat i)) by lia.
      destruct (strnicmp (arg argv i) "-cl" 3 =? 0) eqn:Ecl; cbn [andb].
      * destruct (Z.ltb_spec i (Z.of_nat (List.length argv) - 1))
          as [Hlt1|Hge1].
        -- assert (Hn1 : (Datatypes.S (Z.to_nat i) < List.length argv)%nat)
             by lia.
           rewrite (skipn_cons_nth EmptyString _ _ Hn1).
           rewrite IH by lia.
           replace (Z.to_nat (i + 1 + 1))
             with (Datatypes.S (Datatypes.S (Z.to_nat i))) by lia.
           destruct (is_ssl_flag (arg argv i)), usessl; reflexivity.
        -- rewrite IH by lia. rewrite Hs1.
           rewrite skipn_all2 by lia. cbn [option_args existsb].
           destruct (is_ssl_flag (arg argv i)), usessl; reflexivity.
      * rewrite IH by lia. rewrite Hs1.
        destruct (is_ssl_flag (arg argv i)), usessl; reflexivity.
    + cbn [fst]. rewrite skipn_all2 by lia.
      simpl. rewrite orb_false_r. reflexivity.
Qed.

Lemma parse_args_some (P S : Z) (argv : list string) (o : options) :
  parse_args P S argv = Some o ->
  opt_iter o = atoi (arg argv 1) /\
  opt_frames o = atoi (arg argv 2) /\
  opt_usessl o = existsb is_ssl_flag (option_args argv) /\
  opt_port o = to_ushort (if opt_usessl o then S else P).
Proof.
  unfold parse_args. destruct (usage_error argv); [discriminate|].
  pose proof (scan_options_usessl (List.length argv) argv 0 false None
                ltac:(lia) ltac:(lia)) as Hscan.
  destruct (scan_options (List.length argv) argv 0 false None)
    as [usessl clientname].
  intros H. inversion H. subst o. clear H. simpl in *.
  repeat split. exact Hscan.
Qed.








(* ================================================================= *)
(** ** The test harness: the run *)

Lemma hcount_app (f : hevent -> bool) (l1 l2 : list hevent) :
  hcount f (l1 ++ l2) = hcount f l1 + hcount f l2.
Proof. unfold hcount. rewrite filter_app, length_app. lia. Qed.

Lemma hcount_cons (f : hevent -> bool) (e : hevent) (l : list hevent) :
  hcount f (e :: l) = (if f e then 1 else 0) + hcount f l.
Proof.
  unfold hcount. simpl. destruct (f e); simpl List.length; lia.
Qed.

Lemma hcount_nil (f : hevent -> bool) : hcount f [] = 0.
Proof. reflexivity. Qed.

(** A loop whose body never throws runs all its turns. *)
Lemma for_up_count (f : hevent -> bool) (k : Z) (count : nat) (x : Z)
    (body : Z -> list hevent * bool) :
  (forall y, snd (body y) = true /\ hcount f (fst (body y)) = k) ->
  snd (for_up count x body) = true /\
  hcount f (fst (for_up count x body)) = Z.of_nat count * k.
Proof.
  intros Hbody. revert x. induction count as [|count IH]; intros x.
  - split; reflexivity.
  - cbn [for_up]. destruct (Hbody x) as [Hok Hk].
    destruct (body x) as [l ok]. cbn [fst snd] in Hok, Hk. subst ok.
    destruct (IH (x + 1)) as [Hok' Hk'].
    destruct (for_up count (x + 1) body) as [l' ok'].
    cbn [fst snd] in *. split; [exact Hok'|].
    rewrite hcount_app, Hk, Hk'. lia.
Qed.

(** Whatever the body does, the log of a loop holds only what its turns
    log. *)
Lemma for_up_forall (Q : hevent -> Prop) (count : nat) (x : Z)
    (body : Z -> list hevent * bool) :
  (forall y, Forall Q (fst (body y))) ->
  Forall Q (fst (for_up count x body)).
Proof.
  intros Hbody. revert x. induction count as [|count IH]; intros x.
  - constructor.
  - cbn [for_up]. pose proof (Hbody x) as Hx.
    destruct (body x) as [l ok]. cbn [fst] in Hx.
    destruct ok; [|exact Hx].
    pose proof (IH (x + 1)) as Hx'.
    destruct (for_up count (x + 1) body) as [l' ok']. cbn [fst] in *.
    apply Forall_app. split; assumption.
Qed.

Lemma send_one_no_usage (env : Env) (win i f : Z) :
  Forall (fun e => is_usage e = false) (fst (send_one env win i f)).
Proof.
  unfold send_one.
  destruct (getbitmap_ok env i f); [destruct (sendframe_ok env i f)|];
    repeat constructor.
Qed.

Lemma cycle_no_usage (env : Env) (o : options) (clientname : string)
    (win i : Z) :
  Forall (fun e => is_usage e = false) (fst (cycle env o clientname win i)).
Proof.
  unfold cycle. destruct (connect_ok env i); [|repeat constructor].
  pose proof (for_up_forall (fun e => is_usage e = false)
                (Z.to_nat (opt_frames o)) 0 (send_one env win i)
                (send_one_no_usage env win i)) as H.
  destruct (for_up _ _ _) as [l ok]. cbn [fst] in H.
  destruct ok; cbn [fst]; constructor; try reflexivity; try exact H.
  apply Forall_app. split; [exact H|repeat constructor].
Qed.

Lemma try_block_no_usage (env : Env) (o : options) :
  Forall (fun e => is_usage e = false)
    (snd (fst (try_block env o))).
Proof.
  unfold try_block.
  destruct (negb (XInitThreads_status env)); [constructor|].
  destruct (XOpenDisplay_result env =? NULL); [constructor|].
  destruct (XCreateSimpleWindow_result env =? 0); [constructor|].
  destruct (negb (XMapRaised_status env)); [repeat constructor|].
  match goal with
  | |- context [for_up ?n ?x ?b] =>
      pose proof (for_up_forall (fun e => is_usage e = false) n x b) as H;
      destruct (for_up n x b) as [l ok]
  end.
  cbn [fst snd] in *. repeat constructor. apply H.
  intros y. apply cycle_no_usage.
Qed.

Lemma existsb_forall_false {A : Type} (f : A -> bool) (l : list A) :
  Forall (fun e => f e = false) l -> existsb f l = false.
Proof.
  induction 1 as [|e l He Hl IH]; simpl.
  - reflexivity.
  - rewrite He. exact IH.
Qed.

Lemma send_one_succeeds (env : Env) (win i f : Z) :
  env_succeeds env ->
  send_one env win i f = ([HGetBitmap i f; HSendFrame i f 50 win], true).
Proof.
  intros Henv. unfold send_one.
  rewrite (ok_getbitmap env Henv), (ok_sendframe env Henv). reflexivity.
Qed.

Lemma cycle_succeeds (env : Env) (o : options) (clientname : string)
    (win i : Z) :
  env_succeeds env -> 0 <= opt_frames o ->
  snd (cycle env o clientname win i) = true /\
  hcount is_connect (fst (cycle env o clientname win i)) = 1 /\
  hcount is_disconnect (fst (cycle env o clientname win i)) = 1 /\
  hcount is_sendframe (fst (cycle env o clientname win i)) = opt_frames o.
Proof.
  intros Henv Hframes. unfold cycle. rewrite (ok_connect env Henv).
  assert (Hbody : forall f : hevent -> bool, forall k : Z,
            hcount f [HGetBitmap 0 0; HSendFrame 0 0 50 win] = k ->
            (forall a b c d, f (HGetBitmap a b) = f (HGetBitmap c d)) ->
            (forall a b c d, f (HSendFrame a b 50 win)
                             = f (HSendFrame c d 50 win)) ->
            forall y, snd (send_one env win i y) = true /\
                      hcount f (fst (send_one env win i y)) = k).
  { intros f k Hk Hg Hs y. rewrite (send_one_succeeds env win i y Henv).
    split; [reflexivity|]. cbn [fst]. rewrite <- Hk, !hcount_cons.
    rewrite (Hg i y 0 0), (Hs i y 0 0). reflexivity. }
  pose proof (for_up_count is_connect 0 (Z.to_nat (opt_frames o)) 0 _
                (Hbody is_connect 0 eq_refl
                   ltac:(reflexivity) ltac:(reflexivity))) as Hc.
  pose proof (for_up_count is_disconnect 0 (Z.to_nat (opt_frames o)) 0 _
                (Hbody is_disconnect 0 eq_refl
                   ltac:(reflexivity) ltac:(reflexivity))) as Hd.
  pose proof (for_up_count is_sendframe 1 (Z.to_nat (opt_frames o)) 0 _
                (Hbody is_sendframe 1 eq_refl
                   ltac:(reflexivity) ltac:(reflexivity))) as Hs.
  destruct (for_up (Z.to_nat (opt_frames o)) 0 (send_one env win i))
    as [l ok].
  cbn [fst snd] in Hc, Hd, Hs.
  destruct Hc as [Hok Hc]. destruct Hd as [_ Hd]. destruct Hs as [_ Hs].
  subst ok. cbn [fst snd]. split; [reflexivity|].
  rewrite !hcount_cons, !hcount_app, !hcount_cons, !hcount_nil.
  rewrite Hc, Hd, Hs. cbn [is_connect is_disconnect is_sendframe]. lia.
Qed.

Lemma main_run_succeeds (P S : Z) (env : Env) (argv : list string)
    (o : options) :
  parse_args P S argv = Some o ->
  env_succeeds env -> 0 <= opt_iter o -> 0 <= opt_frames o ->
  hcount is_connect (snd (main P S env argv)) = opt_iter o /\
  hcount is_disconnect (snd (main P S env argv)) = opt_iter o /\
  hcount is_sendframe (snd (main P S env argv))
  = opt_iter o * opt_frames o.
Proof.
  intros Hparse Henv Hiter Hframes. unfold main. rewrite Hparse.
  unfold try_block.
  rewrite (ok_XInitThreads env Henv), (ok_XMapRaised env Henv).
  cbn [negb].
  destruct (Z.eqb_spec (XOpenDisplay_result env) NULL) as [E|_];
    [exfalso; exact (ok_XOpenDisplay env Henv E)|].
  destruct (Z.eqb_spec (XCreateSimpleWindow_result env) 0) as [E|_];
    [exfalso; exact (ok_XCreateSimpleWindow env Henv E)|].
  set (clientname := match opt_clientname o with
                     | Some c => c
                     | None => DisplayString env
                     end).
  set (win := XCreateSimpleWindow_result env).
  pose proof (fun f k H =>
    for_up_count f k (Z.to_nat (opt_iter o)) 0
      (cycle env o clientname win) H) as Hloop.
  pose proof (Hloop is_connect 1
    (fun y => let H := cycle_succeeds env o clientname win y Henv Hframes
              in conj (proj1 H) (proj1 (proj2 H)))) as Hc.
  pose proof (Hloop is_disconnect 1
    (fun y => let H := cycle_succeeds env o clientname win y Henv Hframes
              in conj (proj1 H) (proj1 (proj2 (proj2 H))))) as Hd.
  pose proof (Hloop is_sendframe (opt_frames o)
    (fun y => let H := cycle_succeeds env o clientname win y Henv Hframes
              in conj (proj1 H) (proj2 (proj2 (proj2 H))))) as Hs.
  clear Hloop.
  destruct (for_up (Z.to_nat (opt_iter o)) 0 (cycle env o clientname win))
    as [l ok].
  cbn [fst snd] in *.
  destruct Hc as [Hok Hc]. destruct Hd as [_ Hd]. destruct Hs as [_ Hs].
  subst ok.
  destruct (negb (win =? 0)), (negb (XOpenDisplay_result env =? NULL));
    rewrite ?hcount_app, ?hcount_cons, ?hcount_nil, Hc, Hd, Hs;
    cbn [is_connect is_disconnect is_sendframe]; lia.
Qed.

Lemma main_status (P S : Z) (env : Env) (argv : list string) :
  (malformed argv -> main P S env argv = (1, [HUsage (arg argv 0)])) /\
  (~ malformed argv ->
   fst (main P S env argv) = 0 /\
   existsb is_usage (snd (main P S env argv)) = false).
Proof.
  split; intros H.
  - apply (parse_args_none_iff P S) in H. unfold main. rewrite H.
    reflexivity.
  - unfold main. destruct (parse_args P S argv) as [o|] eqn:Hparse.
    + pose proof (try_block_no_usage env o) as Hlog.
      destruct (try_block env o) as [[[dpy win] l] ok].
      cbn [fst snd] in *. split; [reflexivity|].
      apply existsb_forall_false.
      repeat (apply Forall_app; split); [exact Hlog| | |].
      * destruct ok; repeat constructor.
      * destruct (negb (win =? 0)); repeat constructor.
      * destruct (negb (dpy =? NULL)); repeat constructor.
    + exfalso. apply H. apply (parse_args_none_iff P S). exact Hparse.
Qed.

(** C7.  The harness prints the usage message and exits with status 1
    exactly when fewer than two arguments follow the program name, or
    the iterations value or the frames value parses to less than 1.  On
    every other argument vector it exits with status 0, and, when no
    collaborator fails, it runs as many connect / send / disconnect
    cycles as the iterations value says, each sending as many frames as
    the frames value says. *)
Theorem main_usage (RR_DEFAULTPORT RR_DEFAULTSSLPORT : Z) (env : Env)
    (argv : list string) :
  let result := main RR_DEFAULTPORT RR_DEFAULTSSLPORT env argv in
  (fst result = 1 <-> malformed argv) /\
  (existsb is_usage (snd result) = true <-> malformed argv) /\
  (~ malformed argv -> fst result = 0) /\
  (~ malformed argv -> env_succeeds env ->
   hcount is_connect (snd result) = atoi (arg argv 1) /\
   hcount is_disconnect (snd result) = atoi (arg argv 1) /\
   hcount is_sendframe (snd result)
   = atoi (arg argv 1) * atoi (arg argv 2)).
Proof.
  intros result. unfold result. clear result.
  destruct (main_status RR_DEFAULTPORT RR_DEFAULTSSLPORT env argv)
    as [Hbad Hgood].
  assert (Hdec : malformed argv \/ ~ malformed argv).
  { rewrite <- usage_error_iff. destruct (usage_error argv);
      [left; reflexivity|right; discriminate]. }
  split; [|split; [|split]].
  - destruct Hdec as [H|H].
    + rewrite (Hbad H). simpl. tauto.
    + destruct (Hgood H) as [H0 _]. rewrite H0.
      split; [discriminate|contradiction].
  - destruct Hdec as [H|H].
    + rewrite (Hbad H). simpl. tauto.
    + destruct (Hgood H) as [_ H0]. rewrite H0.
      split; [discriminate|contradiction].
  - intros H. apply (Hgood H).
  - intros H Henv.
    destruct (parse_args RR_DEFAULTPORT RR_DEFAULTSSLPORT argv)
      as [o|] eqn:Hparse.
    + destruct (parse_args_some _ _ _ _ Hparse) as (Hi & Hf & _).
      assert (Hpos : 1 <= atoi (arg argv 1) /\ 1 <= atoi (arg argv 2)).
      { unfold malformed in H. lia. }
      rewrite <- Hi, <- Hf.
      apply (main_run_succeeds _ _ env argv o Hparse Henv); lia.
    + exfalso. apply H.
      apply (parse_args_none_iff RR_DEFAULTPORT RR_DEFAULTSSLPORT).
      exact Hparse.
Qed.

Lemma env_all_ok_succeeds : env_succeeds env_all_ok.
Proof. split; try reflexivity; simpl; discriminate. Qed.

Lemma main_usage_witness :
  fst (main 4242 4243 env_all_ok ["rrdisplayserverut"; "3"; "2"]%string)
  = 0 /\
  hcount is_connect
    (snd (main 4242 4243 env_all_ok ["rrdisplayserverut"; "3"; "2"]%string))
  = 3 /\
  hcount is_disconnect
    (snd (main 4242 4243 env_all_ok ["rrdisplayserverut"; "3"; "2"]%string))
  = 3 /\
  hcount is_sendframe
    (snd (main 4242 4243 env_all_ok ["rrdisplayserverut"; "3"; "2"]%string))
  = 6.
Proof.
  assert (Hwf : ~ malformed ["rrdisplayserverut"; "3"; "2"]%string).
  { unfold malformed. vm_compute. intros [H|[H|H]]; discriminate. }
  destruct (main_usage 4242 4243 env_all_ok
              ["rrdisplayserverut"; "3"; "2"]%string) as (_ & _ & H0 & Hrun).
  split; [exact (H0 Hwf)|].
  exact (Hrun Hwf env_all_ok_succeeds).
Defined.

(* ================================================================= *)
(** ** Sequences of disable and enable calls *)

Lemma to_long_add_l (a b : Z) : to_long (to_long a + b) = to_long (a + b).
Proof.
  unfold to_long.
  replace ((a + 2 ^ 63) mod 2 ^ 64 - 2 ^ 63 + b + 2 ^ 63)
    with ((a + 2 ^ 63) mod 2 ^ 64 + b) by lia.
  rewrite Zplus_mod_idemp_l.
  replace (a + 2 ^ 63 + b) with (a + b + 2 ^ 63) by lia. reflexivity.
Qed.

Lemma ncalls_app (f : toggle -> bool) (l1 l2 : list toggle) :
  ncalls f (l1 ++ l2) = ncalls f l1 + ncalls f l2.
Proof. unfold ncalls. rewrite filter_app, length_app. lia. Qed.

Lemma toggles_snoc (calls : list toggle) (c : toggle) (t : ThreadLocals) :
  toggles (calls ++ [c]) t = apply_toggle (toggles calls t) c.
Proof. unfold toggles. rewrite fold_left_app. reflexivity. Qed.

Lemma toggles_depth (calls : list toggle) (t : ThreadLocals) :
  in_long (FakerLevel t) ->
  FakerLevel (toggles calls t)
  = to_long (FakerLevel t + ncalls is_disable calls
             - ncalls is_enable calls).
Proof.
  intros Hd. induction calls as [|c calls IH] using rev_ind.
  - unfold ncalls. cbn [filter List.length Z.of_nat toggles fold_left].
    replace (FakerLevel t + 0 - 0) with (FakerLevel t) by lia.
    symmetry. apply to_long_id, Hd.
  - rewrite toggles_snoc, !ncalls_app.
    destruct c; simpl; unfold getFakerLevel; rewrite IH;
      [rewrite to_long_add_l|
       replace (to_long (FakerLevel t + ncalls is_disable calls
                         - ncalls is_enable calls) - 1)
         with (to_long (FakerLevel t + ncalls is_disable calls
                        - ncalls is_enable calls) + -1) by lia;
       rewrite to_long_add_l];
      f_equal; unfold ncalls; simpl; lia.
Qed.

(** X1.  After any sequence of disable and enable calls of one thread the
    depth is the initial depth, plus the number of disables, minus the
    number of enables (as a [long]); it is the initial depth again when
    the calls balance.  The exclude flag only tells whether the last
    call was a disable. *)
Theorem toggles_balance (calls : list toggle) (t : ThreadLocals) :
  in_long (FakerLevel t) ->
  (in_long (FakerLevel t + ncalls is_disable calls
            - ncalls is_enable calls) ->
   FakerLevel (toggles calls t)
   = FakerLevel t + ncalls is_disable calls - ncalls is_enable calls) /\
  (ncalls is_disable calls = ncalls is_enable calls ->
   FakerLevel (toggles calls t) = FakerLevel t) /\
  (forall c, ExcludeCurrent (toggles (calls ++ [c]) t) = is_disable c).
Proof.
  intros Hd. split; [|split].
  - intros Hr. rewrite (toggles_depth calls t Hd). apply to_long_id, Hr.
  - intros Hb. rewrite (toggles_depth calls t Hd), Hb.
    replace (FakerLevel t + ncalls is_enable calls
             - ncalls is_enable calls) with (FakerLevel t) by lia.
    apply to_long_id, Hd.
  - intros c. rewrite toggles_snoc. destruct c; reflexivity.
Qed.

Lemma toggles_balance_witness :
  FakerLevel (toggles [Disable; Disable; Enable] thread_defaults) = 1 /\
  ExcludeCurrent (toggles ([Disable; Disable] ++ [Enable]) thread_defaults)
  = false /\
  FakerLevel (toggles [Disable; Enable; Enable; Disable] thread_defaults)
  = 0.
Proof.
  assert (H : in_long (FakerLevel thread_defaults))
    by (unfold in_long, LONG_MIN, LONG_MAX; simpl; lia).
  split; [|split].
  - apply (toggles_balance [Disable; Disable; Enable] thread_defaults H).
    unfold in_long, LONG_MIN, LONG_MAX. vm_compute.
    split; discriminate.
  - apply (toggles_balance [Disable; Disable] thread_defaults H).
  - apply (toggles_balance [Disable; Enable; Enable; Disable]
             thread_defaults H).
    reflexivity.
Defined.

(** X2.  Disable and enable calls change nothing but the depth and the
    exclude flag: the trace level and the answers of the two autotest
    queries are the same after any sequence of them. *)
Theorem toggles_frame (calls : list toggle) (t : ThreadLocals)
    (dpy : pointer) (d right : Z) :
  TraceLevel (toggles calls t) = TraceLevel t /\
  _vgl_getAutotestColor (toggles calls t) dpy d right
  = _vgl_getAutotestColor t dpy d right /\
  _vgl_getAutotestFrame (toggles calls t) dpy d
  = _vgl_getAutotestFrame t dpy d.
Proof.
  assert (H : TraceLevel (toggles calls t) = TraceLevel t /\
              AutotestColor (toggles calls t) = AutotestColor t /\
              AutotestRColor (toggles calls t) = AutotestRColor t /\
              AutotestFrame (toggles calls t) = AutotestFrame t /\
              AutotestDisplay (toggles calls t) = AutotestDisplay t /\
              AutotestDrawable (toggles calls t) = AutotestDrawable t).
  { induction calls as [|c calls IH] using rev_ind.
    - repeat split.
    - rewrite toggles_snoc. destruct c; simpl; exact IH. }
  destruct H as (H1 & H2 & H3 & H4 & H5 & H6).
  unfold _vgl_getAutotestColor, _vgl_getAutotestFrame, getAutotestDisplay,
    getAutotestDrawable, getAutotestColor, getAutotestRColor,
    getAutotestFrame.
  rewrite H1, H2, H3, H4, H5, H6. repeat split.
Qed.

(* ================================================================= *)
(** ** Executions of the shutdown code *)

Lemma lock_depth_app (base d d' : nat) (l1 l2 : list event) :
  lock_depth base d l1 = Some d' ->
  lock_depth base d (l1 ++ l2) = lock_depth base d' l2.
Proof.
  revert d. induction l1 as [|e l1 IH]; intros d H.
  - simpl in H. inversion H. reflexivity.
  - destruct e; cbn [app lock_depth] in H |- *;
      try (destruct (Nat.ltb base d); [|discriminate]);
      try (destruct (Nat.eqb d base); [|discriminate]);
      apply IH, H.
Qed.

Lemma lock_depth_kills (base d : nat) (l : list registry) :
  (base < d)%nat -> lock_depth base d (map EvKill l) = Some d.
Proof.
  intros H. apply Nat.ltb_lt in H.
  induction l as [|r l IH]; cbn [map lock_depth]; [reflexivity|].
  rewrite H. exact IH.
Qed.

Lemma lock_depth_own (d : nat) : Nat.ltb d (Datatypes.S d) = true.
Proof. apply Nat.ltb_lt. lia. Qed.

(** The log of a [safeExit] that tears down, entered with [d] holds. *)
Lemma shutdown_log_depth (d : nat) (l : list registry) (p : pointer)
    (rc : Z) :
  lock_depth d d
    ([EvLock] ++ map EvKill l
     ++ [EvFree p; EvUnloadSymbols; EvDeleteConfig; EvUnlock; EvExit rc])
  = Some d.
Proof.
  cbn [app lock_depth].
  rewrite (lock_depth_app d (Datatypes.S d) (Datatypes.S d) _ _
             (lock_depth_kills d (Datatypes.S d) l ltac:(lia))).
  cbn [lock_depth]. rewrite !lock_depth_own. cbn [Nat.pred].
  rewrite Nat.eqb_refl. reflexivity.
Qed.

Lemma late_thread_depth (d : nat) : lock_depth d d late_thread = Some d.
Proof.
  unfold late_thread. cbn [lock_depth]. rewrite lock_depth_own.
  cbn [Nat.pred]. rewrite Nat.eqb_refl. reflexivity.
Qed.

Lemma destructor_log_depth (d : nat) (inst : bool) :
  lock_depth d d (if inst then [EvLock; EvDeleteConfig; EvUnlock]
                  else [EvDeleteConfig]) = Some d.
Proof.
  destruct inst; cbn [lock_depth]; [|reflexivity].
  rewrite lock_depth_own. reflexivity.
Qed.

Lemma count_kill_of_le (r : registry) (P : registry -> bool)
    (l : list registry) :
  NoDup l -> (count (is_kill_of r) (map EvKill (filter P l)) <= 1)%nat.
Proof.
  intros H. rewrite (count_kill_of r P l H).
  destruct (P r && existsb (registry_eqb r) l); lia.
Qed.

Lemma exec_events (EGLBACKEND : bool) (o : op) (s : Faker) :
  deadYet (state_of (exec EGLBACKEND o s)) = true /\
  exists l,
    events (state_of (exec EGLBACKEND o s)) = events s ++ l /\
    (forall d, lock_depth d d l = Some d) /\
    (forall r, (count (is_kill_of r) l <= 1)%nat) /\
    (count is_free l <= 1)%nat /\
    (count is_unload_symbols l <= 1)%nat /\
    (count is_exit l <= 1)%nat /\
    (deadYet s = true ->
     count is_kill l = 0%nat /\ count is_free l = 0%nat /\
     count is_unload_symbols l = 0%nat /\ count is_exit l = 0%nat).
Proof.
  split; [apply exec_sets_deadYet|].
  destruct o as [rc|].
  - assert (Hs : state_of (exec EGLBACKEND (SafeExit rc) s)
                 = state_of (safeExit EGLBACKEND rc s)).
    { cbn [exec]. rewrite bind_run. reflexivity. }
    rewrite Hs. destruct (deadYet s) eqn:Hdead.
    + destruct (safeExit_dead EGLBACKEND rc s Hdead)
        as (_ & _ & _ & _ & _ & _ & E).
      eexists. split; [exact E|].
      split; [intros d; apply late_thread_depth|].
      split; [intros r; unfold count; simpl; lia|].
      repeat split; unfold count; simpl; lia.
    + destruct (safeExit_alive EGLBACKEND rc s Hdead)
        as (_ & _ & _ & _ & E).
      eexists. split; [exact E|].
      split; [intros d; apply shutdown_log_depth|].
      split; [|split; [|split; [|split]]].
      * intros r. rewrite !count_app.
        pose proof (count_kill_of_le r (allocated s)
                      (registries EGLBACKEND)
                      (registries_NoDup EGLBACKEND)).
        change (count (is_kill_of r) [EvLock]) with 0%nat.
        change (count (is_kill_of r)
                  [EvFree (glExtensions s); EvUnloadSymbols;
                   EvDeleteConfig; EvUnlock; EvExit rc]) with 0%nat.
        lia.
      * rewrite !count_app, count_kills_none by reflexivity. unfold count; simpl; lia.
      * rewrite !count_app, count_kills_none by reflexivity. unfold count; simpl; lia.
      * rewrite !count_app, count_kills_none by reflexivity. unfold count; simpl; lia.
      * discriminate.
  - cbn [exec]. destruct (destructor_effect s) as (_ & _ & E).
    eexists. split; [exact E|].
    split; [intros d; apply destructor_log_depth|].
    destruct (globalMutex_instance s);
      (split; [intros r; unfold count; simpl; lia|]);
      repeat split; unfold count; simpl; lia.
Qed.

Lemma run_events (EGLBACKEND : bool) (ops : list op) (s : Faker) :
  exists l,
    events (state_of (run EGLBACKEND ops s)) = events s ++ l /\
    (forall d, lock_depth d d l = Some d) /\
    (forall r, (count (is_kill_of r) l <= 1)%nat) /\
    (count is_free l <= 1)%nat /\
    (count is_unload_symbols l <= 1)%nat /\
    (count is_exit l <= 1)%nat /\
    (deadYet s = true ->
     count is_kill l = 0%nat /\ count is_free l = 0%nat /\
     count is_unload_symbols l = 0%nat /\ count is_exit l = 0%nat).
Proof.
  revert s. induction ops as [|o ops IH]; intros s.
  - exists []. cbn [run]. unfold ret, state_of. simpl.
    rewrite app_nil_r. repeat split; unfold count; simpl; lia.
  - cbn [run]. rewrite bind_run.
    destruct (exec_events EGLBACKEND o s)
      as (Hdead & l1 & E1 & M1 & K1 & F1 & U1 & X1 & Z1).
    destruct (IH (state_of (exec EGLBACKEND o s)))
      as (l2 & E2 & M2 & _ & _ & _ & _ & Z2).
    destruct (Z2 Hdead) as (K2 & F2 & U2 & X2).
    exists (l1 ++ l2). split; [rewrite E2, E1, app_assoc; reflexivity|].
    split; [intros d; rewrite (lock_depth_app _ _ _ _ _ (M1 d));
            apply M2|].
    assert (Hk2 : forall r, count (is_kill_of r) l2 = 0%nat).
    { intros r. unfold count in *.
      apply List.length_zero_iff_nil in K2.
      apply List.length_zero_iff_nil. apply filter_none.
      intros e He. destruct e; try reflexivity.
      assert (Hin : In (EvKill r0) (filter is_kill l2))
        by (apply filter_In; split; [exact He|reflexivity]).
      rewrite K2 in Hin. contradiction. }
    split; [intros r; rewrite count_app, Hk2; specialize (K1 r); lia|].
    rewrite !count_app, K2, F2, U2, X2.
    split; [lia|]. split; [lia|]. split; [lia|].
    intros Hd. destruct (Z1 Hd) as (K & F & U & X).
    rewrite K, F, U, X. repeat split.
Qed.

(** X3.  Whatever calls of [safeExit] and runs of the static destructor
    an execution consists of, in whatever order and from whatever state:
    every registry is killed at most once, the extension string is freed
    at most once, the symbols are unloaded at most once and [exit] is
    called at most once; if [deadYet] was set at the start, none of these
    happens at all. *)
Theorem execution_teardown_once (EGLBACKEND : bool) (ops : list op)
    (s : Faker) :
  (forall r, (count (is_kill_of r) (emitted (run EGLBACKEND ops) s)
              <= 1)%nat) /\
  (count is_free (emitted (run EGLBACKEND ops) s) <= 1)%nat /\
  (count is_unload_symbols (emitted (run EGLBACKEND ops) s) <= 1)%nat /\
  (count is_exit (emitted (run EGLBACKEND ops) s) <= 1)%nat /\
  (deadYet s = true ->
   count is_kill (emitted (run EGLBACKEND ops) s) = 0%nat /\
   count is_free (emitted (run EGLBACKEND ops) s) = 0%nat /\
   count is_unload_symbols (emitted (run EGLBACKEND ops) s) = 0%nat /\
   count is_exit (emitted (run EGLBACKEND ops) s) = 0%nat).
Proof.
  destruct (run_events EGLBACKEND ops s) as (l & E & _ & H).
  rewrite (emitted_app _ _ _ E). exact H.
Qed.

Lemma execution_teardown_once_witness :
  count is_kill
    (emitted (run false [SafeExit 1; StaticDestructors])
       (state_of (GlobalCleanup_destructor two_registries))) = 0%nat /\
  allocated
    (state_of (run false [SafeExit 1; StaticDestructors]
                 (state_of (GlobalCleanup_destructor two_registries))))
    PixmapHash = true.
Proof.
  split; [|reflexivity].
  apply (execution_teardown_once false [SafeExit 1; StaticDestructors]
           (state_of (GlobalCleanup_destructor two_registries))).
  reflexivity.
Defined.




(* ================================================================= *)
(** ** One-time initialisation *)

Lemma move_same (t : nat) (pc : init_pc) (f : nat -> init_pc) :
  move t pc f t = pc.
Proof. unfold move. rewrite Nat.eqb_refl. reflexivity. Qed.

Lemma move_other (t u : nat) (pc : init_pc) (f : nat -> init_pc) :
  u <> t -> move t pc f u = f u.
Proof.
  intros H. unfold move. destruct (Nat.eqb_spec u t); [contradiction|].
  reflexivity.
Qed.

Lemma init_start_inv (cfg : fakerconfig) (debug : bool) :
  init_inv cfg debug init_start.
Proof.
  split; simpl; try discriminate; auto.
Qed.

(** Two calls that both hold the mutex are the same call. *)
Lemma holder_unique (cfg : fakerconfig) (debug : bool) (sys : InitSys)
    (t u : nat) :
  init_inv cfg debug sys ->
  holds_mutex (pcs sys t) = true -> holds_mutex (pcs sys u) = true ->
  t = u.
Proof.
  intros I Ht Hu.
  pose proof (inv_owner _ _ _ I t Ht) as E1.
  pose proof (inv_owner _ _ _ I u Hu) as E2.
  congruence.
Qed.

Ltac other_call I t u :=
  let E := fresh "E" in
  destruct (Nat.eq_dec u t) as [E|E];
  [subst u; rewrite ?move_same in *
  |rewrite ?(move_other t u) in * by exact E].

Lemma init_step_inv (cfg : fakerconfig) (debug : bool) (sys : InitSys)
    (t : nat) :
  init_inv cfg debug sys -> init_inv cfg debug (init_step cfg debug sys t).
Proof.
  intros I. unfold init_step.
  destruct (pcs sys t) eqn:Hpc.
  - (* AtEntry *)
    split; cbn [init_flag mutex_owner init_effects pcs];
      try apply I.
    + intros u Hu. other_call I t u.
      * destruct (init_flag sys); discriminate.
      * apply I, Hu.
    + intros u Hu. other_call I t u.
      * destruct (init_flag sys); discriminate.
      * apply (inv_set _ _ _ I u Hu).
    + intros u Hu. other_call I t u.
      * destruct (init_flag sys); discriminate.
      * apply (inv_body _ _ _ I u Hu).
    + intros u Hu. other_call I t u.
      * destruct (init_flag sys); discriminate.
      * apply (inv_unlock _ _ _ I u Hu).
    + intros u Hu. other_call I t u.
      * destruct (init_flag sys); [reflexivity|discriminate].
      * apply (inv_returned _ _ _ I u Hu).
  - (* AtLock *)
    destruct (mutex_owner sys) as [o|] eqn:Ho; [exact I|].
    assert (Hnone : forall u, holds_mutex (pcs sys u) = true -> False).
    { intros u Hu. pose proof (inv_owner _ _ _ I u Hu). congruence. }
    split; cbn [init_flag mutex_owner init_effects pcs];
      try apply I.
    + intros u Hu. other_call I t u; [reflexivity|].
      exfalso. apply (Hnone u Hu).
    + intros u Hu. other_call I t u; [discriminate|].
      apply (inv_set _ _ _ I u Hu).
    + intros u Hu. other_call I t u; [discriminate|].
      apply (inv_body _ _ _ I u Hu).
    + intros u Hu. other_call I t u; [discriminate|].
      apply (inv_unlock _ _ _ I u Hu).
    + intros u Hu. other_call I t u; [discriminate|].
      apply (inv_returned _ _ _ I u Hu).
  - (* AtRecheck *)
    assert (Ht : holds_mutex (pcs sys t) = true) by (rewrite Hpc; reflexivity).
    split; cbn [init_flag mutex_owner init_effects pcs];
      try apply I.
    + intros u Hu. other_call I t u.
      * apply (inv_owner _ _ _ I t Ht).
      * apply I, Hu.
    + intros u Hu. other_call I t u.
      * destruct (init_flag sys) eqn:Hf; [discriminate|].
        split; [reflexivity|apply (inv_unset _ _ _ I Hf)].
      * apply (inv_set _ _ _ I u Hu).
    + intros u Hu. other_call I t u.
      * destruct (init_flag sys); discriminate.
      * apply (inv_body _ _ _ I u Hu).
    + intros u Hu. other_call I t u.
      * destruct (init_flag sys); [reflexivity|discriminate].
      * apply (inv_unlock _ _ _ I u Hu).
    + intros u Hu. other_call I t u.
      * destruct (init_flag sys); discriminate.
      * apply (inv_returned _ _ _ I u Hu).
  - (* AtSet *)
    assert (Ht : holds_mutex (pcs sys t) = true) by (rewrite Hpc; reflexivity).
    destruct (inv_set _ _ _ I t Hpc) as [Hf He].
    assert (Hothers : forall u, u <> t ->
                        holds_mutex (pcs sys u) = true -> False).
    { intros u Hne Hu. apply Hne.
      apply (holder_unique cfg debug sys u t I Hu Ht). }
    split; cbn [init_flag mutex_owner init_effects pcs].
    + intros u Hu. other_call I t u.
      * apply (inv_owner _ _ _ I t Ht).
      * apply I, Hu.
    + intros u Hu. other_call I t u; [discriminate|].
      exfalso. apply (Hothers u E). rewrite Hu. reflexivity.
    + intros u Hu. other_call I t u.
      * split; [reflexivity|exact He].
      * exfalso. apply (Hothers u E). rewrite Hu. reflexivity.
    + left. exact He.
    + discriminate.
    + intros u Hu. reflexivity.
    + intros u Hu. reflexivity.
  - (* AtBody *)
    assert (Ht : holds_mutex (pcs sys t) = true) by (rewrite Hpc; reflexivity).
    destruct (inv_body _ _ _ I t Hpc) as [Hf He].
    assert (Hothers : forall u, u <> t ->
                        holds_mutex (pcs sys u) = true -> False).
    { intros u Hne Hu. apply Hne.
      apply (holder_unique cfg debug sys u t I Hu Ht). }
    split; cbn [init_flag mutex_owner init_effects pcs].
    + intros u Hu. other_call I t u.
      * apply (inv_owner _ _ _ I t Ht).
      * apply I, Hu.
    + intros u Hu. other_call I t u; [discriminate|].
      exfalso. apply (Hothers u E). rewrite Hu. reflexivity.
    + intros u Hu. other_call I t u; [discriminate|].
      exfalso. apply (Hothers u E). rewrite Hu. reflexivity.
    + right. rewrite He. reflexivity.
    + intros Hf'. congruence.
    + intros u Hu. exact Hf.
    + intros u Hu. exact Hf.
  - (* AtUnlock *)
    assert (Ht : holds_mutex (pcs sys t) = true) by (rewrite Hpc; reflexivity).
    assert (Hothers : forall u, u <> t ->
                        holds_mutex (pcs sys u) = true -> False).
    { intros u Hne Hu. apply Hne.
      apply (holder_unique cfg debug sys u t I Hu Ht). }
    pose proof (inv_unlock _ _ _ I t Hpc) as Hf.
    split; cbn [init_flag mutex_owner init_effects pcs];
      try apply I.
    + intros u Hu. other_call I t u; [discriminate|].
      exfalso. apply (Hothers u E Hu).
    + intros u Hu. other_call I t u; [discriminate|].
      apply (inv_set _ _ _ I u Hu).
    + intros u Hu. other_call I t u; [discriminate|].
      apply (inv_body _ _ _ I u Hu).
    + intros u Hu. exact Hf.
    + intros u Hu. exact Hf.
  - exact I.
Qed.

Lemma init_run_inv (cfg : fakerconfig) (debug : bool)
    (schedule : list nat) (sys : InitSys) :
  init_inv cfg debug sys ->
  init_inv cfg debug (init_run cfg debug schedule sys).
Proof.
  revert sys. induction schedule as [|t schedule IH]; intros sys I.
  - exact I.
  - apply IH, init_step_inv, I.
Qed.

(** X6.  However calls of [init] are interleaved, the body of [init]
    (lines 154-166) runs at most once, at most one call holds the global
    mutex, and a call returns only once the flag is set. *)
Theorem init_at_most_once (cfg : fakerconfig) (debug : bool)
    (schedule : list nat) :
  let sys := init_run cfg debug schedule init_start in
  (init_effects sys = [] \/ init_effects sys = init_body cfg debug) /\
  (forall t u, holds_mutex (pcs sys t) = true ->
               holds_mutex (pcs sys u) = true -> t = u) /\
  (forall t, pcs sys t = InitReturned -> init_flag sys = true).
Proof.
  intros sys.
  assert (I : init_inv cfg debug sys)
    by apply init_run_inv, init_start_inv.
  split; [apply I|]. split.
  - intros t u. apply (holder_unique cfg debug sys t u I).
  - apply I.
Qed.

Lemma init_at_most_once_witness :
  init_flag (init_run (mkFakerconfig false ":0" true "" true) false
               [0; 1; 0; 1; 0; 0; 0; 1; 0; 1; 1]%nat init_start) = true /\
  init_effects (init_run (mkFakerconfig false ":0" true "" true) false
                  [0; 1; 0; 1; 0; 0; 0; 1; 0; 1; 1]%nat init_start)
  = [XReloadEnv; XBanner; XSetErrorHandler].
Proof.
  split; [|reflexivity].
  apply (init_at_most_once (mkFakerconfig false ":0" true "" true) false
           [0; 1; 0; 1; 0; 0; 0; 1; 0; 1; 1]%nat) with (t := 0%nat).
  reflexivity.
Defined.

Ltac solo_step H :=
  let Hf := fresh "Hf" in let Ho := fresh "Ho" in
  let He := fresh "He" in let Hp := fresh "Hp" in
  let Hfr := fresh "Hfr" in
  destruct H as (Hf & Ho & He & Hp & Hfr);
  unfold solo, init_step; rewrite Hp; rewrite ?Hf, ?Ho;
  cbn [init_flag mutex_owner init_effects pcs];
  rewrite ?move_same, ?He;
  repeat split; try assumption;
  try (intros v Hv; rewrite move_other by exact Hv; apply Hfr, Hv).

(** A call of [init] that runs alone from the start. *)
Lemma init_alone (cfg : fakerconfig) (debug : bool) (t : nat) :
  solo (init_run cfg debug (repeat t 4) init_start) t
    true (Some t) [] AtBody /\
  solo (init_run cfg debug (repeat t 6) init_start) t
    true None (init_body cfg debug) InitReturned.
Proof.
  unfold init_run. cbn [repeat fold_left].
  assert (H0 : solo init_start t false None [] AtEntry)
    by (repeat split).
  assert (H1 : solo (init_step cfg debug init_start t) t
                 false None [] AtLock) by solo_step H0.
  set (s1 := init_step cfg debug init_start t) in *.
  assert (H2 : solo (init_step cfg debug s1 t) t
                 false (Some t) [] AtRecheck) by solo_step H1.
  set (s2 := init_step cfg debug s1 t) in *.
  assert (H3 : solo (init_step cfg debug s2 t) t
                 false (Some t) [] AtSet) by solo_step H2.
  set (s3 := init_step cfg debug s2 t) in *.
  assert (H4 : solo (init_step cfg debug s3 t) t
                 true (Some t) [] AtBody) by solo_step H3.
  split; [exact H4|].
  set (s4 := init_step cfg debug s3 t) in *.
  assert (H5 : solo (init_step cfg debug s4 t) t
                 true (Some t) (init_body cfg debug) AtUnlock)
    by solo_step H4.
  set (s5 := init_step cfg debug s4 t) in *.
  solo_step H5.
Qed.

(** X7.  One call of [init], run alone to its end, runs the body once and
    frees the mutex; every call that starts after that returns at its
    first step and does nothing. *)
Theorem init_then_noop (cfg : fakerconfig) (debug : bool) (t u : nat) :
  t <> u ->
  let done := init_run cfg debug (repeat t 6) init_start in
  let again := init_run cfg debug [u] done in
  pcs done t = InitReturned /\
  init_effects done = init_body cfg debug /\
  mutex_owner done = None /\
  pcs again u = InitReturned /\
  init_effects again = init_body cfg debug /\
  mutex_owner again = None.
Proof.
  intros Hne done again.
  destruct (init_alone cfg debug t) as [_ (Hf & Ho & He & Hp & Hfr)].
  fold done in Hf, Ho, He, Hp, Hfr.
  assert (Hu : pcs done u = AtEntry) by (apply Hfr; congruence).
  split; [exact Hp|]. split; [exact He|]. split; [exact Ho|].
  unfold again, init_run. cbn [fold_left]. unfold init_step.
  rewrite Hu, Hf. cbn [init_flag mutex_owner init_effects pcs].
  rewrite move_same. repeat split; assumption.
Qed.

Lemma init_then_noop_witness :
  pcs (init_run (mkFakerconfig false ":0" true "" true) false
         (repeat 0%nat 6 ++ [1%nat]) init_start) 1%nat = InitReturned /\
  init_effects (init_run (mkFakerconfig false ":0" true "" true) false
                  (repeat 0%nat 6 ++ [1%nat]) init_start)
  = [XReloadEnv; XBanner; XSetErrorHandler].
Proof.
  destruct (init_then_noop (mkFakerconfig false ":0" true "" true) false
              0%nat 1%nat ltac:(discriminate))
    as (_ & _ & _ & H1 & H2 & _).
  split; [exact H1|exact H2].
Defined.

(** X8.  The flag is set before the body runs, so a call of [init] can
    return while the call that initialises has not yet done anything:
    after four steps of one call and one step of another, the second has
    returned and no part of the body has run. *)
Theorem init_returns_early (cfg : fakerconfig) (debug : bool) (t u : nat) :
  t <> u ->
  let sys := init_run cfg debug (repeat t 4 ++ [u]) init_start in
  pcs sys u = InitReturned /\
  pcs sys t = AtBody /\
  init_effects sys = [].
Proof.
  intros Hne sys.
  destruct (init_alone cfg debug t) as [(Hf & Ho & He & Hp & Hfr) _].
  assert (Hu : pcs (init_run cfg debug (repeat t 4) init_start) u
               = AtEntry) by (apply Hfr; congruence).
  unfold sys, init_run. rewrite fold_left_app.
  fold (init_run cfg debug (repeat t 4) init_start).
  set (mid := init_run cfg debug (repeat t 4) init_start) in *.
  cbn [fold_left]. unfold init_step.
  rewrite Hu, Hf. cbn [init_flag mutex_owner init_effects pcs].
  rewrite move_same, move_other by exact Hne.
  repeat split; assumption.
Qed.

Lemma init_returns_early_witness :
  pcs (init_run (mkFakerconfig false ":0" true "" true) false
         (repeat 0%nat 4 ++ [1%nat]) init_start) 1%nat = InitReturned /\
  init_effects (init_run (mkFakerconfig false ":0" true "" true) false
                  (repeat 0%nat 4 ++ [1%nat]) init_start) = [].
Proof.
  destruct (init_returns_early (mkFakerconfig false ":0" true "" true)
              false 0%nat 1%nat ltac:(discriminate)) as (H1 & _ & H2).
  split; [exact H1|exact H2].
Defined.

(* ================================================================= *)
(** ** Opening the 3D display *)

Lemma xemitted_app (w w' : World) (l : list xevent) :
  wlog w' = wlog w ++ l -> xemitted w w' = l.
Proof.
  intros H. unfold xemitted. rewrite H.
  rewrite skipn_app, skipn_all, Nat.sub_diag. reflexivity.
Qed.

Lemma xcount_app (f : xevent -> bool) (l1 l2 : list xevent) :
  xcount f (l1 ++ l2) = (xcount f l1 + xcount f l2)%nat.
Proof. unfold xcount. rewrite filter_app, length_app. reflexivity. Qed.

Lemma init_body_opens_nothing (cfg : fakerconfig) (debug : bool) :
  xcount is_open_display (init_body cfg debug) = 0%nat.
Proof.
  unfold init_body.
  destruct (0 <? Z.of_nat (String.length (fc_log cfg))),
    (fc_verbose cfg), debug, (fc_trapx11 cfg); reflexivity.
Qed.

Lemma init_effect (cfg : fakerconfig) (debug : bool) (w : World) :
  winit (init cfg debug w) = true /\
  wlog (init cfg debug w)
  = wlog w ++ (if winit w then [] else init_body cfg debug) /\
  dpy3D (wfaker (init cfg debug w)) = dpy3D (wfaker w) /\
  deadYet (wfaker (init cfg debug w)) = deadYet (wfaker w) /\
  hashes (wfaker (init cfg debug w)) = hashes (wfaker w) /\
  (winit w = true -> init cfg debug w = w).
Proof.
  unfold init.
  change (winit (SafeLock_enter w)) with (winit w).
  destruct (winit w) eqn:Hi.
  - rewrite app_nil_r. repeat split. exact Hi.
  - repeat split. discriminate.
Qed.

Lemma init3D_when_set (EGLBACKEND : bool) (cfg : fakerconfig)
    (debug : bool) (env : DisplayEnv) (w : World) :
  dpy3D (wfaker w) <> NULL ->
  fst (init3D EGLBACKEND cfg debug env w) = Returns (dpy3D (wfaker w)) /\
  dpy3D (wfaker (snd (init3D EGLBACKEND cfg debug env w)))
  = dpy3D (wfaker w) /\
  xcount is_open_display
    (xemitted w (snd (init3D EGLBACKEND cfg debug env w))) = 0%nat /\
  (winit w = true -> snd (init3D EGLBACKEND cfg debug env w) = w).
Proof.
  intros Hset. unfold init3D.
  destruct (init_effect cfg debug w) as (_ & Hlog & Hdpy & _ & _ & Hid).
  rewrite Hdpy.
  destruct (Z.eqb_spec (dpy3D (wfaker w)) NULL) as [E|_];
    [contradiction|].
  cbn [negb fst snd]. rewrite Hdpy.
  split; [reflexivity|]. split; [reflexivity|]. split; [|exact Hid].
  rewrite (xemitted_app _ _ _ Hlog).
  destruct (winit w); [reflexivity|apply init_body_opens_nothing].
Qed.

(** X9.  Once [dpy3D] is set, [init3D] returns it and opens nothing,
    whatever the configuration and whatever Xlib and EGL would answer;
    when [init] has run before, the call changes nothing at all. *)
Theorem init3D_cached (EGLBACKEND : bool) (cfg : fakerconfig)
    (debug : bool) (env : DisplayEnv) (w : World) :
  dpy3D (wfaker w) <> NULL ->
  fst (init3D EGLBACKEND cfg debug env w) = Returns (dpy3D (wfaker w)) /\
  dpy3D (wfaker (snd (init3D EGLBACKEND cfg debug env w)))
  = dpy3D (wfaker w) /\
  xcount is_open_display
    (xemitted w (snd (init3D EGLBACKEND cfg debug env w))) = 0%nat /\
  (winit w = true -> snd (init3D EGLBACKEND cfg debug env w) = w).
Proof. apply init3D_when_set. Qed.

Lemma init3D_cached_witness :
  fst (init3D true (mkFakerconfig true "egl" false "" false) false
         (mkDisplayEnv NULL None None false None)
         (mkWorld (set_dpy3D 4096 Faker_init) true []))
  = Returns 4096.
Proof.
  apply (init3D_cached true (mkFakerconfig true "egl" false "" false) false
           (mkDisplayEnv NULL None None false None)
           (mkWorld (set_dpy3D 4096 Faker_init) true [])).
  discriminate.
Defined.

Lemma safeExit_keeps_dpy3D (EGLBACKEND : bool) (retcode : Z) (s : Faker) :
  dpy3D (state_of (safeExit EGLBACKEND retcode s)) = dpy3D s.
Proof.
  destruct (deadYet s) eqn:Hdead.
  - apply (safeExit_dead EGLBACKEND retcode s Hdead).
  - pose (s1 := state_of (globalMutex_lock s)).
    pose (s2 := state_of (set_deadYet true s1)).
    pose (s3 := release_globals (kill_all (registries EGLBACKEND) s2)).
    pose (s4 := state_of (fconfig_deleteinstance s3)).
    pose (s5 := state_of (globalMutex_unlock s4)).
    assert (Heq : safeExit EGLBACKEND retcode s = exit retcode s5).
    { unfold safeExit. unfold bind at 1.
      change (globalMutex_lock s) with (tt, s1).
      assert (Hd1 : deadYet s1 = false) by exact Hdead.
      unfold bind at 1. unfold get_deadYet at 1.
      unfold bind at 1. unfold get_deadYet at 1.
      rewrite Hd1. cbn [negb when].
      unfold bind at 1. unfold bind at 1.
      change (set_deadYet true s1) with (tt, s2).
      unfold bind at 1. rewrite cleanup_state. fold s3.
      change (fconfig_deleteinstance s3) with (tt, s4).
      unfold bind at 1.
      change (globalMutex_unlock s4) with (tt, s5).
      reflexivity. }
    rewrite Heq.
    change (dpy3D (kill_all (registries EGLBACKEND) s2) = dpy3D s2).
    apply kill_all_frame.
Qed.

Lemma safelock_enter_effect (w : World) :
  winit (SafeLock_enter w) = winit w /\
  wlog (SafeLock_enter w) = wlog w /\
  dpy3D (wfaker (SafeLock_enter w)) = dpy3D (wfaker w) /\
  deadYet (wfaker (SafeLock_enter w)) = deadYet (wfaker w) /\
  hashes (wfaker (SafeLock_enter w)) = hashes (wfaker w).
Proof. repeat split. Qed.

(** X10.  Without the EGL back end, a call of [init3D] that finds
    [dpy3D] unset and whose [_XOpenDisplay] succeeds returns the new
    display, stores it and has opened one display; every later call,
    whatever its configuration and whatever Xlib would then answer,
    returns the same display and opens nothing. *)
Theorem init3D_opens_once (EGLBACKEND : bool) (cfg : fakerconfig)
    (debug : bool) (env : DisplayEnv) (w : World) :
  EGLBACKEND && fc_egl cfg = false ->
  dpy3D (wfaker w) = NULL ->
  XOpenDisplay_3D env <> NULL ->
  let w' := snd (init3D EGLBACKEND cfg debug env w) in
  fst (init3D EGLBACKEND cfg debug env w) = Returns (XOpenDisplay_3D env) /\
  dpy3D (wfaker w') = XOpenDisplay_3D env /\
  xcount is_open_display (xemitted w w') = 1%nat /\
  (forall cfg' debug' env',
     fst (init3D EGLBACKEND cfg' debug' env' w')
     = Returns (XOpenDisplay_3D env) /\
     xcount is_open_display
       (xemitted w' (snd (init3D EGLBACKEND cfg' debug' env' w')))
     = 0%nat).
Proof.
  intros Hegl Hnull Hopen w'.
  assert (Hrun : init3D EGLBACKEND cfg debug env w
    = (Returns (XOpenDisplay_3D env),
       SafeLock_leave
         (on_faker (set_dpy3D (XOpenDisplay_3D env))
            (xlog [XOpenDisplay (fc_localdpystring cfg)]
               (if fc_verbose cfg
                then xlog [XPrintOpening (opening_name cfg)]
                       (SafeLock_enter (init cfg debug w))
                else SafeLock_enter (init cfg debug w)))))).
  { unfold init3D.
    destruct (init_effect cfg debug w) as (_ & _ & Hdpy & _).
    rewrite Hdpy, Hnull. cbn [Z.eqb NULL negb].
    change (dpy3D (wfaker (SafeLock_enter (init cfg debug w))))
      with (dpy3D (wfaker (init cfg debug w))).
    rewrite Hdpy, Hnull. cbn [Z.eqb NULL negb]. rewrite Hegl.
    change (dpy3D (wfaker (on_faker (set_dpy3D (XOpenDisplay_3D env)) ?x)))
      with (XOpenDisplay_3D env).
    destruct (Z.eqb_spec (XOpenDisplay_3D env) NULL) as [E|_];
      [contradiction|reflexivity]. }
  assert (Hd : dpy3D (wfaker w') = XOpenDisplay_3D env).
  { unfold w'. rewrite Hrun. reflexivity. }
  assert (Hlog : wlog w'
    = wlog w
      ++ ((if winit w then [] else init_body cfg debug)
          ++ (if fc_verbose cfg then [XPrintOpening (opening_name cfg)]
              else [])
          ++ [XOpenDisplay (fc_localdpystring cfg)])).
  { unfold w'. rewrite Hrun.
    destruct (init_effect cfg debug w) as (_ & Hl & _).
    cbn [snd]. destruct (fc_verbose cfg);
      cbn [SafeLock_leave SafeLock_enter on_faker xlog wlog];
      rewrite Hl, <- !app_assoc; reflexivity. }
  split; [rewrite Hrun; reflexivity|]. split; [exact Hd|]. split.
  - rewrite (xemitted_app _ _ _ Hlog), !xcount_app.
    assert (Hi : xcount is_open_display
                   (if winit w then [] else init_body cfg debug) = 0%nat).
    { destruct (winit w); [reflexivity|apply init_body_opens_nothing]. }
    rewrite Hi. destruct (fc_verbose cfg); reflexivity.
  - intros cfg' debug' env'.
    assert (Hset : dpy3D (wfaker w') <> NULL) by (rewrite Hd; exact Hopen).
    destruct (init3D_when_set EGLBACKEND cfg' debug' env' w' Hset)
      as (H1 & _ & H3 & _).
    rewrite H1, Hd. split; [reflexivity|exact H3].
Qed.

Lemma init3D_opens_once_witness :
  fst (init3D true (mkFakerconfig false ":1" true "" false) false
         (mkDisplayEnv 4096 None None false None)
         (mkWorld Faker_init false []))
  = Returns 4096 /\
  fst (init3D true (mkFakerconfig false ":2" true "" false) false
         (mkDisplayEnv NULL None None false None)
         (snd (init3D true (mkFakerconfig false ":1" true "" false) false
                 (mkDisplayEnv 4096 None None false None)
                 (mkWorld Faker_init false []))))
  = Returns 4096.
Proof.
  destruct (init3D_opens_once true
              (mkFakerconfig false ":1" true "" false) false
              (mkDisplayEnv 4096 None None false None)
              (mkWorld Faker_init false [])
              eq_refl eq_refl ltac:(discriminate)) as (H1 & _ & _ & H4).
  split; [exact H1|].
  apply (H4 (mkFakerconfig false ":2" true "" false) false
            (mkDisplayEnv NULL None None false None)).
Defined.

(** X11.  Without the EGL back end, a call of [init3D] that finds
    [dpy3D] unset and whose [_XOpenDisplay] fails never returns: it
    reports the display name and calls [safeExit(1)].  When [deadYet] is
    false the process exits with status 1 after the teardown, with no
    registry of the build left allocated; when [deadYet] is true only
    the calling thread ends.  [dpy3D] stays NULL either way. *)
Theorem init3D_open_failure (EGLBACKEND : bool) (cfg : fakerconfig)
    (debug : bool) (env : DisplayEnv) (w : World) :
  EGLBACKEND && fc_egl cfg = false ->
  dpy3D (wfaker w) = NULL ->
  XOpenDisplay_3D env = NULL ->
  let w' := snd (init3D EGLBACKEND cfg debug env w) in
  fst (init3D EGLBACKEND cfg debug env w)
  = Terminates (if deadYet (wfaker w) then ThreadExit else ProcessExit 1) /\
  deadYet (wfaker w') = true /\
  dpy3D (wfaker w') = NULL /\
  (deadYet (wfaker w) = false ->
   forall r, In r (registries EGLBACKEND) -> allocated (wfaker w') r = false) /\
  (exists l, wlog w'
             = l ++ [XOpenDisplay (fc_localdpystring cfg);
                     XPrintOpenError (fc_localdpystring cfg)]).
Proof.
  intros Hegl Hnull Hfail w'.
  destruct (init_effect cfg debug w) as (_ & Hl & Hdpy & Hdead & Hh & _).
  set (w1 := if fc_verbose cfg
             then xlog [XPrintOpening (opening_name cfg)]
                    (SafeLock_enter (init cfg debug w))
             else SafeLock_enter (init cfg debug w)).
  set (w2 := xlog [XPrintOpenError (fc_localdpystring cfg)]
               (on_faker (set_dpy3D (XOpenDisplay_3D env))
                  (xlog [XOpenDisplay (fc_localdpystring cfg)] w1))).
  assert (Hrun : init3D EGLBACKEND cfg debug env w
    = (Terminates (value_of (safeExit EGLBACKEND 1 (wfaker w2))),
       {| wfaker := state_of (safeExit EGLBACKEND 1 (wfaker w2));
          winit := winit w2; wlog := wlog w2 |})).
  { unfold init3D. rewrite Hdpy, Hnull. cbn [Z.eqb NULL negb].
    change (dpy3D (wfaker (SafeLock_enter (init cfg debug w))))
      with (dpy3D (wfaker (init cfg debug w))).
    rewrite Hdpy, Hnull. cbn [Z.eqb NULL negb]. rewrite Hegl.
    fold w1.
    change (dpy3D (wfaker (on_faker (set_dpy3D (XOpenDisplay_3D env)) ?x)))
      with (XOpenDisplay_3D env).
    rewrite Hfail. cbn [Z.eqb NULL]. rewrite <- Hfail at 1. fold w2.
    unfold value_of, state_of.
    destruct (safeExit EGLBACKEND 1 (wfaker w2)). reflexivity. }
  assert (H2d : deadYet (wfaker w2) = deadYet (wfaker w)).
  { unfold w2, w1. destruct (fc_verbose cfg); simpl; exact Hdead. }
  assert (H2p : dpy3D (wfaker w2) = NULL).
  { unfold w2. simpl. exact Hfail. }
  assert (H2h : forall r, allocated (wfaker w2) r = allocated (wfaker w) r).
  { intros r. unfold allocated, w2, w1.
    destruct (fc_verbose cfg); simpl; rewrite Hh; reflexivity. }
  unfold w'. rewrite Hrun. cbn [fst snd wfaker wlog].
  destruct (deadYet (wfaker w)) eqn:Hd.
  - destruct (safeExit_dead EGLBACKEND 1 (wfaker w2) H2d)
      as (V & D & _ & _ & _ & P & _).
    rewrite V, D, P, H2p.
    split; [reflexivity|]. split; [reflexivity|]. split; [reflexivity|].
    split; [discriminate|].
    eexists. unfold w2. cbn [xlog wlog on_faker].
    rewrite <- app_assoc. reflexivity.
  - destruct (safeExit_alive EGLBACKEND 1 (wfaker w2) H2d)
      as (V & D & _ & A & _).
    rewrite V, D.
    split; [reflexivity|]. split; [reflexivity|]. split.
    + rewrite safeExit_keeps_dpy3D. exact H2p.
    + split.
      * intros _ r Hr. rewrite A, (in_registries_existsb _ _ Hr).
        apply andb_false_r.
      * eexists. unfold w2. cbn [xlog wlog on_faker].
        rewrite <- app_assoc. reflexivity.
Qed.

Lemma init3D_open_failure_witness :
  fst (init3D false (mkFakerconfig false ":9" false "" false) false
         (mkDisplayEnv NULL None None false None)
         (mkWorld two_registries true []))
  = Terminates (ProcessExit 1) /\
  allocated
    (wfaker (snd (init3D false (mkFakerconfig false ":9" false "" false)
                    false (mkDisplayEnv NULL None None false None)
                    (mkWorld two_registries true []))))
    PixmapHash = false.
Proof.
  destruct (init3D_open_failure false
              (mkFakerconfig false ":9" false "" false) false
              (mkDisplayEnv NULL None None false None)
              (mkWorld two_registries true [])
              eq_refl eq_refl eq_refl) as (H1 & _ & _ & H4 & _).
  split; [exact H1|].
  apply (H4 eq_refl PixmapHash). simpl. tauto.
Defined.

Lemma device_selected_cases (cfg : fakerconfig) (d : EGLDevice) :
  device_selected cfg d
  = if probe_display d =? NULL then false
    else if negb (probe_initializes d) then false
    else if strcasecmp (fc_localdpystring cfg) "egl" =? 0 then true
    else match drm_device_file d with
         | Some devStr => strcmp devStr (fc_localdpystring cfg) =? 0
         | None => false
         end.
Proof.
  unfold device_selected, device_usable.
  destruct (probe_display d =? NULL), (probe_initializes d),
    (strcasecmp (fc_localdpystring cfg) "egl" =? 0); reflexivity.
Qed.

Lemma probe_devices_step (cfg : fakerconfig) (d : EGLDevice)
    (rest : list EGLDevice) (i : Z) :
  fst (probe_devices cfg (d :: rest) i)
  = if device_selected cfg d then i
    else fst (probe_devices cfg rest (i + 1)).
Proof.
  rewrite device_selected_cases. cbn [probe_devices].
  destruct (probe_display d =? NULL).
  - destruct (probe_devices cfg rest (i + 1)). reflexivity.
  - destruct (negb (probe_initializes d)).
    + destruct (probe_devices cfg rest (i + 1)). reflexivity.
    + destruct (strcasecmp (fc_localdpystring cfg) "egl" =? 0);
        [reflexivity|].
      destruct (match drm_device_file d with
                | Some devStr => strcmp devStr (fc_localdpystring cfg) =? 0
                | None => false
                end); [reflexivity|].
      destruct (probe_devices cfg rest (i + 1)). reflexivity.
Qed.

Lemma probe_devices_first (cfg : fakerconfig) (rest : list EGLDevice)
    (i : Z) :
  let j := fst (probe_devices cfg rest i) in
  i <= j <= i + Z.of_nat (List.length rest) /\
  (forall k d, (Z.of_nat k < j - i) -> nth_error rest k = Some d ->
               device_selected cfg d = false) /\
  (j < i + Z.of_nat (List.length rest) ->
   exists d, nth_error rest (Z.to_nat (j - i)) = Some d /\
             device_selected cfg d = true).
Proof.
  revert i. induction rest as [|d rest IH]; intros i j.
  - unfold j. cbn [probe_devices fst List.length].
    split; [lia|]. split.
    + intros k d Hk. lia.
    + lia.
  - unfold j. rewrite probe_devices_step. cbn [List.length].
    destruct (device_selected cfg d) eqn:Hsel.
    + split; [lia|]. split.
      * intros k d' Hk. lia.
      * intros _. exists d. rewrite Z.sub_diag. split; [reflexivity|exact Hsel].
    + destruct (IH (i + 1)) as (Hr & Hbefore & Hat).
      set (j' := fst (probe_devices cfg rest (i + 1))) in *.
      split; [lia|]. split.
      * intros k d' Hk Hnth. destruct k as [|k].
        -- simpl in Hnth. inversion Hnth. subst d'. exact Hsel.
        -- simpl in Hnth. apply (Hbefore k d'); [lia|exact Hnth].
      * intros Hlt. destruct Hat as (d' & Hnth & Hd'); [lia|].
        exists d'. split; [|exact Hd'].
        replace (Z.to_nat (j' - i)) with (Datatypes.S (Z.to_nat (j' - (i + 1))))
          by lia.
        exact Hnth.
Qed.

Lemma probe_devices_spec (cfg : fakerconfig)
    (devices : list EGLDevice) :
  let i := fst (probe_devices cfg devices 0) in
  0 <= i <= Z.of_nat (List.length devices) /\
  (forall k d, Z.of_nat k < i -> nth_error devices k = Some d ->
               device_selected cfg d = false) /\
  (i < Z.of_nat (List.length devices) ->
   exists d, nth_error devices (Z.to_nat i) = Some d /\
             device_selected cfg d = true) /\
  (i = Z.of_nat (List.length devices) <->
   forall d, In d devices -> device_selected cfg d = false).
Proof.
  intros i.
  destruct (probe_devices_first cfg devices 0) as (Hr & Hbefore & Hat).
  fold i in Hr, Hbefore, Hat.
  split; [lia|]. split; [|split].
  - intros k d Hk. apply Hbefore. lia.
  - intros Hlt. destruct (Hat ltac:(lia)) as (d & Hnth & Hd).
    exists d. rewrite Z.sub_0_r in Hnth. split; assumption.
  - split.
    + intros Hi d Hd. apply In_nth_error in Hd. destruct Hd as [k Hk].
      apply (Hbefore k d); [|exact Hk].
      assert ((k < List.length devices)%nat)
        by (apply nth_error_Some; congruence).
      lia.
    + intros Hnone.
      destruct (Z.eq_dec i (Z.of_nat (List.length devices))) as [E|E];
        [exact E|].
      destruct (Hat ltac:(lia)) as (d & Hnth & Hd).
      apply nth_error_In in Hnth. rewrite (Hnone d Hnth) in Hd.
      discriminate.
Qed.

(** X12.  The probe loop of [init3D] stops at the first device that can
    be initialised and that the configuration names, either because the
    local display string is [egl] (in any case) or because it is the DRM
    device file of the device; it runs to the end of the array exactly
    when there is no such device. *)
Theorem probe_devices_selects_first (cfg : fakerconfig)
    (devices : list EGLDevice) :
  let i := fst (probe_devices cfg devices 0) in
  0 <= i <= Z.of_nat (List.length devices) /\
  (forall k d, Z.of_nat k < i -> nth_error devices k = Some d ->
               device_selected cfg d = false) /\
  (i < Z.of_nat (List.length devices) ->
   exists d, nth_error devices (Z.to_nat i) = Some d /\
             device_selected cfg d = true) /\
  (i = Z.of_nat (List.length devices) <->
   forall d, In d devices -> device_selected cfg d = false).
Proof. apply probe_devices_spec. Qed.

Lemma probe_devices_selects_first_witness :
  fst (probe_devices (mkFakerconfig true "/dev/dri/card1" false "" false)
         three_devices 0) = 2 /\
  fst (probe_devices (mkFakerconfig true "EGL" false "" false)
         three_devices 0) = 1 /\
  fst (probe_devices (mkFakerconfig true "/dev/dri/card0" false "" false)
         three_devices 0) = 3.
Proof.
  split; [reflexivity|]. split; [reflexivity|].
  apply (probe_devices_selects_first
           (mkFakerconfig true "/dev/dri/card0" false "" false)
           three_devices).
  intros d Hd. simpl in Hd.
  destruct Hd as [<-|[<-|[<-|[]]]]; reflexivity.
Defined.

Lemma open_probed_result (cfg : fakerconfig) (devices : list EGLDevice)
    (w : World) :
  let i := fst (probe_devices cfg devices 0) in
  (i = Z.of_nat (List.length devices) ->
   fst (open_probed cfg devices w) = Some "Invalid EGL device"%string /\
   wfaker (snd (open_probed cfg devices w)) = wfaker w) /\
  (forall d, i < Z.of_nat (List.length devices) ->
     nth_error devices (Z.to_nat i) = Some d ->
     fst (open_probed cfg devices w)
     = (if open_display d =? NULL
        then Some "Could not open EGL display"%string
        else if negb (open_initializes d)
             then Some "Could not initialize EGL"%string
             else None) /\
     wfaker (snd (open_probed cfg devices w))
     = set_dpy3D (open_display d) (wfaker w)).
Proof.
  intros i. unfold open_probed, i.
  destruct (probe_devices cfg devices 0) as [i0 l]. cbn [fst].
  split.
  - intros Hi. rewrite (proj2 (Z.eqb_eq _ _) Hi). cbn [fst snd].
    split; reflexivity.
  - intros d Hlt Hnth.
    assert (Hne : i0 <> Z.of_nat (List.length devices)) by lia.
    rewrite (proj2 (Z.eqb_neq _ _) Hne), Hnth.
    destruct (open_display d =? NULL); cbn [fst snd].
    + split; reflexivity.
    + destruct (negb (open_initializes d)); cbn [fst snd];
        split; reflexivity.
Qed.

Lemma open_egl_ready (cfg : fakerconfig) (env : DisplayEnv)
    (devices : list EGLDevice) (w : World) :
  egl_ready env devices ->
  exists w0, wfaker w0 = wfaker w /\
             open_egl cfg env w = open_probed cfg devices w0.
Proof.
  intros [(exts & Hx & Hs) (n & Hn & Hn1) Hm Hd Hne].
  assert (Hlen : 1 <= Z.of_nat (List.length devices)).
  { destruct devices; [contradiction|]. simpl List.length. lia. }
  unfold open_egl. rewrite Hx, Hs, Hn, Hm, Hd. cbn [negb].
  rewrite (proj2 (Z.ltb_ge _ _) Hn1), (proj2 (Z.ltb_ge _ _) Hlen).
  eexists. split; [|reflexivity].
  destruct (fc_verbose cfg); reflexivity.
Qed.

Lemma init3D_egl_path (cfg : fakerconfig) (debug : bool) (env : DisplayEnv)
    (w : World) :
  fc_egl cfg = true -> dpy3D (wfaker w) = NULL ->
  init3D true cfg debug env w
  = (match fst (open_egl cfg env (SafeLock_enter (init cfg debug w))) with
     | Some message => Throws message
     | None =>
         Returns (dpy3D (wfaker (snd (open_egl cfg env
                                        (SafeLock_enter
                                           (init cfg debug w))))))
     end,
     SafeLock_leave
       (snd (open_egl cfg env (SafeLock_enter (init cfg debug w))))).
Proof.
  intros Hegl Hnull. unfold init3D.
  destruct (init_effect cfg debug w) as (_ & _ & Hdpy & _).
  rewrite Hdpy, Hnull. cbn [Z.eqb NULL negb].
  change (dpy3D (wfaker (SafeLock_enter (init cfg debug w))))
    with (dpy3D (wfaker (init cfg debug w))).
  rewrite Hdpy, Hnull. cbn [Z.eqb NULL negb andb]. rewrite Hegl.
  destruct (open_egl cfg env (SafeLock_enter (init cfg debug w)))
    as [[message|] w']; reflexivity.
Qed.

Lemma init3D_egl_result (cfg : fakerconfig) (debug : bool)
    (env : DisplayEnv) (devices : list EGLDevice) (w : World) :
  fc_egl cfg = true -> dpy3D (wfaker w) = NULL ->
  egl_ready env devices ->
  let i := fst (probe_devices cfg devices 0) in
  (i = Z.of_nat (List.length devices) ->
   fst (init3D true cfg debug env w) = Throws "Invalid EGL device" /\
   dpy3D (wfaker (snd (init3D true cfg debug env w))) = NULL) /\
  (forall d, i < Z.of_nat (List.length devices) ->
     nth_error devices (Z.to_nat i) = Some d ->
     fst (init3D true cfg debug env w)
     = (if open_display d =? NULL
        then Throws "Could not open EGL display"
        else if negb (open_initializes d)
             then Throws "Could not initialize EGL"
             else Returns (open_display d)) /\
     dpy3D (wfaker (snd (init3D true cfg debug env w))) = open_display d).
Proof.
  intros Hegl Hnull Hready i.
  rewrite (init3D_egl_path cfg debug env w Hegl Hnull).
  destruct (open_egl_ready cfg env devices
              (SafeLock_enter (init cfg debug w)) Hready)
    as (w0 & Hw0 & Hopen).
  rewrite Hopen.
  destruct (open_probed_result cfg devices w0) as [Hnone Hsome].
  fold i in Hnone, Hsome.
  assert (Hp0 : dpy3D (wfaker w0) = NULL).
  { rewrite Hw0.
    change (dpy3D (wfaker (init cfg debug w)) = NULL).
    destruct (init_effect cfg debug w) as (_ & _ & Hdpy & _).
    rewrite Hdpy. exact Hnull. }
  split.
  - intros Hi. destruct (Hnone Hi) as [Hm Hf]. cbn [fst snd].
    rewrite Hm. split; [reflexivity|].
    change (dpy3D (wfaker (snd (open_probed cfg devices w0))) = NULL).
    rewrite Hf. exact Hp0.
  - intros d Hlt Hnth. destruct (Hsome d Hlt Hnth) as [Hm Hf].
    cbn [fst snd].
    change (dpy3D (wfaker (SafeLock_leave
                             (snd (open_probed cfg devices w0)))))
      with (dpy3D (wfaker (snd (open_probed cfg devices w0)))).
    rewrite Hm, Hf. cbn [set_dpy3D dpy3D].
    destruct (open_display d =? NULL); [split; reflexivity|].
    destruct (negb (open_initializes d)); split; reflexivity.
Qed.

(** X13.  With the EGL back end, when everything that precedes the probe
    loop succeeds: if no device can be initialised and is named by the
    configuration, [init3D] throws "Invalid EGL device" and [dpy3D]
    stays NULL; else, if the display of the first such device opens and
    initialises, [init3D] returns that display and stores it. *)
Theorem init3D_egl_device (cfg : fakerconfig) (debug : bool)
    (env : DisplayEnv) (devices : list EGLDevice) (w : World) :
  fc_egl cfg = true -> dpy3D (wfaker w) = NULL ->
  egl_ready env devices ->
  let i := fst (probe_devices cfg devices 0) in
  ((forall d, In d devices -> device_selected cfg d = false) ->
   fst (init3D true cfg debug env w) = Throws "Invalid EGL device" /\
   dpy3D (wfaker (snd (init3D true cfg debug env w))) = NULL) /\
  (forall d, i < Z.of_nat (List.length devices) ->
     nth_error devices (Z.to_nat i) = Some d ->
     open_display d <> NULL -> open_initializes d = true ->
     fst (init3D true cfg debug env w) = Returns (open_display d) /\
     dpy3D (wfaker (snd (init3D true cfg debug env w))) = open_display d).
Proof.
  intros Hegl Hnull Hready i.
  destruct (init3D_egl_result cfg debug env devices w Hegl Hnull Hready)
    as [Hnone Hsome].
  fold i in Hnone, Hsome. split.
  - intros Hno. apply Hnone.
    apply (proj2 (proj2 (proj2 (probe_devices_spec cfg devices)))).
    exact Hno.
  - intros d Hlt Hnth Hopen Hinit.
    destruct (Hsome d Hlt Hnth) as [Hr Hd].
    rewrite Hinit in Hr. cbn [negb] in Hr.
    destruct (Z.eqb_spec (open_display d) NULL) as [E|_];
      [contradiction|].
    split; [exact Hr|exact Hd].
Qed.

Lemma three_devices_ready : egl_ready three_devices_env three_devices.
Proof.
  split.
  - eexists. split; reflexivity.
  - exists 3. split; [reflexivity|lia].
  - reflexivity.
  - reflexivity.
  - discriminate.
Qed.

Lemma init3D_egl_device_witness :
  fst (init3D true (mkFakerconfig true "egl" false "" false) false
         three_devices_env (mkWorld Faker_init false []))
  = Returns 200 /\
  fst (init3D true (mkFakerconfig true "/dev/dri/card0" false "" false)
         false three_devices_env (mkWorld Faker_init false []))
  = Throws "Invalid EGL device".
Proof.
  split.
  - destruct (init3D_egl_device (mkFakerconfig true "egl" false "" false)
                false three_devices_env three_devices
                (mkWorld Faker_init false []) eq_refl eq_refl
                three_devices_ready) as [_ H].
    apply (H (mkEGLDevice 200 true None 200 true));
      [reflexivity|reflexivity|discriminate|reflexivity].
  - destruct (init3D_egl_device
                (mkFakerconfig true "/dev/dri/card0" false "" false)
                false three_devices_env three_devices
                (mkWorld Faker_init false []) eq_refl eq_refl
                three_devices_ready) as [H _].
    apply H. intros d Hd. simpl in Hd.
    destruct Hd as [<-|[<-|[<-|[]]]]; reflexivity.
Defined.

(** X14.  With the EGL back end, when the display of the selected device
    opens but its [eglInitialize] fails, [init3D] throws "Could not
    initialize EGL" with [dpy3D] already set to that display; every later
    call of [init3D] then returns the display that was never
    initialised, and throws nothing. *)
Theorem init3D_egl_failure_sticks (cfg : fakerconfig) (debug : bool)
    (env : DisplayEnv) (devices : list EGLDevice) (w : World)
    (d : EGLDevice) :
  fc_egl cfg = true -> dpy3D (wfaker w) = NULL ->
  egl_ready env devices ->
  fst (probe_devices cfg devices 0) < Z.of_nat (List.length devices) ->
  nth_error devices (Z.to_nat (fst (probe_devices cfg devices 0)))
  = Some d ->
  open_display d <> NULL -> open_initializes d = false ->
  fst (init3D true cfg debug env w) = Throws "Could not initialize EGL" /\
  dpy3D (wfaker (snd (init3D true cfg debug env w))) = open_display d /\
  (forall cfg' debug' env',
     fst (init3D true cfg' debug' env' (snd (init3D true cfg debug env w)))
     = Returns (open_display d)).
Proof.
  intros Hegl Hnull Hready Hlt Hnth Hopen Hinit.
  destruct (init3D_egl_result cfg debug env devices w Hegl Hnull Hready)
    as [_ Hsome].
  destruct (Hsome d Hlt Hnth) as [Hr Hd].
  rewrite Hinit in Hr. cbn [negb] in Hr.
  destruct (Z.eqb_spec (open_display d) NULL) as [E|_]; [contradiction|].
  split; [exact Hr|]. split; [exact Hd|].
  intros cfg' debug' env'.
  assert (Hset : dpy3D (wfaker (snd (init3D true cfg debug env w)))
                 <> NULL) by (rewrite Hd; exact Hopen).
  destruct (init3D_when_set true cfg' debug' env' _ Hset) as (H1 & _).
  rewrite H1, Hd. reflexivity.
Qed.

Lemma init3D_egl_failure_sticks_witness :
  fst (init3D true (mkFakerconfig true "/dev/dri/card1" false "" false)
         false three_devices_env (mkWorld Faker_init false []))
  = Throws "Could not initialize EGL" /\
  fst (init3D true (mkFakerconfig true "/dev/dri/card1" false "" false)
         false three_devices_env
         (snd (init3D true
                 (mkFakerconfig true "/dev/dri/card1" false "" false)
                 false three_devices_env (mkWorld Faker_init false []))))
  = Returns 300.
Proof.
  destruct (init3D_egl_failure_sticks
              (mkFakerconfig true "/dev/dri/card1" false "" false) false
              three_devices_env three_devices
              (mkWorld Faker_init false [])
              (mkEGLDevice 300 true (Some "/dev/dri/card1"%string) 300 false)
              eq_refl eq_refl three_devices_ready eq_refl eq_refl
              ltac:(discriminate) eq_refl) as (H1 & _ & H3).
  split; [exact H1|].
  apply (H3 (mkFakerconfig true "/dev/dri/card1" false "" false) false
            three_devices_env).
Defined.

(* ================================================================= *)
(** ** Excluded displays: edge cases and composition *)

Lemma uchar_inj (c d : ascii) : uchar c = uchar d -> c = d.
Proof.
  unfold uchar. intros H. apply N2Z.inj in H.
  rewrite <- (ascii_N_embedding c), <- (ascii_N_embedding d), H.
  reflexivity.
Qed.

Lemma ascii_eqb_uchar (c d : ascii) : Ascii.eqb c d = (uchar c =? uchar d).
Proof.
  destruct (Ascii.eqb_spec c d) as [->|Hne].
  - symmetry. apply Z.eqb_refl.
  - symmetry. apply Z.eqb_neq. intros H. apply Hne, uchar_inj, H.
Qed.

Lemma is_display_delim (c : ascii) :
  is_delim display_delims c
  = (uchar c =? 44) || (uchar c =? 32) || (uchar c =? 9).
Proof.
  unfold display_delims. cbn [is_delim]. rewrite !ascii_eqb_uchar.
  change (uchar ","%char) with 44. change (uchar " "%char) with 32.
  change (uchar (ascii_of_nat 9)) with 9.
  destruct (uchar c =? 44), (uchar c =? 32), (uchar c =? 9); reflexivity.
Qed.

(** [tolower] neither makes nor unmakes a delimiter. *)
Lemma tolower_delim (c d : ascii) :
  tolower (uchar c) = tolower (uchar d) ->
  is_delim display_delims c = is_delim display_delims d.
Proof.
  rewrite !is_display_delim. unfold tolower.
  pose proof (uchar_nonneg c). pose proof (uchar_nonneg d).
  destruct (Z.leb_spec 65 (uchar c)); destruct (Z.leb_spec (uchar c) 90);
    destruct (Z.leb_spec 65 (uchar d)); destruct (Z.leb_spec (uchar d) 90);
    cbn [andb]; intros E;
    destruct (Z.eqb_spec (uchar c) 44); destruct (Z.eqb_spec (uchar c) 32);
    destruct (Z.eqb_spec (uchar c) 9); destruct (Z.eqb_spec (uchar d) 44);
    destruct (Z.eqb_spec (uchar d) 32); destruct (Z.eqb_spec (uchar d) 9);
    cbn [orb]; try reflexivity; lia.
Qed.

Lemma eq_ignoring_case_delim (a b : string) :
  eq_ignoring_case a b ->
  has_delim display_delims a = has_delim display_delims b.
Proof.
  unfold eq_ignoring_case. revert b.
  induction a as [|c a IH]; intros [|d b] H; simpl in H;
    try discriminate; [reflexivity|].
  inversion H as [[Hc Hr]]. cbn [has_delim].
  rewrite (tolower_delim c d Hc), (IH b Hr). reflexivity.
Qed.

Lemma fields_no_delim (delim s : string) :
  forall f, In f (fields delim s) -> has_delim delim f = false.
Proof.
  induction s as [|c t IH]; intros f Hf; simpl in Hf.
  - destruct Hf as [<-|[]]. reflexivity.
  - destruct (is_delim delim c) eqn:Ec.
    + destruct Hf as [<-|Hf]; [reflexivity|]. apply IH, Hf.
    + destruct (fields delim t) as [|f0 fs] eqn:E.
      * destruct Hf as [<-|[]]. cbn [has_delim]. rewrite Ec. reflexivity.
      * destruct Hf as [<-|Hf].
        -- cbn [has_delim]. rewrite Ec. apply IH. left. reflexivity.
        -- apply IH. right. exact Hf.
Qed.

Lemma tokens_shape (delim s token : string) :
  In token (tokens delim s) ->
  token <> EmptyString /\ has_delim delim token = false.
Proof.
  intros H. unfold tokens in H. apply filter_In in H.
  destruct H as [Hin Hne]. split.
  - intros ->. discriminate.
  - apply (fields_no_delim delim s token Hin).
Qed.

(** X15.  No display whose name is empty, or holds a comma, a space or a
    tab, is ever excluded, whatever the list; and a list that holds
    nothing but delimiters excludes no display. *)
Theorem never_excluded (excludeddpys name : string) :
  (cstr excludeddpys -> cstr name ->
   name = EmptyString \/ has_delim display_delims name = true ->
   isDisplayStringExcluded excludeddpys name = Some false) /\
  (tokens display_delims excludeddpys = [] ->
   isDisplayStringExcluded excludeddpys name = Some false).
Proof.
  rewrite isDisplayStringExcluded_tokens. split.
  - intros Hl Hn Hname. f_equal.
    destruct (existsb _ _) eqn:E; [|reflexivity]. exfalso.
    apply existsb_exists in E. destruct E as (token & Hin & Heq).
    apply Z.eqb_eq in Heq.
    apply strcasecmp_zero_iff in Heq;
      [|exact Hn|apply (tokens_cstr _ _ Hl _ Hin)].
    destruct (tokens_shape _ _ _ Hin) as [Hne Hnd].
    destruct Hname as [->|Hd].
    + unfold eq_ignoring_case in Heq. destruct token; [congruence|].
      discriminate.
    + rewrite (eq_ignoring_case_delim _ _ Heq) in Hd. congruence.
  - intros Ht. rewrite Ht. reflexivity.
Qed.

Lemma never_excluded_witness :
  isDisplayStringExcluded "host1:0.0, host 2:0" "host 2:0" = Some false /\
  isDisplayStringExcluded " ,, " "host1:0.0" = Some false.
Proof.
  split.
  - destruct (never_excluded "host1:0.0, host 2:0" "host 2:0") as [H _].
    apply H; [reflexivity|reflexivity|right; reflexivity].
  - destruct (never_excluded " ,, " "host1:0.0") as [_ H].
    apply H. reflexivity.
Defined.

Lemma fields_join (delim l1 l2 : string) (sep : ascii) :
  is_delim delim sep = true ->
  fields delim (l1 ++ String sep l2) = fields delim l1 ++ fields delim l2.
Proof.
  intros Hsep. induction l1 as [|c t IH]; cbn [String.append fields].
  - rewrite Hsep. reflexivity.
  - rewrite IH. destruct (is_delim delim c); [reflexivity|].
    pose proof (fields_not_nil delim t) as Hne.
    destruct (fields delim t) as [|f fs]; [contradiction|]. reflexivity.
Qed.

(** X16.  Joining two lists with a comma, a space or a tab excludes
    exactly the displays that one of the two lists excludes; so the
    order of the entries of a list does not matter. *)
Theorem excluded_join (l1 l2 name : string) (sep : ascii) :
  is_delim display_delims sep = true ->
  exists b1 b2 : bool,
    isDisplayStringExcluded l1 name = Some b1 /\
    isDisplayStringExcluded l2 name = Some b2 /\
    isDisplayStringExcluded (l1 ++ String sep l2) name = Some (b1 || b2) /\
    isDisplayStringExcluded (l2 ++ String sep l1) name = Some (b1 || b2).
Proof.
  intros Hsep. rewrite !isDisplayStringExcluded_tokens.
  do 2 eexists. split; [reflexivity|]. split; [reflexivity|].
  unfold tokens. rewrite !(fields_join _ _ _ _ Hsep), !filter_app,
    !existsb_app.
  split; [reflexivity|]. f_equal. apply orb_comm.
Qed.

Lemma excluded_join_witness :
  isDisplayStringExcluded ("host1:0.0 host2:0" ++ String "," "HOST3:1")
    "host3:1" = Some true.
Proof.
  destruct (excluded_join "host1:0.0 host2:0" "HOST3:1" "host3:1" ","
              eq_refl) as (b1 & b2 & H1 & H2 & H3 & _).
  rewrite H3. vm_compute in H1, H2.
  inversion H1. inversion H2. reflexivity.
Defined.

(* ================================================================= *)
(** ** The test harness: client name, failures and clean-up *)

Lemma last_default {A : Type} (d d' : A) (l : list A) :
  l <> [] -> last l d = last l d'.
Proof.
  induction l as [|x l IH]; intros H; [contradiction|].
  destruct l as [|y l]; [reflexivity|].
  cbn [last] in *. apply IH. discriminate.
Qed.

Lemma last_cons {A : Type} (x d : A) (l : list A) :
  last (x :: l) d = last l x.
Proof.
  destruct l as [|y l]; [reflexivity|].
  change (last (x :: y :: l) d) with (last (y :: l) d).
  apply last_default. discriminate.
Qed.

Lemma last_some {A : Type} (l : list A) (d x : A) :
  match last (map Some l) (Some d) with
  | Some c => c
  | None => x
  end = last l d.
Proof.
  revert d. induction l as [|v l IH]; intros d; [reflexivity|].
  cbn [map]. rewrite !last_cons. apply IH.
Qed.

Lemma scan_options_clientname (fuel : nat) (argv : list string) (i : Z)
    (usessl : bool) (clientname : option string) :
  0 <= i ->
  (List.length argv - Z.to_nat i <= fuel)%nat ->
  snd (scan_options fuel argv i usessl clientname)
  = last (map Some (client_values (skipn (Z.to_nat i) argv))) clientname.
Proof.
  revert i usessl clientname.
  induction fuel as [|fuel IH]; intros i usessl clientname Hi Hfuel.
  - cbn [scan_options snd]. rewrite skipn_all2 by lia. reflexivity.
  - cbn [scan_options]. unfold argc.
    destruct (Z.ltb_spec i (Z.of_nat (List.length argv))) as [Hlt|Hge].
    + assert (Hn : (Z.to_nat i < List.length argv)%nat) by lia.
      rewrite (skipn_cons_nth EmptyString _ _ Hn).
      fold (arg argv i). cbn [client_values].
      assert (Hs1 : Z.to_nat (i + 1) = Datatypes.S (Z.to_nat i)) by lia.
      destruct (strnicmp (arg argv i) "-cl" 3 =? 0) eqn:Ecl; cbn [andb].
      * destruct (Z.ltb_spec i (Z.of_nat (List.length argv) - 1))
          as [Hlt1|Hge1].
        -- assert (Hn1 : (Datatypes.S (Z.to_nat i) < List.length argv)%nat)
             by lia.
           rewrite (skipn_cons_nth EmptyString _ _ Hn1).
           rewrite IH by lia.
           replace (Z.to_nat (i + 1 + 1))
             with (Datatypes.S (Datatypes.S (Z.to_nat i))) by lia.
           cbn [map]. rewrite last_cons. unfold arg. rewrite Hs1.
           reflexivity.
        -- rewrite IH by lia. rewrite Hs1.
           rewrite skipn_all2 by lia. reflexivity.
      * rewrite IH by lia. rewrite Hs1. reflexivity.
    + cbn [snd]. rewrite skipn_all2 by lia. reflexivity.
Qed.

Lemma send_one_run_events (env : Env) (win i f : Z) (Q : hevent -> Prop) :
  (forall a b, Q (HGetBitmap a b)) ->
  (forall a b c d, Q (HSendFrame a b c d)) ->
  Forall Q (fst (send_one env win i f)).
Proof.
  intros Hg Hs. unfold send_one.
  destruct (getbitmap_ok env i f); [destruct (sendframe_ok env i f)|];
    repeat constructor; auto.
Qed.

Lemma cycle_run_events (env : Env) (o : options) (clientname : string)
    (win i : Z) (Q : hevent -> Prop) :
  Q (HConnect clientname (opt_port o) (opt_usessl o)) ->
  (forall a b, Q (HGetBitmap a b)) ->
  (forall a b c d, Q (HSendFrame a b c d)) ->
  (forall a, Q (HDisconnect a)) ->
  Forall Q (fst (cycle env o clientname win i)).
Proof.
  intros Hc Hg Hs Hd. unfold cycle.
  destruct (connect_ok env i); [|repeat constructor; exact Hc].
  pose proof (for_up_forall Q (Z.to_nat (opt_frames o)) 0
                (send_one env win i)
                (fun y => send_one_run_events env win i y Q Hg Hs)) as H.
  destruct (for_up _ _ _) as [l ok]. cbn [fst] in H.
  destruct ok; cbn [fst]; constructor; try exact Hc; try exact H.
  apply Forall_app. split; [exact H|]. repeat constructor. apply Hd.
Qed.

Lemma try_block_run_events (env : Env) (o : options) (Q : hevent -> Prop) :
  Q (HConnect (match opt_clientname o with
               | Some c => c
               | None => DisplayString env
               end) (opt_port o) (opt_usessl o)) ->
  (forall a, Q (HCreatingWindow a)) ->
  (forall a, Q (HTesting a)) ->
  (forall a b, Q (HGetBitmap a b)) ->
  (forall a b c d, Q (HSendFrame a b c d)) ->
  (forall a, Q (HDisconnect a)) ->
  Forall Q (snd (fst (try_block env o))).
Proof.
  intros Hc Hw Ht Hg Hs Hd. unfold try_block.
  destruct (negb (XInitThreads_status env)); [constructor|].
  destruct (XOpenDisplay_result env =? NULL); [constructor|].
  destruct (XCreateSimpleWindow_result env =? 0); [constructor|].
  destruct (negb (XMapRaised_status env)); [repeat constructor; apply Hw|].
  match goal with
  | |- context [for_up ?n ?x ?b] =>
      pose proof (for_up_forall Q n x b) as H;
      destruct (for_up n x b) as [l ok]
  end.
  cbn [fst snd] in *. constructor; [apply Hw|]. constructor; [apply Ht|].
  apply H. intros y. apply cycle_run_events; assumption.
Qed.

(** X17.  The client name that the harness connects to is the value of
    the last [-cl...] option on the command line, and the name of the
    display it has opened when there is none; every connection it makes
    goes to that name, on the port and with the TLS setting that the
    arguments select. *)
Theorem main_client_name (RR_DEFAULTPORT RR_DEFAULTSSLPORT : Z)
    (env : Env) (argv : list string) (o : options) :
  parse_args RR_DEFAULTPORT RR_DEFAULTSSLPORT argv = Some o ->
  opt_clientname o = last (map Some (client_values argv)) None /\
  Forall (connects_to
            (last (client_values argv) (DisplayString env))
            (opt_port o) (opt_usessl o))
    (snd (main RR_DEFAULTPORT RR_DEFAULTSSLPORT env argv)).
Proof.
  intros Hparse.
  assert (Hname : opt_clientname o
                  = last (map Some (client_values argv)) None).
  { unfold parse_args in Hparse.
    destruct (usage_error argv); [discriminate|].
    pose proof (scan_options_clientname (List.length argv) argv 0 false
                  None ltac:(lia) ltac:(lia)) as Hscan.
    destruct (scan_options (List.length argv) argv 0 false None)
      as [usessl clientname].
    inversion Hparse. subst o. cbn [opt_clientname snd] in *.
    exact Hscan. }
  split; [exact Hname|].
  assert (Hlast : match opt_clientname o with
                  | Some c => c
                  | None => DisplayString env
                  end = last (client_values argv) (DisplayString env)).
  { rewrite Hname. destruct (client_values argv) as [|v l]; [reflexivity|].
    cbn [map]. rewrite !last_cons. apply last_some. }
  unfold main. rewrite Hparse.
  pose proof (try_block_run_events env o
                (connects_to (last (client_values argv) (DisplayString env))
                   (opt_port o) (opt_usessl o))) as Hlog.
  rewrite Hlast in Hlog.
  specialize (Hlog ltac:(repeat split) ltac:(exact (fun _ => I))
                ltac:(exact (fun _ => I)) ltac:(exact (fun _ _ => I))
                ltac:(exact (fun _ _ _ _ => I)) ltac:(exact (fun _ => I))).
  destruct (try_block env o) as [[[dpy win] l] ok]. cbn [fst snd] in *.
  repeat (apply Forall_app; split); [exact Hlog| | |].
  - destruct ok; repeat constructor.
  - destruct (negb (win =? 0)); repeat constructor.
  - destruct (negb (dpy =? NULL)); repeat constructor.
Qed.

Lemma main_client_name_witness :
  Forall (connects_to "b:0" 4243 true)
    (snd (main 4242 4243 env_all_ok
            ["ut"; "2"; "1"; "-client"; "a:0"; "-ssl"; "-cl"; "b:0"; "-cl"]
            %string)).
Proof.
  apply (main_client_name 4242 4243 env_all_ok
           ["ut"; "2"; "1"; "-client"; "a:0"; "-ssl"; "-cl"; "b:0"; "-cl"]
           %string
           (mkOptions 2 1 true (Some "b:0"%string) 4243)).
  reflexivity.
Defined.

Lemma hcount_none (f : hevent -> bool) (l : list hevent) :
  Forall (fun e => f e = false) l -> hcount f l = 0.
Proof.
  induction 1 as [|e l He Hl IH]; [reflexivity|].
  rewrite hcount_cons, He, IH. reflexivity.
Qed.

Lemma hcount_nonneg (f : hevent -> bool) (l : list hevent) :
  0 <= hcount f l.
Proof. unfold hcount. lia. Qed.

Lemma try_block_hcount_none (env : Env) (o : options) (f : hevent -> bool) :
  (forall e, is_run_event e = true -> f e = false) ->
  hcount f (snd (fst (try_block env o))) = 0.
Proof.
  intros Hf. apply hcount_none.
  apply try_block_run_events; intros; apply Hf; reflexivity.
Qed.

Lemma send_loop_account (env : Env) (win i : Z) (m : nat) (x : Z) :
  hcount is_sendframe (fst (for_up m x (send_one env win i)))
  <= Z.of_nat m /\
  (snd (for_up m x (send_one env win i)) = true ->
   hcount is_sendframe (fst (for_up m x (send_one env win i)))
   = Z.of_nat m).
Proof.
  revert x. induction m as [|m IH]; intros x.
  - cbn [for_up fst snd]. rewrite hcount_nil. split; [lia|reflexivity].
  - cbn [for_up]. unfold send_one at 1 3 5.
    destruct (getbitmap_ok env i x).
    + destruct (sendframe_ok env i x).
      * destruct (IH (x + 1)) as [Hle Heq].
        destruct (for_up m (x + 1) (send_one env win i)) as [l ok].
        cbn [fst snd] in *.
        rewrite hcount_app, !hcount_cons, hcount_nil.
        cbn [is_sendframe]. split; [lia|].
        intros Hok. rewrite (Heq Hok). lia.
      * cbn [fst snd]. rewrite !hcount_cons, hcount_nil.
        cbn [is_sendframe]. split; [lia|discriminate].
    + cbn [fst snd]. rewrite !hcount_cons, hcount_nil.
      cbn [is_sendframe]. split; [lia|discriminate].
Qed.

Lemma send_loop_no (env : Env) (win i : Z) (m : nat) (x : Z)
    (f : hevent -> bool) :
  (forall a b, f (HGetBitmap a b) = false) ->
  (forall a b c d, f (HSendFrame a b c d) = false) ->
  hcount f (fst (for_up m x (send_one env win i))) = 0.
Proof.
  intros Hg Hs. apply hcount_none. apply for_up_forall.
  intros y. apply send_one_run_events; assumption.
Qed.

Lemma cycle_account (env : Env) (o : options) (clientname : string)
    (win i : Z) :
  0 <= opt_frames o ->
  hcount is_connect (fst (cycle env o clientname win i)) = 1 /\
  hcount is_disconnect (fst (cycle env o clientname win i))
  = (if snd (cycle env o clientname win i) then 1 else 0) /\
  hcount is_sendframe (fst (cycle env o clientname win i))
  <= opt_frames o /\
  (snd (cycle env o clientname win i) = true ->
   hcount is_sendframe (fst (cycle env o clientname win i))
   = opt_frames o).
Proof.
  intros Hframes. unfold cycle.
  destruct (connect_ok env i).
  - pose proof (send_loop_account env win i (Z.to_nat (opt_frames o)) 0)
      as [Hle Heq].
    pose proof (send_loop_no env win i (Z.to_nat (opt_frames o)) 0
                  is_connect ltac:(reflexivity) ltac:(reflexivity)) as Hc.
    pose proof (send_loop_no env win i (Z.to_nat (opt_frames o)) 0
                  is_disconnect ltac:(reflexivity) ltac:(reflexivity))
      as Hd.
    destruct (for_up (Z.to_nat (opt_frames o)) 0 (send_one env win i))
      as [l ok].
    cbn [fst snd] in *.
    destruct ok; cbn [fst snd];
      rewrite ?hcount_cons, ?hcount_app, ?hcount_cons, ?hcount_nil,
        ?Hc, ?Hd;
      cbn [is_connect is_disconnect is_sendframe].
    + specialize (Heq eq_refl). repeat split; try lia.
    + repeat split; try lia; try discriminate.
  - cbn [fst snd]. rewrite !hcount_cons, !hcount_nil.
    cbn [is_connect is_disconnect is_sendframe].
    repeat split; try lia; try discriminate.
Qed.

Lemma cycles_account (env : Env) (o : options) (clientname : string)
    (win : Z) (n : nat) (x : Z) :
  0 <= opt_frames o ->
  let r := for_up n x (cycle env o clientname win) in
  hcount is_connect (fst r)
  = hcount is_disconnect (fst r) + (if snd r then 0 else 1) /\
  hcount is_connect (fst r) <= Z.of_nat n /\
  hcount is_sendframe (fst r) <= Z.of_nat n * opt_frames o /\
  (snd r = true ->
   hcount is_disconnect (fst r) = Z.of_nat n /\
   hcount is_sendframe (fst r) = Z.of_nat n * opt_frames o) /\
  (snd r = false -> hcount is_disconnect (fst r) < Z.of_nat n).
Proof.
  intros Hframes. revert x. induction n as [|n IH]; intros x r.
  - unfold r. cbn [for_up fst snd]. rewrite !hcount_nil.
    repeat split; try lia; try discriminate.
  - unfold r. cbn [for_up].
    destruct (cycle_account env o clientname win x Hframes)
      as (Hc & Hd & Hs & Hs').
    destruct (cycle env o clientname win x) as [l ok].
    cbn [fst snd] in Hc, Hd, Hs, Hs'.
    destruct ok.
    + destruct (IH (x + 1)) as (Ic & In' & Is & It & If).
      destruct (for_up n (x + 1) (cycle env o clientname win))
        as [l' ok'].
      cbn [fst snd] in *. rewrite !hcount_app, Hc, Hd, (Hs' eq_refl).
      split; [lia|]. split; [lia|]. split; [nia|]. split.
      * intros Hok. destruct (It Hok) as [E1 E2]. split; nia.
      * intros Hok. specialize (If Hok). lia.
    + cbn [fst snd]. rewrite Hc, Hd.
      pose proof (hcount_nonneg is_sendframe l).
      split; [lia|]. split; [lia|]. split; [nia|].
      split; [discriminate|lia].
Qed.

Lemma parse_args_positive (P S : Z) (argv : list string) (o : options) :
  parse_args P S argv = Some o -> 1 <= opt_iter o /\ 1 <= opt_frames o.
Proof.
  intros Hparse.
  destruct (parse_args_some _ _ _ _ Hparse) as (Hi & Hf & _).
  assert (Hwf : ~ malformed argv).
  { intros Hbad. apply (parse_args_none_iff P S) in Hbad. congruence. }
  unfold malformed in Hwf. rewrite Hi, Hf. lia.
Qed.

(** X18.  On arguments that pass the usage check, whatever fails: the
    harness never makes more connections than the iterations value and
    never sends more frames than iterations times frames; at most one
    connection is left without its disconnect; an exception is caught at
    most once, and when none is caught every cycle has run in full. *)
Theorem main_accounting (RR_DEFAULTPORT RR_DEFAULTSSLPORT : Z) (env : Env)
    (argv : list string) (o : options) :
  parse_args RR_DEFAULTPORT RR_DEFAULTSSLPORT argv = Some o ->
  let log := snd (main RR_DEFAULTPORT RR_DEFAULTSSLPORT env argv) in
  hcount is_disconnect log <= hcount is_connect log
  <= hcount is_disconnect log + 1 /\
  hcount is_connect log <= opt_iter o /\
  hcount is_sendframe log <= opt_iter o * opt_frames o /\
  hcount is_caught log <= 1 /\
  (hcount is_caught log = 0 ->
   hcount is_connect log = opt_iter o /\
   hcount is_disconnect log = opt_iter o /\
   hcount is_sendframe log = opt_iter o * opt_frames o) /\
  (hcount is_caught log = 1 -> hcount is_disconnect log < opt_iter o).
Proof.
  intros Hparse log.
  destruct (parse_args_positive _ _ _ _ Hparse) as [Hiter Hframes].
  assert (Htail : forall (l : list hevent) (ok : bool) (dpy win : Z)
                         (f : hevent -> bool),
    f HCaught = false ->
    (forall a, f (HDestroyWindow a) = false) ->
    (forall a, f (HCloseDisplay a) = false) ->
    hcount f (l ++ (if ok then [] else [HCaught])
                ++ (if negb (win =? 0) then [HDestroyWindow win] else [])
                ++ (if negb (dpy =? NULL) then [HCloseDisplay dpy] else []))
    = hcount f l).
  { intros l ok dpy win f H1 H2 H3. rewrite !hcount_app.
    destruct ok, (negb (win =? 0)), (negb (dpy =? NULL));
      rewrite ?hcount_cons, ?hcount_nil, ?H1, ?H2, ?H3; lia. }
  assert (Hcaught : forall (l : list hevent) (ok : bool) (dpy win : Z),
    hcount is_caught l = 0 ->
    hcount is_caught
      (l ++ (if ok then [] else [HCaught])
         ++ (if negb (win =? 0) then [HDestroyWindow win] else [])
         ++ (if negb (dpy =? NULL) then [HCloseDisplay dpy] else []))
    = if ok then 0 else 1).
  { intros l ok dpy win Hl. rewrite !hcount_app, Hl.
    destruct ok, (negb (win =? 0)), (negb (dpy =? NULL)); reflexivity. }
  assert (Hblock :
    hcount is_caught (snd (fst (try_block env o))) = 0 /\
    hcount is_connect (snd (fst (try_block env o)))
    = hcount is_disconnect (snd (fst (try_block env o)))
      + (if snd (try_block env o) then 0
         else hcount is_connect (snd (fst (try_block env o)))
              - hcount is_disconnect (snd (fst (try_block env o)))) /\
    hcount is_disconnect (snd (fst (try_block env o)))
    <= hcount is_connect (snd (fst (try_block env o)))
    <= hcount is_disconnect (snd (fst (try_block env o))) + 1 /\
    hcount is_connect (snd (fst (try_block env o))) <= opt_iter o /\
    hcount is_sendframe (snd (fst (try_block env o)))
    <= opt_iter o * opt_frames o /\
    (snd (try_block env o) = true ->
     hcount is_connect (snd (fst (try_block env o))) = opt_iter o /\
     hcount is_disconnect (snd (fst (try_block env o))) = opt_iter o /\
     hcount is_sendframe (snd (fst (try_block env o)))
     = opt_iter o * opt_frames o) /\
    (snd (try_block env o) = false ->
     hcount is_disconnect (snd (fst (try_block env o))) < opt_iter o)).
  { split; [apply try_block_hcount_none; intros [] H;
            try discriminate; reflexivity|].
    unfold try_block.
    destruct (negb (XInitThreads_status env));
      [cbn [fst snd]; rewrite !hcount_nil;
       repeat split; try lia; try discriminate|].
    destruct (XOpenDisplay_result env =? NULL);
      [cbn [fst snd]; rewrite !hcount_nil;
       repeat split; try lia; try discriminate|].
    destruct (XCreateSimpleWindow_result env =? 0);
      [cbn [fst snd]; rewrite !hcount_nil;
       repeat split; try lia; try discriminate|].
    destruct (negb (XMapRaised_status env));
      [cbn [fst snd]; rewrite !hcount_cons, !hcount_nil;
       cbn [is_connect is_disconnect is_sendframe];
       repeat split; try lia; try discriminate|].
    match goal with
    | |- context [for_up ?n ?x (cycle env o ?c ?w)] =>
        pose proof (cycles_account env o c w n x ltac:(lia)) as Hacc;
        cbv zeta in Hacc;
        destruct (for_up n x (cycle env o c w)) as [l ok]
    end.
    cbn [fst snd] in *.
    rewrite !hcount_cons. cbn [is_connect is_disconnect is_sendframe].
    rewrite Z2Nat.id in Hacc by lia.
    destruct Hacc as (Hc & Hn & Hs & Ht & Hf).
    destruct ok.
    - destruct (Ht eq_refl) as [E1 E2].
      repeat split; try lia; try discriminate.
    - specialize (Hf eq_refl).
      repeat split; try lia; try discriminate. }
  unfold log, main. rewrite Hparse.
  destruct (try_block env o) as [[[dpy win] l] ok]. cbn [fst snd] in *.
  destruct Hblock as (B0 & _ & B1 & B2 & B3 & B4 & B5).
  rewrite (Hcaught l ok dpy win B0).
  rewrite !(Htail l ok dpy win) by reflexivity.
  split; [exact B1|]. split; [exact B2|]. split; [exact B3|].
  destruct ok.
  - split; [lia|]. split; [intros _; apply B4; reflexivity|discriminate].
  - split; [lia|]. split; [discriminate|intros _; apply B5; reflexivity].
Qed.

Lemma main_accounting_witness :
  hcount is_connect
    (snd (main 4242 4243 env_second_connect_fails ["ut"; "3"; "2"]%string))
  = 2 /\
  hcount is_disconnect
    (snd (main 4242 4243 env_second_connect_fails ["ut"; "3"; "2"]%string))
  < 3.
Proof.
  split; [reflexivity|].
  apply (main_accounting 4242 4243 env_second_connect_fails
           ["ut"; "3"; "2"]%string (mkOptions 3 2 false None 4242)
           eq_refl).
  reflexivity.
Defined.

(** X19.  On arguments that pass the usage check the harness closes the
    display exactly when it has opened one, and destroys the window
    exactly when it has created one, once each, whether the run ends in
    an exception or not. *)
Theorem main_releases (RR_DEFAULTPORT RR_DEFAULTSSLPORT : Z) (env : Env)
    (argv : list string) (o : options) :
  parse_args RR_DEFAULTPORT RR_DEFAULTSSLPORT argv = Some o ->
  let log := snd (main RR_DEFAULTPORT RR_DEFAULTSSLPORT env argv) in
  let opened := XInitThreads_status env
                && negb (XOpenDisplay_result env =? NULL) in
  let created := opened && negb (XCreateSimpleWindow_result env =? 0) in
  hcount is_close_display log = (if opened then 1 else 0) /\
  hcount is_destroy_window log = (if created then 1 else 0) /\
  (opened = true -> In (HCloseDisplay (XOpenDisplay_result env)) log) /\
  (created = true ->
   In (HDestroyWindow (XCreateSimpleWindow_result env)) log).
Proof.
  intros Hparse log opened created.
  assert (Hc : hcount is_close_display (snd (fst (try_block env o))) = 0)
    by (apply try_block_hcount_none; intros [] H;
        try discriminate; reflexivity).
  assert (Hd : hcount is_destroy_window (snd (fst (try_block env o))) = 0)
    by (apply try_block_hcount_none; intros [] H;
        try discriminate; reflexivity).
  assert (Hres : fst (fst (fst (try_block env o)))
                 = (if opened then XOpenDisplay_result env else NULL) /\
                 snd (fst (fst (try_block env o)))
                 = (if created then XCreateSimpleWindow_result env else 0)).
  { unfold try_block, created, opened.
    destruct (XInitThreads_status env); cbn [negb andb];
      [|split; reflexivity].
    destruct (Z.eqb_spec (XOpenDisplay_result env) NULL) as [E|E];
      cbn [negb andb]; [rewrite E; split; reflexivity|].
    destruct (Z.eqb_spec (XCreateSimpleWindow_result env) 0) as [E'|E'];
      cbn [negb]; [rewrite E'; split; reflexivity|].
    destruct (negb (XMapRaised_status env)); [split; reflexivity|].
    destruct (for_up _ _ _). split; reflexivity. }
  unfold log, main. rewrite Hparse.
  destruct (try_block env o) as [[[dpy win] l] ok]. cbn [fst snd] in *.
  destruct Hres as [Hdpy Hwin]. subst dpy win.
  assert (Ho : opened = true -> (XOpenDisplay_result env =? NULL) = false).
  { unfold opened. intros H. apply andb_prop in H.
    apply negb_true_iff, H. }
  assert (Hw : created = true ->
               (XCreateSimpleWindow_result env =? 0) = false).
  { unfold created. intros H. apply andb_prop in H.
    apply negb_true_iff, H. }
  rewrite !hcount_app, Hc, Hd.
  destruct opened eqn:Eo; destruct created eqn:Ec;
    rewrite ?(Ho eq_refl), ?(Hw eq_refl); cbn [negb Z.eqb NULL];
    destruct ok; cbn [hcount filter List.length Z.of_nat app
                        is_close_display is_destroy_window];
    repeat split; try reflexivity; try discriminate;
    intros _; apply in_or_app; right; simpl; tauto.
Qed.

Lemma main_releases_witness :
  In (HCloseDisplay 4096)
    (snd (main 4242 4243 env_second_connect_fails ["ut"; "3"; "2"]%string))
  /\
  hcount is_destroy_window
    (snd (main 4242 4243 env_second_connect_fails ["ut"; "3"; "2"]%string))
  = 1.
Proof.
  destruct (main_releases 4242 4243 env_second_connect_fails
              ["ut"; "3"; "2"]%string (mkOptions 3 2 false None 4242)
              eq_refl) as (_ & H2 & H3 & _).
  split; [apply H3; reflexivity|exact H2].
Defined.

(** X20.  The test pattern of lines 72-73 holds only the bytes 0 and 255;
    neighbouring bytes of a frame are complementary, and so are the bytes
    at the same offset of the frames of two successive iterations. *)
Theorem frame_byte_pattern (i j : Z) :
  0 <= i -> 0 <= j ->
  (frame_byte i j = 0 \/ frame_byte i j = 255) /\
  frame_byte i j + frame_byte i (j + 1) = 255 /\
  frame_byte i j + frame_byte (i + 1) j = 255.
Proof.
  intros Hi Hj. unfold frame_byte.
  assert (Hrem : forall x, 0 <= x ->
            (Z.rem x 2 = 0 /\ Z.rem (x + 1) 2 = 1)
            \/ (Z.rem x 2 = 1 /\ Z.rem (x + 1) 2 = 0)).
  { intros x Hx. rewrite !Z.rem_mod_nonneg by lia.
    pose proof (Z.mod_pos_bound x 2 ltac:(lia)).
    pose proof (Z.mod_pos_bound (x + 1) 2 ltac:(lia)).
    pose proof (Z.div_mod x 2 ltac:(lia)).
    pose proof (Z.div_mod (x + 1) 2 ltac:(lia)).
    lia. }
  destruct (Hrem i Hi) as [[A1 A2]|[A1 A2]];
    destruct (Hrem j Hj) as [[B1 B2]|[B1 B2]];
    rewrite A1, A2, B1, B2; cbn [Z.eqb]; lia.
Qed.

Lemma frame_byte_pattern_witness :
  frame_byte 4 10 + frame_byte 5 10 = 255.
Proof.
  apply (frame_byte_pattern 4 10); lia.
Defined.
